(** * Salesforce desktop extension: the tool handlers and the session acquirer

    A shallow embedding of the TypeScript sources

    - [src/index.ts]            (the monolithic server, module [Monolith]),
    - [src/utils/connection.ts] (the modular session acquirer, module [Modular]),
    - the modular [manageObject] tool (module [Modular]),
    - the other handlers of [src/index.ts] (modules [Handlers], [Tooling]) and
      the whole of its [handleToolCall] (module [Dispatch]),
    - the tool call of the modular server (module [Registry]) and the
      registration of [scripts/setup.js] (module [Setup]),

    over a small model of the JavaScript values the handlers manipulate
    (module [JS]) and of the remote platform (module [Net]).

    Conventions of the model.
    - A JavaScript value of type [any] is a [JS.value]. Numbers are the
      integers; strings are sequences of 8-bit characters; only own properties
      are modelled (nothing is inherited from a prototype).
    - An [async] function is a computation in the monad [Net.M]: it reads the
      history of the calls issued to the platform so far, may issue further
      calls, and either returns or throws an [JS.error]. The replies of the
      platform and of the library functions the code relies on ([URL],
      [querystring], [JSON.parse], [https], [jsforce]) come from a [Net.World].
    - Timers need real time and are left out: [Promise.race] against a
      [setTimeout] is the raced operation itself, and the ['timeout'] event of
      a request never fires. Calls to the logger only write to the console
      and are left out as well. *)

From Stdlib Require Import String Ascii List ZArith Lia Bool DecimalString.
Import ListNotations.
Open Scope string_scope.
Set Warnings "-register-all".

(* ================================================================== *)
(** ** JavaScript values *)
(* ================================================================== *)

Module JS.

Inductive value : Type :=
| VUndef
| VNull
| VBool (b : bool)
| VNum (z : Z)
| VStr (s : string)
| VArr (items : list value)
| VObj (fields : list (string * value)).

(** An [Error] object: its [name] ("Error", "TypeError", "SyntaxError") and
    its [message]. *)
Record error : Type := mkError { name : string; message : string }.

Inductive result (A : Type) : Type :=
| Ok (a : A)
| Throw (e : error).
Arguments Ok {A} a.
Arguments Throw {A} e.

(** [new Error(msg)] *)
Definition Error (msg : string) : error := mkError "Error" msg.
Definition TypeError (msg : string) : error := mkError "TypeError" msg.

(** Decimal rendering of a number. *)
Definition dec (n : nat) : string := NilZero.string_of_uint (Nat.to_uint n).
Definition decZ (z : Z) : string := NilZero.string_of_int (Z.to_int z).

(** [Array.prototype.join] on strings. *)
Definition join (sep : string) (l : list string) : string := String.concat sep l.

(** Truthiness: what [if (v)], [!v], [v || d] and [v ? a : b] test. *)
Definition truthy (v : value) : bool :=
  match v with
  | VUndef | VNull => false
  | VBool b => b
  | VNum z => negb (Z.eqb z 0)
  | VStr s => negb (String.eqb s "")
  | VArr _ | VObj _ => true
  end.

(** [a || b] *)
Definition or_else (a b : value) : value := if truthy a then a else b.

(** [String(v)], which is also what a template literal interpolates. *)
Fixpoint toString (v : value) : string :=
  match v with
  | VUndef => "undefined"
  | VNull => "null"
  | VBool true => "true"
  | VBool false => "false"
  | VNum z => decZ z
  | VStr s => s
  | VArr items =>
      join "," (map (fun x => match x with
                              | VUndef | VNull => ""
                              | _ => toString x
                              end) items)
  | VObj _ => "[object Object]"
  end.

(** [String(e)] for an [Error] object ([Error.prototype.toString]). *)
Definition errorToString (e : error) : string :=
  if String.eqb (name e) "" then message e
  else if String.eqb (message e) "" then name e
  else name e ++ ": " ++ message e.

(** Lookup of an own property in the list of fields of an object. *)
Fixpoint lookup (k : string) (fields : list (string * value)) : option value :=
  match fields with
  | [] => None
  | (k', v) :: rest => if String.eqb k k' then Some v else lookup k rest
  end.

(** The element whose index, written in decimal, is the key [k]. *)
Fixpoint at_index {A : Type} (k : string) (i : nat) (l : list A) : option A :=
  match l with
  | [] => None
  | x :: rest => if String.eqb k (dec i) then Some x else at_index k (S i) rest
  end.

Fixpoint chars (s : string) : list string :=
  match s with
  | EmptyString => []
  | String c rest => String c EmptyString :: chars rest
  end.

Definition opt_or_undef (o : option value) : value :=
  match o with Some v => v | None => VUndef end.

(** [v[k]] and [v.k]: reading a property. Reading from [undefined] or [null]
    throws a [TypeError]. *)
Definition get (v : value) (k : string) : result value :=
  match v with
  | VUndef =>
      Throw (TypeError ("Cannot read properties of undefined (reading '" ++ k ++ "')"))
  | VNull =>
      Throw (TypeError ("Cannot read properties of null (reading '" ++ k ++ "')"))
  | VBool _ | VNum _ => Ok VUndef
  | VStr s =>
      if String.eqb k "length" then Ok (VNum (Z.of_nat (String.length s)))
      else Ok (opt_or_undef (option_map VStr (at_index k 0 (chars s))))
  | VArr items =>
      if String.eqb k "length" then Ok (VNum (Z.of_nat (List.length items)))
      else Ok (opt_or_undef (at_index k 0 items))
  | VObj fields => Ok (opt_or_undef (lookup k fields))
  end.

(** [v?.[k]] *)
Definition get_opt (v : value) (k : string) : value :=
  match get v k with Ok x => x | Throw _ => VUndef end.

(** [obj[k] = v] on the fields of an object: an existing property keeps its
    place, a new one goes last. *)
Fixpoint set (k : string) (v : value) (fields : list (string * value))
  : list (string * value) :=
  match fields with
  | [] => [(k, v)]
  | (k', v') :: rest =>
      if String.eqb k k' then (k', v) :: rest else (k', v') :: set k v rest
  end.

Fixpoint indexed {A : Type} (i : nat) (l : list A) : list (string * A) :=
  match l with
  | [] => []
  | x :: rest => (dec i, x) :: indexed (S i) rest
  end.

(** The own enumerable properties an object spread [{...v}] copies. *)
Definition spread (v : value) : list (string * value) :=
  match v with
  | VObj fields => fields
  | VArr items => indexed 0 items
  | VStr s => indexed 0 (map VStr (chars s))
  | _ => []
  end.

(** [{...acc, ...props}] on lists of fields. *)
Definition assign (acc props : list (string * value)) : list (string * value) :=
  fold_left (fun a kv => set (fst kv) (snd kv) a) props acc.

(** An object literal [{k1: v1, k2: v2, ...}]. *)
Definition literal (props : list (string * value)) : value := VObj (assign [] props).

(** An optional string argument as a value: absent is [undefined]. *)
Definition ofOpt (o : option string) : value :=
  match o with Some s => VStr s | None => VUndef end.

(** [s.split(c)] for a one-character separator. *)
Fixpoint split (c : ascii) (s : string) : list string :=
  match s with
  | EmptyString => [EmptyString]
  | String a rest =>
      if Ascii.eqb a c then EmptyString :: split c rest
      else match split c rest with
           | h :: t => String a h :: t
           | [] => [String a EmptyString]
           end
  end.

(** [s.endsWith(suffix)] *)
Definition endsWith (s suffix : string) : bool :=
  let n := String.length s in
  let m := String.length suffix in
  (m <=? n)%nat && String.eqb (substring (n - m) m s) suffix.

Definition upper (c : ascii) : ascii :=
  let n := nat_of_ascii c in
  if ((97 <=? n) && (n <=? 122))%nat then ascii_of_nat (n - 32) else c.

(** [s.toUpperCase()] *)
Fixpoint toUpperCase (s : string) : string :=
  match s with
  | EmptyString => EmptyString
  | String c rest => String (upper c) (toUpperCase rest)
  end.

(** [Array.isArray(v) ? v : [v]] *)
Definition asArray (v : value) : list value :=
  match v with VArr items => items | _ => [v] end.

(** Sequencing of synchronous steps that may throw. *)
Definition rbind {A B : Type} (r : result A) (k : A -> result B) : result B :=
  match r with Ok a => k a | Throw e => Throw e end.

(** [l.map(f)] when [f] may throw: the first exception ends the loop. *)
Fixpoint mapR {A B : Type} (f : A -> result B) (l : list A) : result (list B) :=
  match l with
  | [] => Ok []
  | x :: rest =>
      rbind (f x) (fun y => rbind (mapR f rest) (fun ys => Ok (y :: ys)))
  end.

(** [l.map((x, idx) => f(x, idx))] when [f] may throw; [i] is the index of
    the head. *)
Fixpoint mapiR {A B : Type} (f : A -> nat -> result B) (i : nat) (l : list A)
  : result (list B) :=
  match l with
  | [] => Ok []
  | x :: rest =>
      rbind (f x i) (fun y => rbind (mapiR f (S i) rest) (fun ys => Ok (y :: ys)))
  end.

(** [l.filter(p)] when [p] may throw. *)
Fixpoint filterR {A : Type} (p : A -> result bool) (l : list A) : result (list A) :=
  match l with
  | [] => Ok []
  | x :: rest =>
      rbind (p x) (fun b =>
      rbind (filterR p rest) (fun ys => Ok (if b then x :: ys else ys)))
  end.

(** The string an element contributes to [Array.prototype.join]. *)
Definition joinItem (v : value) : string :=
  match v with VUndef | VNull => "" | _ => toString v end.

(** [v !== null && v !== undefined] *)
Definition notNullish (v : value) : bool :=
  match v with VUndef | VNull => false | _ => true end.

(** A present, non-empty optional string: what [if (s)] tests. *)
Definition present (o : option string) : bool := truthy (ofOpt o).

(** [s || d] for an optional string and a string default. *)
Definition strOr (o : option string) (d : string) : string :=
  match o with
  | Some s => if String.eqb s "" then d else s
  | None => d
  end.

(** [error.message || String(error)] *)
Definition messageOf (e : error) : string :=
  if String.eqb (message e) "" then errorToString e else message e.

(** [haystack.includes(needle)], as a proposition. *)
Definition contains (haystack needle : string) : Prop :=
  exists pre post, haystack = pre ++ needle ++ post.

End JS.

(* ================================================================== *)
(** ** The platform and the effects of an asynchronous function *)
(* ================================================================== *)

Module Net.
Import JS.

(** A parsed [URL]. *)
Record url : Type := mkUrl { hostname : string; pathname : string }.

(** The options and the body of an [https.request]. *)
Record httpsReq : Type := mkHttpsReq {
  method : string;
  req_hostname : string;
  req_path : string;
  req_timeout : option value;
  contentType : string;
  contentLength : nat;
  body : string
}.

(** How an [https.request] settles: the response ends with a status code and
    the data received, or the request emits ['error']. *)
Inductive https_outcome : Type :=
| HttpEnd (statusCode : Z) (data : string)
| HttpError (e : error).

(** A [jsforce.Connection]: built from a token, or from a login URL. *)
Inductive Connection : Type :=
| ConnToken (instanceUrl accessToken : value)
| ConnLogin (loginUrl : string) (version : option string).

(** The calls the handlers make through a connection, other than queries. *)
Inductive request : Type :=
| SobjectCreate (sobject : string) (records : value)
| SobjectUpdate (sobject : string) (records : value)
| SobjectDestroy (sobject : string) (ids : value)
| SobjectUpsert (sobject : string) (records : value) (externalIdField : string)
| Metadata (operation : string) (type : string) (payload : value)
| ToolingExecuteAnonymous (apexCode : string).

(** A network operation. *)
Inductive event : Type :=
| EHttps (r : httpsReq)
| ELogin (c : Connection) (username password : string)
| EQuery (c : Connection) (soql : string)
| ECall (c : Connection) (r : request).

(** The library functions the code calls and the replies of the platform.
    A reply may depend on everything issued before it. *)
Record World : Type := mkWorld {
  new_URL : string -> string -> result url;
  querystring_escape : string -> string;
  JSON_parse : string -> result value;
  parseInt : string -> value;
  https_request : list event -> httpsReq -> https_outcome;
  login : list event -> Connection -> string -> string -> result value;
  query : list event -> Connection -> string -> result (list value);
  call : list event -> Connection -> request -> result value
}.

(** An asynchronous computation: from the calls issued so far to an outcome
    and the calls issued by the end. *)
Definition M (A : Type) : Type := list event -> result A * list event.

Definition ret {A : Type} (a : A) : M A := fun h => (Ok a, h).
Definition throw {A : Type} (e : error) : M A := fun h => (Throw e, h).
Definition bind {A B : Type} (m : M A) (k : A -> M B) : M B :=
  fun h => match m h with
           | (Ok a, h') => k a h'
           | (Throw e, h') => (Throw e, h')
           end.
(** [try { m } catch (e) { handler(e) }] *)
Definition try_catch {A : Type} (m : M A) (handler : error -> M A) : M A :=
  fun h => match m h with
           | (Ok a, h') => (Ok a, h')
           | (Throw e, h') => handler e h'
           end.
(** A synchronous step that may throw. *)
Definition lift {A : Type} (r : result A) : M A := fun h => (r, h).

Declare Scope net_scope.
Delimit Scope net_scope with net.
Notation "x <- m ;; k" := (bind m (fun x => k))
  (at level 61, m at next level, right associativity) : net_scope.
Notation "m ;;; k" := (bind m (fun _ => k))
  (at level 61, right associativity) : net_scope.
Open Scope net_scope.

Section Operations.
Variable w : World.

Definition do_https (r : httpsReq) : M https_outcome :=
  fun h => (Ok (https_request w h r), (h ++ [EHttps r])%list).
Definition do_login (c : Connection) (username password : string) : M value :=
  fun h => (login w h c username password, (h ++ [ELogin c username password])%list).
Definition do_query (c : Connection) (soql : string) : M (list value) :=
  fun h => (query w h c soql, (h ++ [EQuery c soql])%list).
Definition do_call (c : Connection) (r : request) : M value :=
  fun h => (call w h c r, (h ++ [ECall c r])%list).

(** [querystring.stringify] of an object with string values. *)
Definition querystring_stringify (props : list (string * string)) : string :=
  join "&" (map (fun kv => querystring_escape w (fst kv) ++ "="
                            ++ querystring_escape w (snd kv)) props).
End Operations.

(** [for (const x of l) { body(x) }] *)
Fixpoint for_of {A : Type} (l : list A) (body : A -> M unit) : M unit :=
  match l with
  | [] => ret tt
  | x :: rest => body x ;;; for_of rest body
  end.

(** The uniform response of a tool: [{content: [{type, text}], isError}].
    [isError] is [None] where the handler leaves the property out. *)
Record textContent : Type := mkText { type : string; text : string }.
Record response : Type := mkResponse {
  content : list textContent;
  isError : option bool
}.

Definition textResponse (t : string) : response :=
  mkResponse [mkText "text" t] None.

(** The text of a response: its text blocks, one after the other. *)
Definition responseText (r : response) : string :=
  String.concat "" (map text (content r)).

(** What a client reads from the flag: an absent flag is not an error. *)
Definition flaggedError (r : response) : bool :=
  match isError r with Some b => b | None => false end.

End Net.

(* ================================================================== *)
(** ** [src/index.ts]: the monolithic server *)
(* ================================================================== *)

Module Monolith.
Import JS Net.

(** [interface ExtensionConfig] *)
Record ExtensionConfig : Type := mkConfig {
  connectionType : string;
  instanceUrl : string;
  username : option string;
  password : option string;
  securityToken : option string;
  clientId : option string;
  clientSecret : option string;
  apiVersion : string;
  timeout : value;
  logLevel : string
}.

(** [process.env], restricted to the variables the server reads. *)
Record ProcessEnv : Type := mkEnv {
  SALESFORCE_CONNECTION_TYPE : option string;
  SALESFORCE_INSTANCE_URL : option string;
  SALESFORCE_USERNAME : option string;
  SALESFORCE_PASSWORD : option string;
  SALESFORCE_TOKEN : option string;
  SALESFORCE_CLIENT_ID : option string;
  SALESFORCE_CLIENT_SECRET : option string;
  SALESFORCE_API_VERSION : option string;
  SALESFORCE_TIMEOUT : option string;
  SALESFORCE_LOG_LEVEL : option string
}.

Section Server.
Variable w : World.

Definition initConfig (env : ProcessEnv) : ExtensionConfig :=
  {| connectionType := strOr (SALESFORCE_CONNECTION_TYPE env) "User_Password";
     instanceUrl := strOr (SALESFORCE_INSTANCE_URL env) "https://login.salesforce.com";
     username := SALESFORCE_USERNAME env;
     password := SALESFORCE_PASSWORD env;
     securityToken := SALESFORCE_TOKEN env;
     clientId := SALESFORCE_CLIENT_ID env;
     clientSecret := SALESFORCE_CLIENT_SECRET env;
     apiVersion := strOr (SALESFORCE_API_VERSION env) "58.0";
     timeout := parseInt w (strOr (SALESFORCE_TIMEOUT env) "30000");
     logLevel := strOr (SALESFORCE_LOG_LEVEL env) "info" |}.

(** The global [config]. *)
Variable config : ExtensionConfig.

(** The promise around [https.request]: what the ['end'] and ['error']
    handlers of the token request do. *)
Definition tokenRequest (req : httpsReq) : M value :=
  out <- do_https w req ;;
  match out with
  | HttpError e => throw e
  | HttpEnd statusCode data =>
      let parseFailure (e : error) : M value :=
        throw (Error ("Failed to parse OAuth response: " ++ errorToString e)) in
      match JSON_parse w data with
      | Throw e => parseFailure e
      | Ok parsed =>
          if negb (Z.eqb statusCode 200) then
            match get parsed "error" with
            | Throw e => parseFailure e
            | Ok err =>
                match get parsed "error_description" with
                | Throw e => parseFailure e
                | Ok description =>
                    throw (Error ("OAuth failed: " ++ toString err ++ " - "
                                  ++ toString description))
                end
            end
          else ret parsed
      end
  end.

(** [querystring.stringify({grant_type, client_id, client_secret})] *)
Definition requestBody : string :=
  querystring_stringify w
    [("grant_type", "client_credentials");
     ("client_id", strOr (clientId config) "");
     ("client_secret", strOr (clientSecret config) "")].

(** The options and body of the token request. *)
Definition tokenOptions (tokenUrl : url) : httpsReq :=
  {| method := "POST";
     req_hostname := hostname tokenUrl;
     req_path := pathname tokenUrl;
     req_timeout := Some (timeout config);
     contentType := "application/x-www-form-urlencoded";
     contentLength := String.length requestBody;
     body := requestBody |}.

Definition createConnectionInternal : M Connection :=
  if String.eqb (connectionType config) "OAuth_2.0_Client_Credentials" then
    if negb (present (clientId config)) || negb (present (clientSecret config)) then
      throw (Error "Client ID and Client Secret are required for OAuth 2.0")
    else
      tokenUrl <- lift (new_URL w "/services/oauth2/token" (instanceUrl config)) ;;
      tokenResponse <- tokenRequest (tokenOptions tokenUrl) ;;
      instance_url <- lift (get tokenResponse "instance_url") ;;
      access_token <- lift (get tokenResponse "access_token") ;;
      ret (ConnToken instance_url access_token)
  else
    if negb (present (username config)) || negb (present (password config)) then
      throw (Error "Username and Password are required")
    else
      let conn := ConnLogin (instanceUrl config) (Some (apiVersion config)) in
      do_login w conn (strOr (username config) "")
               (strOr (password config) "" ++ strOr (securityToken config) "") ;;;
      ret conn.

(** [Promise.race] of the connection against its timer. *)
Definition createSalesforceConnection : M Connection := createConnectionInternal.

(** [Promise.race] of a handler against its timer. *)
Definition executeWithTimeout {A : Type} (promise : M A) : M A := promise.


(* ---------------------------------------------------------------- *)
(** *** Helper functions *)

Definition formatErrors (errors : value) : result value :=
  match errors with
  | VArr items =>
      rbind (mapR (fun e => get e "message") items) (fun messages =>
      Ok (VStr (join ", " (map joinItem messages))))
  | _ =>
      rbind (get errors "message") (fun m =>
      Ok (or_else m (VStr (toString errors))))
  end.

(** [name.endsWith('__c') ? name : `${name}__c`] *)
Definition fieldApiNameOf (fieldName : string) : string :=
  if endsWith fieldName "__c" then fieldName else fieldName ++ "__c".

(** The body of the loop of [grantFieldPermissions], inside its [try]. *)
Definition grantOne (conn : Connection) (objectName fullFieldName profileName : string)
  : M unit :=
  profile <- do_query w conn
               ("SELECT Id FROM Profile WHERE Name = '" ++ profileName ++ "'") ;;
  if (List.length profile =? 0)%nat then ret tt
  else
    profileId <- lift (get (nth 0 profile VUndef) "Id") ;;
    permSet <- do_query w conn ("
        SELECT Id FROM PermissionSet 
        WHERE IsOwnedByProfile = true AND ProfileId = '" ++ toString profileId ++ "'
      ") ;;
    if (0 <? List.length permSet)%nat then
      parentId <- lift (get (nth 0 permSet VUndef) "Id") ;;
      do_call w conn (SobjectCreate "FieldPermissions"
        (literal [("ParentId", parentId);
                  ("SobjectType", VStr objectName);
                  ("Field", VStr fullFieldName);
                  ("PermissionsRead", VBool true);
                  ("PermissionsEdit", VBool true)])) ;;;
      ret tt
    else ret tt.

Definition grantFieldPermissions (conn : Connection) (objectName fieldName : string)
    (profileNames : list string) : M unit :=
  let fieldApiName := fieldApiNameOf fieldName in
  let fullFieldName := objectName ++ "." ++ fieldApiName in
  for_of profileNames (fun profileName =>
    try_catch (grantOne conn objectName fullFieldName profileName)
              (fun _ => ret tt)).

(* ---------------------------------------------------------------- *)
(** *** [aggregateQuery] *)

Record AggregateQueryArgs : Type := mkAggregateQueryArgs {
  aq_objectName : string;
  aq_selectFields : list string;
  aq_groupByFields : list string;
  aq_whereClause : option string;
  aq_havingClause : option string;
  aq_orderBy : option string;
  aq_limit : option Z
}.

(** [if (clause) soql += ` KEYWORD ${clause}`] *)
Definition clause (keyword : string) (c : option string) : string :=
  if present c then " " ++ keyword ++ " " ++ strOr c "" else "".

Definition limitClause (l : option Z) : string :=
  match l with
  | Some n => if Z.eqb n 0 then "" else " LIMIT " ++ decZ n
  | None => ""
  end.

Definition aggregateSoql (args : AggregateQueryArgs) : string :=
  "SELECT " ++ join ", " (aq_selectFields args) ++ " FROM " ++ aq_objectName args
  ++ clause "WHERE" (aq_whereClause args)
  ++ " GROUP BY " ++ join ", " (aq_groupByFields args)
  ++ clause "HAVING" (aq_havingClause args)
  ++ clause "ORDER BY" (aq_orderBy args)
  ++ limitClause (aq_limit args).

(** [field.split(' ')[0]] *)
Definition baseFieldOf (field : string) : string := hd "" (split " " field).
(** [field.split(' ').pop()] *)
Definition aliasOf (field : string) : string := last (split " " field) "".

(** [record[alias] || record[baseField]] *)
Definition groupValue (record : value) (field : string) : result value :=
  rbind (get record (aliasOf field)) (fun byAlias =>
  if truthy byAlias then Ok byAlias else get record (baseFieldOf field)).

(** The line rendered for one select-field of one record. *)
Definition aggregateLine (record : value) (field : string) : result string :=
  rbind (groupValue record field) (fun value =>
  Ok ("    " ++ aliasOf field ++ ": "
      ++ (if notNullish value then toString value else "null"))).

Definition aggregateGroup (selectFields : list string) (record : value) (idx : nat)
  : result string :=
  rbind (mapR (aggregateLine record) selectFields) (fun fields =>
  Ok ("Group " ++ dec (idx + 1) ++ ":\n" ++ join "\n" fields)).

Definition aggregateQuery (conn : Connection) (args : AggregateQueryArgs) : M response :=
  records <- do_query w conn (aggregateSoql args) ;;
  formatted <- lift (mapiR (aggregateGroup (aq_selectFields args)) 0 records) ;;
  ret (textResponse ("Aggregate query returned " ++ dec (List.length records)
                     ++ " groups:\n\n" ++ join "\n\n" formatted)).


(* ---------------------------------------------------------------- *)
(** *** [dmlRecords] *)

Record DmlArgs : Type := mkDmlArgs {
  dml_operation : string;
  dml_objectName : string;
  dml_records : list value;
  dml_externalIdField : option string
}.

(** The [switch] of [dmlRecords]: the one call the operation issues. *)
Definition dmlSubmit (conn : Connection) (args : DmlArgs) : M value :=
  let op := dml_operation args in
  if String.eqb op "insert" then
    do_call w conn (SobjectCreate (dml_objectName args) (VArr (dml_records args)))
  else if String.eqb op "update" then
    do_call w conn (SobjectUpdate (dml_objectName args) (VArr (dml_records args)))
  else if String.eqb op "delete" then
    ids <- lift (mapR (fun r => get r "Id") (dml_records args)) ;;
    do_call w conn (SobjectDestroy (dml_objectName args) (VArr ids))
  else if String.eqb op "upsert" then
    if negb (present (dml_externalIdField args)) then
      throw (Error "externalIdField required for upsert")
    else
      do_call w conn (SobjectUpsert (dml_objectName args) (VArr (dml_records args))
                                    (strOr (dml_externalIdField args) ""))
  else ret VUndef.

(** [results.filter((r) => r.success)] *)
Definition successful (results : list value) : result (list value) :=
  filterR (fun r => rbind (get r "success") (fun s => Ok (truthy s))) results.

(** The [forEach] over the results: the lines of the failed entries that
    carry errors; [idx] is the index of the head. *)
Fixpoint dmlErrorLines (results : list value) (idx : nat) : result string :=
  match results with
  | [] => Ok ""
  | r :: rest =>
      rbind (get r "success") (fun s =>
      rbind (get r "errors") (fun errors =>
      rbind (if negb (truthy s) && truthy errors
             then rbind (formatErrors errors) (fun msg =>
                  Ok ("Record " ++ dec (idx + 1) ++ ": " ++ toString msg ++ "\n"))
             else Ok "") (fun line =>
      rbind (dmlErrorLines rest (S idx)) (fun lines =>
      Ok (line ++ lines)))))
  end.

(** The counts the report shows: [success] and [failed]. *)
Definition dmlCounts (results : list value) : result (nat * nat) :=
  rbind (successful results) (fun ok =>
  let success := List.length ok in
  Ok (success, List.length results - success)).

(** Everything [dmlRecords] does with the result of the platform. *)
Definition dmlReport (operation : string) (result : value) : JS.result string :=
  let results := asArray result in
  rbind (dmlCounts results) (fun counts =>
  let text := toUpperCase operation ++ " completed: " ++ dec (fst counts)
              ++ " successful, " ++ dec (snd counts) ++ " failed" in
  if (0 <? snd counts)%nat then
    rbind (dmlErrorLines results 0) (fun lines =>
    Ok (text ++ "\n\nErrors:\n" ++ lines))
  else Ok text).

Definition dmlRecords (conn : Connection) (args : DmlArgs) : M response :=
  result <- dmlSubmit conn args ;;
  text <- lift (dmlReport (dml_operation args) result) ;;
  ret (textResponse text).

(* ---------------------------------------------------------------- *)
(** *** [manageObject] *)

Record ManageObjectArgs : Type := mkManageObjectArgs {
  mo_operation : string;
  mo_objectName : string;
  mo_label : option string;
  mo_pluralLabel : option string;
  mo_description : option string;
  mo_nameFieldLabel : option string;
  mo_nameFieldType : option string;
  mo_nameFieldFormat : option string;
  mo_sharingModel : option string
}.

(** The descriptor [manageObject] builds from its arguments. *)
Definition objectMetadata (args : ManageObjectArgs) : value :=
  let nameField0 :=
    [("label", or_else (ofOpt (mo_nameFieldLabel args))
                       (VStr (toString (ofOpt (mo_label args)) ++ " Name")));
     ("type", or_else (ofOpt (mo_nameFieldType args)) (VStr "Text"))] in
  let nameField :=
    if present (mo_nameFieldFormat args)
    then set "displayFormat" (ofOpt (mo_nameFieldFormat args)) nameField0
    else nameField0 in
  let metadata0 :=
    [("fullName", VStr (mo_objectName args ++ "__c"));
     ("label", ofOpt (mo_label args));
     ("pluralLabel", ofOpt (mo_pluralLabel args));
     ("nameField", VObj nameField);
     ("deploymentStatus", VStr "Deployed");
     ("sharingModel", or_else (ofOpt (mo_sharingModel args)) (VStr "ReadWrite"))] in
  VObj (if present (mo_description args)
        then set "description" (ofOpt (mo_description args)) metadata0
        else metadata0).

(** [Array.isArray(result) ? result[0].success : result.success] *)
Definition resultSuccess (result : value) : JS.result value :=
  match result with
  | VArr items => get (nth 0 items VUndef) "success"
  | _ => get result "success"
  end.

Definition manageObject (conn : Connection) (args : ManageObjectArgs) : M response :=
  result <- do_call w conn (Metadata (mo_operation args) "CustomObject"
                                     (objectMetadata args)) ;;
  success <- lift (resultSuccess result) ;;
  ret (textResponse
         (if truthy success
          then "Successfully " ++ mo_operation args ++ "d custom object "
               ++ mo_objectName args ++ "__c"
          else "Failed to " ++ mo_operation args ++ " custom object")).


(* ---------------------------------------------------------------- *)
(** *** [manageFieldPermissions] *)

Record ManageFieldPermissionsArgs : Type := mkManageFieldPermissionsArgs {
  fp_operation : string;
  fp_objectName : string;
  fp_fieldName : string;
  fp_profileNames : option (list string);
  fp_readable : option bool;
  fp_editable : option bool
}.

(** One line of the [view] report. *)
Definition permissionLine (perm : value) : result string :=
  rbind (get perm "Parent") (fun parent =>
  rbind (get parent "Profile") (fun profile =>
  rbind (get profile "Name") (fun name =>
  rbind (get perm "PermissionsRead") (fun r =>
  rbind (get perm "PermissionsEdit") (fun e =>
  Ok (toString name ++ ": Read=" ++ toString r ++ ", Edit=" ++ toString e)))))).

(** [args.profileNames || ['System Administrator']] *)
Definition profilesOf (args : ManageFieldPermissionsArgs) : list string :=
  match fp_profileNames args with
  | Some names => names
  | None => ["System Administrator"]
  end.

(** The grant/revoke loop: the lines pushed to [results], in order. *)
Fixpoint grantRevokeLoop (conn : Connection) (args : ManageFieldPermissionsArgs)
    (profiles : list string) : M (list string) :=
  match profiles with
  | [] => ret []
  | profileName :: rest =>
      pushed <- try_catch
        (if String.eqb (fp_operation args) "grant" then
           grantFieldPermissions conn (fp_objectName args) (fp_fieldName args)
                                 [profileName] ;;;
           ret ["Granted to " ++ profileName]
         else if String.eqb (fp_operation args) "revoke" then
           ret ["Revoked from " ++ profileName]
         else ret [])
        (fun error => ret ["Failed for " ++ profileName ++ ": " ++ message error]) ;;
      later <- grantRevokeLoop conn args rest ;;
      ret (pushed ++ later)%list
  end.

Definition manageFieldPermissions (conn : Connection)
    (args : ManageFieldPermissionsArgs) : M response :=
  let fieldApiName := fieldApiNameOf (fp_fieldName args) in
  let fullFieldName := fp_objectName args ++ "." ++ fieldApiName in
  if String.eqb (fp_operation args) "view" then
    records <- do_query w conn ("
      SELECT Parent.Profile.Name, PermissionsRead, PermissionsEdit
      FROM FieldPermissions
      WHERE Field = '" ++ fullFieldName ++ "'
      ORDER BY Parent.Profile.Name
    ") ;;
    formatted <- lift (mapR permissionLine records) ;;
    ret (textResponse ("Field permissions for " ++ fullFieldName ++ ":\n"
                       ++ join "\n" formatted))
  else
    results <- grantRevokeLoop conn args (profilesOf args) ;;
    ret (textResponse (join "\n" results)).

(* ---------------------------------------------------------------- *)
(** *** [executeAnonymous] *)

Record ExecuteAnonymousArgs : Type := mkExecuteAnonymousArgs {
  ea_apexCode : string;
  ea_logLevel : option string
}.

(** The text rendered from the result of the platform. *)
Definition executeAnonymousText (result : value) : JS.result string :=
  rbind (get result "compiled") (fun compiled =>
  let text := "Compilation: " ++ (if truthy compiled then "Success" else "Failed")
              ++ "\n" in
  if negb (truthy compiled) then
    rbind (get result "line") (fun line =>
    rbind (get result "column") (fun column =>
    rbind (get result "compileProblem") (fun problem =>
    Ok (text ++ "Error at line " ++ toString line ++ ", column " ++ toString column
        ++ ": " ++ toString problem))))
  else
    rbind (get result "success") (fun success =>
    if truthy success then Ok (text ++ "Execution: Success")
    else
      rbind (get result "exceptionMessage") (fun msg =>
      rbind (get result "exceptionStackTrace") (fun stack =>
      let text' := text ++ "Execution: Failed\n" ++ toString msg in
      Ok (if truthy stack
          then text' ++ "\n\nStack trace:\n" ++ toString stack
          else text'))))).

Definition executeAnonymous (conn : Connection) (args : ExecuteAnonymousArgs)
  : M response :=
  result <- do_call w conn (ToolingExecuteAnonymous (ea_apexCode args)) ;;
  text <- lift (executeAnonymousText result) ;;
  ret (textResponse text).

(* ---------------------------------------------------------------- *)
(** *** [handleToolCall] *)

(** A tool call: the name of the tool with its arguments, for the tools
    defined above. The whole [switch], with the tools defined further down
    and its [default] branch, is [Dispatch.dispatch]. *)
Inductive ToolInvocation : Type :=
| salesforce_aggregate_query (args : AggregateQueryArgs)
| salesforce_dml_records (args : DmlArgs)
| salesforce_manage_object (args : ManageObjectArgs)
| salesforce_manage_field_permissions (args : ManageFieldPermissionsArgs)
| salesforce_execute_anonymous (args : ExecuteAnonymousArgs).

Definition dispatch (conn : Connection) (call : ToolInvocation) : M response :=
  match call with
  | salesforce_aggregate_query args => executeWithTimeout (aggregateQuery conn args)
  | salesforce_dml_records args => executeWithTimeout (dmlRecords conn args)
  | salesforce_manage_object args => executeWithTimeout (manageObject conn args)
  | salesforce_manage_field_permissions args =>
      executeWithTimeout (manageFieldPermissions conn args)
  | salesforce_execute_anonymous args => executeWithTimeout (executeAnonymous conn args)
  end.

(** The response of the [catch] of [handleToolCall]. *)
Definition errorResponse (error : JS.error) : response :=
  mkResponse [mkText "text" ("Error: " ++ messageOf error)] (Some true).

(** [handleToolCall] never throws: it returns a response and the calls
    issued. *)
Definition handleToolCall (call : ToolInvocation) (h : list event)
  : response * list event :=
  match (conn <- createSalesforceConnection ;; dispatch conn call) h with
  | (Ok r, h') => (r, h')
  | (Throw e, h') => (errorResponse e, h')
  end.

End Server.
End Monolith.

(* ================================================================== *)
(** ** The modular server: [src/utils/connection.ts] and the
       [manageObject] tool *)
(* ================================================================== *)

Module Modular.
Import JS Net.

(** [objectName.replace(/__c$/, '')] *)
Definition stripCustomSuffix (s : string) : string :=
  if endsWith s "__c" then substring 0 (String.length s - 3) s else s.

(** [s.replace(/_/g, ' ')] *)
Fixpoint underscoresToSpaces (s : string) : string :=
  match s with
  | EmptyString => EmptyString
  | String c rest =>
      String (if Ascii.eqb c "_" then " "%char else c) (underscoresToSpaces rest)
  end.

(** [...(s && { k: s })] applied to the fields built so far. *)
Definition setIfPresent (k : string) (o : option string)
    (fields : list (string * value)) : list (string * value) :=
  if present o then set k (ofOpt o) fields else fields.

(** [interface ManageObjectArgs] *)
Record ManageObjectArgs : Type := mkManageObjectArgs {
  operation : string;
  objectName : string;
  label : option string;
  pluralLabel : option string;
  description : option string;
  nameFieldLabel : option string;
  nameFieldType : option string;
  nameFieldFormat : option string;
  sharingModel : option string
}.

(** The descriptor of the create path. *)
Definition createMetadata (args : ManageObjectArgs) : value :=
  let nameField :=
    assign
      [("type", or_else (ofOpt (nameFieldType args)) (VStr "Text"));
       ("label", or_else (ofOpt (nameFieldLabel args)) (VStr "Name"))]
      (if match nameFieldType args with
          | Some t => String.eqb t "AutoNumber"
          | None => false
          end && present (nameFieldFormat args)
       then [("displayFormat", ofOpt (nameFieldFormat args))]
       else []) in
  VObj (setIfPresent "description" (description args)
       (setIfPresent "sharingModel" (sharingModel args)
          [("fullName", VStr (objectName args));
           ("label", or_else (ofOpt (label args))
                       (VStr (underscoresToSpaces (stripCustomSuffix (objectName args)))));
           ("pluralLabel", ofOpt (pluralLabel args));
           ("nameField", VObj nameField);
           ("deploymentStatus", VStr "Deployed")])).

(** The [nameField] of the update path:
    [{...(current.nameField || {}), label?, type?, displayFormat?}]. *)
Definition updateNameField (current : value) (args : ManageObjectArgs) : value :=
  VObj (setIfPresent "displayFormat" (nameFieldFormat args)
       (setIfPresent "type" (nameFieldType args)
       (setIfPresent "label" (nameFieldLabel args)
          (spread (or_else (get_opt current "nameField") (VObj [])))))).

(** The descriptor of the update path: the current descriptor with the
    overrides of the call on top. *)
Definition updateMetadata (current : value) (args : ManageObjectArgs) : value :=
  VObj (set "nameField" (updateNameField current args)
       (setIfPresent "sharingModel" (sharingModel args)
       (setIfPresent "description" (description args)
       (setIfPresent "pluralLabel" (pluralLabel args)
       (setIfPresent "label" (label args)
          (spread current)))))).

(** [result && (Array.isArray(result) ? result[0].success : result.success)] *)
Definition succeeded (result : value) : JS.result bool :=
  if truthy result then
    rbind (match result with
           | VArr items => get (nth 0 items VUndef) "success"
           | _ => get result "success"
           end) (fun s => Ok (truthy s))
  else Ok false.

Definition reply (t : string) (isErr : bool) : response :=
  mkResponse [mkText "text" t] (Some isErr).

Section Server.
Variable w : World.

Definition manageObject (conn : Connection) (args : ManageObjectArgs) : M response :=
  try_catch
    (if String.eqb (operation args) "create" then
       result <- do_call w conn (Metadata "create" "CustomObject" (createMetadata args)) ;;
       ok <- lift (succeeded result) ;;
       if ok
       then ret (reply ("Successfully created custom object " ++ objectName args) false)
       else ret (reply ("Failed to create custom object " ++ objectName args) true)
     else
       existing <- do_call w conn (Metadata "read" "CustomObject"
                                            (VArr [VStr (objectName args)])) ;;
       let current := match existing with
                      | VArr items => nth 0 items VUndef
                      | _ => existing
                      end in
       if negb (truthy current) then
         ret (reply ("Custom object " ++ objectName args ++ " not found") true)
       else
         updateResult <- do_call w conn (Metadata "update" "CustomObject"
                                                  (updateMetadata current args)) ;;
         ok <- lift (succeeded updateResult) ;;
         if ok
         then ret (reply ("Successfully updated custom object " ++ objectName args) false)
         else ret (reply ("Failed to update custom object " ++ objectName args) true))
    (fun error => ret (reply ("Error managing object: " ++ message error) true)).

(** The members of [enum ConnectionType], declared in
    [types/connection.ts]. *)
Variable User_Password : string.
Variable OAuth_2_0_Client_Credentials : string.

Variable env : Monolith.ProcessEnv.

(** The promise around [https.request] in [connection.ts]. *)
Definition tokenRequest (req : httpsReq) : M value :=
  out <- do_https w req ;;
  match out with
  | HttpError e => throw e
  | HttpEnd statusCode data =>
      let parseFailure (e : error) : M value :=
        throw (Error ("Failed to parse OAuth response: " ++ errorToString e)) in
      match JSON_parse w data with
      | Throw e => parseFailure e
      | Ok parsed =>
          if negb (Z.eqb statusCode 200) then
            match get parsed "error" with
            | Throw e => parseFailure e
            | Ok err =>
                match get parsed "error_description" with
                | Throw e => parseFailure e
                | Ok desc =>
                    throw (Error ("OAuth failed: " ++ toString err ++ " - "
                                  ++ toString desc))
                end
            end
          else ret parsed
      end
  end.

(** [querystring.stringify({grant_type, client_id, client_secret})] *)
Definition requestBody : string :=
  querystring_stringify w
    [("grant_type", "client_credentials");
     ("client_id", strOr (Monolith.SALESFORCE_CLIENT_ID env) "");
     ("client_secret", strOr (Monolith.SALESFORCE_CLIENT_SECRET env) "")].

(** The options and body of the token request. *)
Definition tokenOptions (tokenUrl : url) : httpsReq :=
  {| method := "POST";
     req_hostname := hostname tokenUrl;
     req_path := pathname tokenUrl;
     req_timeout := None;
     contentType := "application/x-www-form-urlencoded";
     contentLength := String.length requestBody;
     body := requestBody |}.

Definition createSalesforceConnection : M Connection :=
  let connectionType :=
    strOr (Monolith.SALESFORCE_CONNECTION_TYPE env) User_Password in
  let loginUrl :=
    strOr (Monolith.SALESFORCE_INSTANCE_URL env) "https://login.salesforce.com" in
  if String.eqb connectionType OAuth_2_0_Client_Credentials then
    let clientId := Monolith.SALESFORCE_CLIENT_ID env in
    let clientSecret := Monolith.SALESFORCE_CLIENT_SECRET env in
    if negb (present clientId) || negb (present clientSecret) then
      throw (Error "SALESFORCE_CLIENT_ID and SALESFORCE_CLIENT_SECRET are required for OAuth 2.0")
    else
      tokenUrl <- lift (new_URL w "/services/oauth2/token" loginUrl) ;;
      tokenResponse <- tokenRequest (tokenOptions tokenUrl) ;;
      instance_url <- lift (get tokenResponse "instance_url") ;;
      access_token <- lift (get tokenResponse "access_token") ;;
      ret (ConnToken instance_url access_token)
  else
    let username := Monolith.SALESFORCE_USERNAME env in
    let password := Monolith.SALESFORCE_PASSWORD env in
    let token := Monolith.SALESFORCE_TOKEN env in
    if negb (present username) || negb (present password) then
      throw (Error "SALESFORCE_USERNAME and SALESFORCE_PASSWORD are required for Username/Password authentication")
    else
      let conn := ConnLogin loginUrl None in
      do_login w conn (strOr username "") (strOr password "" ++ strOr token "") ;;;
      ret conn.

End Server.
End Modular.

(* ================================================================== *)
(** ** Stub platforms and concrete calls *)
(* ================================================================== *)

Module Stub.
Import JS Net.

(** A world whose library functions are the simplest ones: a URL parser that
    rejects the empty base, an identity escape, a JSON parser that knows the
    documents listed in [documents]. *)
Definition world (documents : list (string * value))
    (https : list event -> httpsReq -> https_outcome)
    (login : list event -> Connection -> string -> string -> result value)
    (query : list event -> Connection -> string -> result (list value))
    (call : list event -> Connection -> request -> result value) : World :=
  {| new_URL := fun path base =>
       if String.eqb base "" then Throw (TypeError "Invalid URL")
       else Ok (mkUrl base path);
     querystring_escape := fun s => s;
     JSON_parse := fun s =>
       match lookup s documents with
       | Some v => Ok v
       | None => Throw (mkError "SyntaxError" "Unexpected token")
       end;
     parseInt := fun _ => VNum 30000;
     https_request := https;
     Net.login := login;
     Net.query := query;
     Net.call := call |}.

Definition unreachable : list event -> httpsReq -> https_outcome :=
  fun _ _ => HttpError (Error "connect ECONNREFUSED").
Definition loginOk : list event -> Connection -> string -> string -> result value :=
  fun _ _ _ _ => Ok (VObj [("id", VStr "005")]).
Definition noRows : list event -> Connection -> string -> result (list value) :=
  fun _ _ _ => Ok [].
Definition saveOk : list event -> Connection -> request -> result value :=
  fun _ _ _ => Ok (VObj [("success", VBool true)]).

(** Every call succeeds; every query is empty. *)
Definition quiet : World := world [] unreachable loginOk noRows saveOk.

(** The query for profile "A" is rejected; any other query returns one row. *)
Definition profileAFails : World :=
  world [] unreachable loginOk
    (fun _ _ soql =>
       if String.eqb soql "SELECT Id FROM Profile WHERE Name = 'A'"
       then Throw (Error "INVALID_SESSION_ID")
       else Ok [VObj [("Id", VStr "0PS01")]])
    saveOk.

Definition passwordEnv : Monolith.ProcessEnv :=
  {| Monolith.SALESFORCE_CONNECTION_TYPE := Some "User_Password";
     Monolith.SALESFORCE_INSTANCE_URL := None;
     Monolith.SALESFORCE_USERNAME := Some "dev@example.com";
     Monolith.SALESFORCE_PASSWORD := Some "hunter2";
     Monolith.SALESFORCE_TOKEN := None;
     Monolith.SALESFORCE_CLIENT_ID := None;
     Monolith.SALESFORCE_CLIENT_SECRET := None;
     Monolith.SALESFORCE_API_VERSION := None;
     Monolith.SALESFORCE_TIMEOUT := None;
     Monolith.SALESFORCE_LOG_LEVEL := None |}.

Definition passwordConfig : Monolith.ExtensionConfig :=
  Monolith.initConfig quiet passwordEnv.

Definition session : Connection :=
  ConnLogin "https://login.salesforce.com" (Some "58.0").

Definition permissionArgs (operation : string) (profiles : option (list string))
  : Monolith.ManageFieldPermissionsArgs :=
  {| Monolith.fp_operation := operation;
     Monolith.fp_objectName := "Account";
     Monolith.fp_fieldName := "Rating";
     Monolith.fp_profileNames := profiles;
     Monolith.fp_readable := None;
     Monolith.fp_editable := None |}.

Definition dmlArgs (operation : string) (records : list value)
    (externalIdField : option string) : Monolith.DmlArgs :=
  {| Monolith.dml_operation := operation;
     Monolith.dml_objectName := "Account";
     Monolith.dml_records := records;
     Monolith.dml_externalIdField := externalIdField |}.

Definition acme : value := VObj [("Id", VStr "001A"); ("Name", VStr "Acme")].
Definition globex : value := VObj [("Id", VStr "001B"); ("Name", VStr "Globex")].

(** A bulk result with one saved and one rejected record. *)
Definition oneSavedOneRejected : value :=
  VArr [VObj [("id", VStr "001A"); ("success", VBool true); ("errors", VArr [])];
        VObj [("success", VBool false);
              ("errors", VArr [VObj [("message", VStr "Required fields are missing")]])]].

(** Every bulk call saves the first record and rejects the second. *)
Definition halfRejecting : World :=
  world [] unreachable loginOk noRows (fun _ _ _ => Ok oneSavedOneRejected).

(** The platform compiles the code and the code divides by zero. *)
Definition divisionByZero : list (string * value) :=
  [("compiled", VBool true); ("success", VBool false);
   ("exceptionMessage", VStr "Division by zero")].

Definition apexFails : World :=
  world [] unreachable loginOk noRows (fun _ _ _ => Ok (VObj divisionByZero)).

Definition apexArgs : Monolith.ExecuteAnonymousArgs :=
  {| Monolith.ea_apexCode := "Integer x = 1/0;"; Monolith.ea_logLevel := None |}.

(** One group whose sum, returned under the alias, is zero. *)
Definition zeroTotal : value :=
  VObj [("StageName", VStr "Prospecting"); ("total", VNum 0)].

Definition oneZeroGroup : World :=
  world [] unreachable loginOk (fun _ _ _ => Ok [zeroTotal]) saveOk.

Definition totalsByStage : Monolith.AggregateQueryArgs :=
  {| Monolith.aq_objectName := "Opportunity";
     Monolith.aq_selectFields := ["StageName"; "SUM(Amount) total"];
     Monolith.aq_groupByFields := ["StageName"];
     Monolith.aq_whereClause := None;
     Monolith.aq_havingClause := None;
     Monolith.aq_orderBy := None;
     Monolith.aq_limit := None |}.

(** The token endpoint of an org: it answers 200 with a token to the client
    "app" and 400 to anyone else. *)
Definition tokenDocuments : list (string * value) :=
  [("granted", VObj [("access_token", VStr "00Dxx!AQ4");
                     ("instance_url", VStr "https://acme.my.salesforce.com")]);
   ("denied", VObj [("error", VStr "invalid_client");
                    ("error_description", VStr "invalid client credentials")])].

Definition tokenEndpoint : World :=
  world tokenDocuments
    (fun _ r =>
       if String.eqb (body r)
            "grant_type=client_credentials&client_id=app&client_secret=s3cret"
       then HttpEnd 200 "granted" else HttpEnd 400 "denied")
    loginOk noRows saveOk.

Definition oauthConfig (clientId clientSecret : option string)
  : Monolith.ExtensionConfig :=
  {| Monolith.connectionType := "OAuth_2.0_Client_Credentials";
     Monolith.instanceUrl := "https://acme.my.salesforce.com";
     Monolith.username := None;
     Monolith.password := None;
     Monolith.securityToken := None;
     Monolith.clientId := clientId;
     Monolith.clientSecret := clientSecret;
     Monolith.apiVersion := "58.0";
     Monolith.timeout := VNum 30000;
     Monolith.logLevel := "info" |}.

Definition tokenUrl : url :=
  mkUrl "https://acme.my.salesforce.com" "/services/oauth2/token".

(** The descriptor of a custom object as the platform holds it. *)
Definition invoiceDescriptor : value :=
  VObj [("fullName", VStr "Invoice__c");
        ("label", VStr "Invoice");
        ("pluralLabel", VStr "Invoices");
        ("nameField", VObj [("label", VStr "Invoice Number");
                            ("type", VStr "AutoNumber");
                            ("displayFormat", VStr "INV-{0000}")]);
        ("deploymentStatus", VStr "Deployed");
        ("sharingModel", VStr "Private");
        ("enableHistory", VBool true)].

(** A platform that holds [invoiceDescriptor] and accepts every write. *)
Definition withInvoice : World :=
  world [] unreachable loginOk noRows
    (fun _ _ r =>
       match r with
       | Metadata operation _ _ =>
           if String.eqb operation "read" then Ok (VArr [invoiceDescriptor])
           else Ok (VObj [("success", VBool true)])
       | _ => Ok (VObj [("success", VBool true)])
       end).

(** Relabel the object, and nothing else. *)
Definition relabel : Monolith.ManageObjectArgs :=
  {| Monolith.mo_operation := "update";
     Monolith.mo_objectName := "Invoice";
     Monolith.mo_label := Some "Bill";
     Monolith.mo_pluralLabel := None;
     Monolith.mo_description := None;
     Monolith.mo_nameFieldLabel := None;
     Monolith.mo_nameFieldType := None;
     Monolith.mo_nameFieldFormat := None;
     Monolith.mo_sharingModel := None |}.

Definition relabelModular : Modular.ManageObjectArgs :=
  {| Modular.operation := "update";
     Modular.objectName := "Invoice__c";
     Modular.label := Some "Bill";
     Modular.pluralLabel := None;
     Modular.description := None;
     Modular.nameFieldLabel := None;
     Modular.nameFieldType := None;
     Modular.nameFieldFormat := None;
     Modular.sharingModel := None |}.

End Stub.

(* ================================================================== *)
(** ** Vocabulary of the properties *)
(* ================================================================== *)

Import JS Net.

(** [args] with its profile list replaced. *)
Definition withProfiles (args : Monolith.ManageFieldPermissionsArgs)
    (profiles : option (list string)) : Monolith.ManageFieldPermissionsArgs :=
  {| Monolith.fp_operation := Monolith.fp_operation args;
     Monolith.fp_objectName := Monolith.fp_objectName args;
     Monolith.fp_fieldName := Monolith.fp_fieldName args;
     Monolith.fp_profileNames := profiles;
     Monolith.fp_readable := Monolith.fp_readable args;
     Monolith.fp_editable := Monolith.fp_editable args |}.

(** A well-formed entry of a bulk result: an object whose [success] is a
    boolean and whose [errors], when it is an array, holds objects. *)
Definition isBulkEntry (e : value) : bool :=
  match e with
  | VObj fields =>
      match lookup "success" fields with
      | Some (VBool _) =>
          match lookup "errors" fields with
          | Some (VArr items) => forallb notNullish items
          | _ => true
          end
      | _ => false
      end
  | _ => false
  end.

(** The entry has [success = false]. *)
Definition hasFailed (e : value) : bool :=
  match get e "success" with
  | Ok (VBool false) => true
  | _ => false
  end.

(** The number of entries of a raw result with [success = false]. *)
Definition failures (entries : list value) : nat :=
  List.length (filter hasFailed entries).

(** The first line of the report of [dmlRecords] for given counts. *)
Definition dmlSummary (operation : string) (success failed : nat) : string :=
  toUpperCase operation ++ " completed: " ++ dec success ++ " successful, "
  ++ dec failed ++ " failed".

(** The three outcomes of an anonymous execution. *)
Inductive outcome : Type := CompileFailure | RuntimeFailure | Success.

(** The shape of the text that labels each outcome. *)
Definition labelled (o : outcome) (t : string) : Prop :=
  match o with
  | CompileFailure =>
      exists line column problem,
        t = "Compilation: Failed\nError at line " ++ line ++ ", column " ++ column
            ++ ": " ++ problem
  | RuntimeFailure =>
      exists exceptionMessage stackTrace,
        t = "Compilation: Success\nExecution: Failed\n" ++ exceptionMessage
            ++ stackTrace
  | Success => t = "Compilation: Success\nExecution: Success"
  end.

(** The property [k] of an object given by its fields. *)
Definition field (fields : list (string * value)) (k : string) : value :=
  opt_or_undef (lookup k fields).

(** The outcome the platform reports in a result: [compiled] false is a
    compile failure, whatever [success] says; [compiled] true is a success or
    a runtime failure according to [success]. *)
Definition reported (result : list (string * value)) : outcome :=
  if truthy (field result "compiled")
  then if truthy (field result "success") then Success else RuntimeFailure
  else CompileFailure.

(** The character [c] occurs in [s]. *)
Fixpoint occurs (c : ascii) (s : string) : bool :=
  match s with
  | EmptyString => false
  | String a rest => Ascii.eqb a c || occurs c rest
  end.

(* ================================================================== *)
(** ** [src/index.ts]: the logger and the handlers that only query or
       manage fields *)
(* ================================================================== *)

Module Handlers.

(** [class Logger]: every method returns the calls it makes to
    [console.error], each call being the list of its arguments. *)
Record Logger : Type := mkLogger { level : string }.

(** [new Logger(level)], with the default ['info']. *)
Definition newLogger (level : option string) : Logger :=
  mkLogger (match level with Some l => l | None => "info" end).

(** [levels.includes(level)] *)
Definition includes (levels : list string) (level : string) : bool :=
  existsb (String.eqb level) levels.

Definition error (l : Logger) (args : list value) : list (list value) :=
  [VStr "[ERROR]" :: args].

Definition warn (l : Logger) (args : list value) : list (list value) :=
  if includes ["warn"; "info"; "debug"] (level l)
  then [VStr "[WARN]" :: args] else [].

Definition info (l : Logger) (args : list value) : list (list value) :=
  if includes ["info"; "debug"] (level l)
  then [VStr "[INFO]" :: args] else [].

Definition debug (l : Logger) (args : list value) : list (list value) :=
  if String.eqb (level l) "debug"
  then [VStr "[DEBUG]" :: args] else [].

(** [getNestedValue(obj, path)] *)
Definition getNestedValue (obj : value) (path : string) : value :=
  fold_left get_opt (split "." path) obj.

Record QueryArgs : Type := mkQueryArgs {
  q_objectName : string;
  q_fields : list string;
  q_whereClause : option string;
  q_orderBy : option string;
  q_limit : option Z
}.

Definition querySoql (args : QueryArgs) : string :=
  "SELECT " ++ join ", " (q_fields args) ++ " FROM " ++ q_objectName args
  ++ Monolith.clause "WHERE" (q_whereClause args)
  ++ Monolith.clause "ORDER BY" (q_orderBy args)
  ++ Monolith.limitClause (q_limit args).

(** The line rendered for one field of one record. *)
Definition queryLine (record : value) (field : string) : string :=
  let value := getNestedValue record field in
  "    " ++ field ++ ": " ++ (if notNullish value then toString value else "null").

(** The block rendered for the record at index [idx]. *)
Definition queryBlock (fields : list string) (idx : nat) (record : value) : string :=
  "Record " ++ dec (idx + 1) ++ ":\n" ++ join "\n" (map (queryLine record) fields).

(** [records.map((record, idx) => f(idx, record))]; [i] is the index of the
    head. *)
Fixpoint mapi {A B : Type} (f : nat -> A -> B) (i : nat) (l : list A) : list B :=
  match l with
  | [] => []
  | x :: rest => f i x :: mapi f (S i) rest
  end.

Record ReadApexArgs : Type := mkReadApexArgs {
  ra_className : option string;
  ra_namePattern : option string;
  ra_includeMetadata : option bool
}.

Record ReadApexTriggerArgs : Type := mkReadApexTriggerArgs {
  rt_triggerName : option string;
  rt_namePattern : option string;
  rt_includeMetadata : option bool
}.

(** The statement that reads the Apex class [className]. *)
Definition classByName (className : string) : string :=
  "
      SELECT Name, Body, ApiVersion, Status
      FROM ApexClass 
      WHERE Name = '" ++ className ++ "'
    ".

(** The statement that reads the trigger [triggerName]. *)
Definition triggerByName (triggerName : string) : string :=
  "
      SELECT Name, Body, TableEnumOrId, ApiVersion, Status
      FROM ApexTrigger 
      WHERE Name = '" ++ triggerName ++ "'
    ".

(** [if (pattern) query += ` WHERE Name LIKE '%${pattern}%'`] *)
Definition likeClause (pattern : option string) : string :=
  if present pattern then " WHERE Name LIKE '%" ++ strOr pattern "" ++ "%'" else "".

Record ManageFieldArgs : Type := mkManageFieldArgs {
  mf_operation : string;
  mf_objectName : string;
  mf_fieldName : string;
  mf_label : option string;
  mf_type : option string;
  mf_required : option bool;
  mf_unique : option bool;
  mf_externalId : option bool;
  mf_length : option Z;
  mf_precision : option Z;
  mf_scale : option Z;
  mf_referenceTo : option string;
  mf_relationshipLabel : option string;
  mf_relationshipName : option string;
  mf_deleteConstraint : option string;
  mf_picklistValues : option (list value);
  mf_description : option string;
  mf_grantAccessTo : option (list string)
}.

(** [if (flag) metadata[k] = flag] for an optional boolean. *)
Definition setIfTrue (k : string) (flag : option bool)
    (fields : list (string * value)) : list (string * value) :=
  match flag with
  | Some true => set k (VBool true) fields
  | _ => fields
  end.

(** [if (n) metadata[k] = n] for an optional number. *)
Definition setIfNonZero (k : string) (n : option Z)
    (fields : list (string * value)) : list (string * value) :=
  match n with
  | Some z => if Z.eqb z 0 then fields else set k (VNum z) fields
  | None => fields
  end.

(** [if (n !== undefined) metadata[k] = n] *)
Definition setIfDefined (k : string) (n : option Z)
    (fields : list (string * value)) : list (string * value) :=
  match n with
  | Some z => set k (VNum z) fields
  | None => fields
  end.

(** [if (s) metadata[k] = s] for an optional string. *)
Definition setIfPresent (k : string) (o : option string)
    (fields : list (string * value)) : list (string * value) :=
  if present o then set k (ofOpt o) fields else fields.

(** The relationship attributes, attached when [referenceTo] is given. *)
Definition withReference (args : ManageFieldArgs)
    (fields : list (string * value)) : list (string * value) :=
  if present (mf_referenceTo args) then
    setIfPresent "deleteConstraint" (mf_deleteConstraint args)
      (set "relationshipLabel"
         (or_else (ofOpt (mf_relationshipLabel args))
                  (ofOpt (mf_relationshipName args)))
      (set "relationshipName" (ofOpt (mf_relationshipName args))
      (set "referenceTo" (ofOpt (mf_referenceTo args)) fields)))
  else fields.

(** One entry of the value set: [{fullName: val.label, default:
    val.isDefault || false, label: val.label}]. *)
Definition picklistEntry (val : value) : result value :=
  rbind (get val "label") (fun fullName =>
  rbind (get val "isDefault") (fun isDefault =>
  rbind (get val "label") (fun label =>
  Ok (VObj [("fullName", fullName);
            ("default", or_else isDefault (VBool false));
            ("label", label)])))).

(** The value set, attached when [picklistValues] is given. *)
Definition withPicklist (args : ManageFieldArgs)
    (fields : list (string * value)) : result (list (string * value)) :=
  match mf_picklistValues args with
  | Some values =>
      rbind (mapR picklistEntry values) (fun entries =>
      Ok (set "valueSet"
            (VObj [("valueSetDefinition",
                    VObj [("sorted", VBool true); ("value", VArr entries)])])
            fields))
  | None => Ok fields
  end.

(** The descriptor [manageField] builds from its arguments. *)
Definition fieldMetadata (args : ManageFieldArgs) : result value :=
  rbind (withPicklist args
          (withReference args
          (setIfDefined "scale" (mf_scale args)
          (setIfNonZero "precision" (mf_precision args)
          (setIfNonZero "length" (mf_length args)
          (setIfPresent "description" (mf_description args)
          (setIfTrue "externalId" (mf_externalId args)
          (setIfTrue "unique" (mf_unique args)
          (setIfTrue "required" (mf_required args)
             [("fullName", VStr (mf_objectName args ++ "." ++ mf_fieldName args
                                 ++ "__c"));
              ("label", or_else (ofOpt (mf_label args)) (VStr (mf_fieldName args)));
              ("type", ofOpt (mf_type args))]))))))))) (fun fields =>
  Ok (VObj fields)).

Section Server.
Variable w : World.

Definition queryRecords (conn : Connection) (args : QueryArgs) : M response :=
  records <- do_query w conn (querySoql args) ;;
  ret (textResponse ("Query returned " ++ dec (List.length records)
                     ++ " records:\n\n"
                     ++ join "\n\n" (mapi (queryBlock (q_fields args)) 0 records))).

Definition readApex (conn : Connection) (args : ReadApexArgs) : M response :=
  if present (ra_className args) then
    records <- do_query w conn (classByName (strOr (ra_className args) "")) ;;
    if (List.length records =? 0)%nat then
      throw (Error ("No Apex class found: " ++ strOr (ra_className args) ""))
    else
      let cls := nth 0 records VUndef in
      name <- lift (get cls "Name") ;;
      body <- lift (get cls "Body") ;;
      ret (textResponse ("# " ++ toString name ++ "\n\n```apex\n" ++ toString body
                         ++ "\n```"))
  else
    records <- do_query w conn ("SELECT Name, ApiVersion, Status FROM ApexClass"
                                ++ likeClause (ra_namePattern args)
                                ++ " ORDER BY Name") ;;
    formatted <- lift (mapR (fun cls => rbind (get cls "Name") (fun name =>
                                        Ok ("- " ++ toString name))) records) ;;
    ret (textResponse ("Found " ++ dec (List.length records) ++ " Apex Classes:\n"
                       ++ join "\n" formatted)).

Definition readApexTrigger (conn : Connection) (args : ReadApexTriggerArgs)
  : M response :=
  if present (rt_triggerName args) then
    records <- do_query w conn (triggerByName (strOr (rt_triggerName args) "")) ;;
    if (List.length records =? 0)%nat then
      throw (Error ("No trigger found: " ++ strOr (rt_triggerName args) ""))
    else
      let trigger := nth 0 records VUndef in
      name <- lift (get trigger "Name") ;;
      table <- lift (get trigger "TableEnumOrId") ;;
      body <- lift (get trigger "Body") ;;
      ret (textResponse ("# " ++ toString name ++ " (" ++ toString table
                         ++ ")\n\n```apex\n" ++ toString body ++ "\n```"))
  else
    records <- do_query w conn ("SELECT Name, TableEnumOrId, Status FROM ApexTrigger"
                                ++ likeClause (rt_namePattern args)
                                ++ " ORDER BY Name") ;;
    formatted <- lift (mapR (fun t => rbind (get t "Name") (fun name =>
                                      rbind (get t "TableEnumOrId") (fun table =>
                                      Ok ("- " ++ toString name ++ " ("
                                          ++ toString table ++ ")")))) records) ;;
    ret (textResponse ("Found " ++ dec (List.length records) ++ " Triggers:\n"
                       ++ join "\n" formatted)).

Definition manageField (conn : Connection) (args : ManageFieldArgs) : M response :=
  metadata <- lift (fieldMetadata args) ;;
  result <- do_call w conn (Metadata (mf_operation args) "CustomField" metadata) ;;
  success <- lift (Monolith.resultSuccess result) ;;
  let responseText :=
    if truthy success
    then "Successfully " ++ mf_operation args ++ "d field " ++ mf_fieldName args
         ++ "__c on " ++ mf_objectName args
    else "Failed to " ++ mf_operation args ++ " field" in
  match mf_grantAccessTo args with
  | Some profiles =>
      if truthy success && String.eqb (mf_operation args) "create" then
        Monolith.grantFieldPermissions w conn (mf_objectName args)
                                       (mf_fieldName args) profiles ;;;
        ret (textResponse (responseText ++ "\nField Level Security granted to: "
                           ++ join ", " profiles))
      else ret (textResponse responseText)
  | None => ret (textResponse responseText)
  end.

End Server.
End Handlers.

(* ================================================================== *)
(** ** [src/index.ts]: the handlers that describe, search and use the
       tooling API *)
(* ================================================================== *)

Module Tooling.

(** An entry of [describeGlobal().sobjects]. *)
Record SObjectInfo : Type := mkSObjectInfo {
  so_name : string;
  so_label : string;
  so_custom : bool
}.

(** The calls these handlers make through a connection. *)
Inductive request : Type :=
| DescribeGlobal
| Query (soql : string)
| Search (sosl : string)
| ToolingQuery (soql : string)
| ToolingCreate (type : string) (record : value)
| ToolingUpdate (type : string) (record : value)
| ToolingDelete (type : string) (id : value).

Record event : Type := mkEvent { via : Connection; what : request }.

(** The replies of the platform, and the clock and the [Date] functions of
    the runtime. [now h k] is the [k]-th reading of the clock a handler makes
    after the calls [h]; [plusMinutes t n] is the date [d] after
    [d.setMinutes(d.getMinutes() + n)] starting from [t]. *)
Record World : Type := mkWorld {
  describeGlobal : list event -> Connection -> result (list SObjectInfo);
  query : list event -> Connection -> string -> result (list value);
  search : list event -> Connection -> string -> result (list value);
  tooling_query : list event -> Connection -> string -> result (list value);
  tooling : list event -> Connection -> request -> result value;
  now : list event -> nat -> Z;
  plusMinutes : Z -> Z -> Z;
  toISOString : Z -> string;
  toLocaleString : Z -> string;
  parseToLocaleString : value -> string
}.

Definition M (A : Type) : Type := list event -> result A * list event.

Definition ret {A : Type} (a : A) : M A := fun h => (Ok a, h).
Definition throw {A : Type} (e : JS.error) : M A := fun h => (Throw e, h).
Definition bind {A B : Type} (m : M A) (k : A -> M B) : M B :=
  fun h => match m h with
           | (Ok a, h') => k a h'
           | (Throw e, h') => (Throw e, h')
           end.
Definition lift {A : Type} (r : result A) : M A := fun h => (r, h).
(** The calls issued so far, for a reading of the clock. *)
Definition history : M (list event) := fun h => (Ok h, h).

Declare Scope tooling_scope.
Delimit Scope tooling_scope with tooling.
Notation "x <- m ;; k" := (bind m (fun x => k))
  (at level 61, m at next level, right associativity) : tooling_scope.
Notation "m ;;; k" := (bind m (fun _ => k))
  (at level 61, right associativity) : tooling_scope.
Open Scope tooling_scope.

(** [for (const x of l) { body(x) }] *)
Fixpoint for_of {A : Type} (l : list A) (body : A -> M unit) : M unit :=
  match l with
  | [] => ret tt
  | x :: rest => body x ;;; for_of rest body
  end.

Definition lower (c : ascii) : ascii :=
  let n := nat_of_ascii c in
  if ((65 <=? n) && (n <=? 90))%nat then ascii_of_nat (n + 32) else c.

(** [s.toLowerCase()] *)
Fixpoint toLowerCase (s : string) : string :=
  match s with
  | EmptyString => EmptyString
  | String c rest => String (lower c) (toLowerCase rest)
  end.

(** [s.startsWith(t)] *)
Fixpoint startsWith (s t : string) : bool :=
  match t, s with
  | EmptyString, _ => true
  | String _ _, EmptyString => false
  | String b t', String a s' => Ascii.eqb a b && startsWith s' t'
  end.

(** [s.includes(t)] *)
Fixpoint includes (s t : string) : bool :=
  startsWith s t
  || match s with
     | EmptyString => false
     | String _ rest => includes rest t
     end.

(* ---------------------------------------------------------------- *)
(** *** [searchObjects] *)

(** [pattern.toLowerCase().split(' ').filter(t => t.length > 0)] *)
Definition searchTerms (searchPattern : string) : list string :=
  filter (fun t => (0 <? String.length t)%nat) (split " " (toLowerCase searchPattern)).

(** The filter on the objects: every term is in the name or in the label. *)
Definition matchesTerms (terms : list string) (obj : SObjectInfo) : bool :=
  let name := toLowerCase (so_name obj) in
  let label := toLowerCase (so_label obj) in
  forallb (fun term => includes name term || includes label term) terms.

Definition objectEntry (obj : SObjectInfo) : string :=
  so_name obj ++ (if so_custom obj then " (Custom)" else "") ++ "\n  Label: "
  ++ so_label obj.

(* ---------------------------------------------------------------- *)
(** *** [searchAll] *)

Record SearchObject : Type := mkSearchObject {
  sa_name : string;
  sa_fields : list string;
  sa_where : option string;
  sa_orderBy : option string;
  sa_limit : option Z
}.

Record SearchAllArgs : Type := mkSearchAllArgs {
  sa_searchTerm : string;
  sa_searchIn : option string;
  sa_objects : list SearchObject
}.

Definition returningEntry (obj : SearchObject) : string :=
  sa_name obj ++ "(" ++ join "," (sa_fields obj)
  ++ Monolith.clause "WHERE" (sa_where obj)
  ++ Monolith.clause "ORDER BY" (sa_orderBy obj)
  ++ Monolith.limitClause (sa_limit obj)
  ++ ")".

Definition sosl (args : SearchAllArgs) : string :=
  "FIND {" ++ sa_searchTerm args ++ "} IN " ++ strOr (sa_searchIn args) "ALL FIELDS"
  ++ " RETURNING " ++ join ", " (map returningEntry (sa_objects args)).

(** [r.attributes.type === name] *)
Definition hasType (name : string) (r : value) : result bool :=
  rbind (get r "attributes") (fun attributes =>
  rbind (get attributes "type") (fun t =>
  Ok (match t with VStr s => String.eqb s name | _ => false end))).

(** [`    ${field}: ${record[field] || 'null'}\\n`] *)
Definition searchLine (record : value) (field : string) : string :=
  "    " ++ field ++ ": " ++ toString (or_else (get_opt record field) (VStr "null"))
  ++ "\n".

(** The lines of the records of one object; [idx] is the index of the head. *)
Fixpoint searchRecordsText (fields : list string) (records : list value) (idx : nat)
  : string :=
  match records with
  | [] => ""
  | record :: rest =>
      "  Record " ++ dec (idx + 1) ++ ":\n"
      ++ String.concat "" (map (searchLine record) fields)
      ++ searchRecordsText fields rest (S idx)
  end.

(** The section of one requested object. *)
Definition searchSection (searchRecords : list value) (obj : SearchObject)
  : result string :=
  rbind (filterR (hasType (sa_name obj)) searchRecords) (fun records =>
  Ok ("\n" ++ sa_name obj ++ " (" ++ dec (List.length records) ++ " records):\n"
      ++ searchRecordsText (sa_fields obj) records 0)).

(* ---------------------------------------------------------------- *)
(** *** Arguments of the Apex writers and of [manageDebugLogs] *)

Record WriteApexArgs : Type := mkWriteApexArgs {
  wa_operation : string;
  wa_className : string;
  wa_apiVersion : option string;
  wa_body : string
}.

Record WriteApexTriggerArgs : Type := mkWriteApexTriggerArgs {
  wt_operation : string;
  wt_triggerName : string;
  wt_objectName : option string;
  wt_apiVersion : option string;
  wt_body : string
}.

Record ManageDebugLogsArgs : Type := mkManageDebugLogsArgs {
  dl_operation : string;
  dl_username : string;
  dl_logLevel : option string;
  dl_expirationTime : option Z;
  dl_limit : option Z;
  dl_logId : option string;
  dl_includeBody : option bool
}.

(** [n || d] for an optional number. *)
Definition numOr (n : option Z) (d : Z) : Z :=
  match n with
  | Some z => if Z.eqb z 0 then d else z
  | None => d
  end.

(** The statement that finds the user. *)
Definition userByName (username : string) : string :=
  "
    SELECT Id, Username, Name FROM User 
    WHERE Username = '" ++ username ++ "' OR Name LIKE '%" ++ username ++ "%'
    LIMIT 1
  ".

(** The statement that lists the trace flags of a user that have not
    expired at [isoDate]. *)
Definition activeTraceFlags (userId isoDate : string) : string :=
  "
        SELECT Id FROM TraceFlag 
        WHERE TracedEntityId = '" ++ userId ++ "' 
        AND ExpirationDate > " ++ isoDate ++ "
      ".

(** The statement that lists the latest logs of a user. *)
Definition latestLogs (userId : string) (limit : Z) : string :=
  "
        SELECT Id, Operation, Status, LogLength, LastModifiedDate
        FROM ApexLog 
        WHERE LogUserId = '" ++ userId ++ "'
        ORDER BY LastModifiedDate DESC 
        LIMIT " ++ decZ limit ++ "
      ".

(** The statements that find a class and a trigger to update. *)
Definition classId (className : string) : string :=
  "SELECT Id FROM ApexClass WHERE Name = '" ++ className ++ "'".
Definition triggerId (triggerName : string) : string :=
  "SELECT Id FROM ApexTrigger WHERE Name = '" ++ triggerName ++ "'".

(** One line of the list of logs. *)
Definition logLine (parse : value -> string) (log : value) (idx : nat)
  : result string :=
  rbind (get log "Operation") (fun operation =>
  rbind (get log "Status") (fun status =>
  rbind (get log "LogLength") (fun logLength =>
  rbind (get log "LastModifiedDate") (fun modified =>
  Ok (dec (idx + 1) ++ ". " ++ toString operation ++ " - " ++ toString status
      ++ " (" ++ toString logLength ++ " bytes) - " ++ parse modified))))).

Section Server.
Variable w : World.
Variable config : Monolith.ExtensionConfig.

Definition do_describeGlobal (c : Connection) : M (list SObjectInfo) :=
  fun h => (describeGlobal w h c, (h ++ [mkEvent c DescribeGlobal])%list).
Definition do_query (c : Connection) (soql : string) : M (list value) :=
  fun h => (query w h c soql, (h ++ [mkEvent c (Query soql)])%list).
Definition do_search (c : Connection) (sosl : string) : M (list value) :=
  fun h => (search w h c sosl, (h ++ [mkEvent c (Search sosl)])%list).
Definition do_tooling_query (c : Connection) (soql : string) : M (list value) :=
  fun h => (tooling_query w h c soql, (h ++ [mkEvent c (ToolingQuery soql)])%list).
Definition do_tooling (c : Connection) (r : request) : M value :=
  fun h => (tooling w h c r, (h ++ [mkEvent c r])%list).
(** [new Date()] and [Date.now()]: the [k]-th reading of the clock. *)
Definition readClock (k : nat) : M Z := fun h => (Ok (now w h k), h).

Definition searchObjects (conn : Connection) (searchPattern : string) : M response :=
  sobjects <- do_describeGlobal conn ;;
  let matching := filter (matchesTerms (searchTerms searchPattern)) sobjects in
  ret (textResponse ("Found " ++ dec (List.length matching) ++ " objects:\n\n"
                     ++ join "\n\n" (map objectEntry matching))).

Definition searchAll (conn : Connection) (args : SearchAllArgs) : M response :=
  searchRecords <- do_search conn (sosl args) ;;
  sections <- lift (mapR (searchSection searchRecords) (sa_objects args)) ;;
  ret (textResponse ("Search Results:" ++ String.concat "" sections)).

Definition writeApex (conn : Connection) (args : WriteApexArgs) : M response :=
  let metadata :=
    VObj [("Name", VStr (wa_className args));
          ("Body", VStr (wa_body args));
          ("ApiVersion", VStr (strOr (wa_apiVersion args) (Monolith.apiVersion config)));
          ("Status", VStr "Active")] in
  if String.eqb (wa_operation args) "create" then
    result <- do_tooling conn (ToolingCreate "ApexClass" metadata) ;;
    id <- lift (get result "id") ;;
    ret (textResponse ("Created Apex class: " ++ wa_className args ++ " (ID: "
                       ++ toString id ++ ")"))
  else
    existing <- do_query conn (classId (wa_className args)) ;;
    if (List.length existing =? 0)%nat then
      throw (Error ("Class not found: " ++ wa_className args))
    else
      id <- lift (get (nth 0 existing VUndef) "Id") ;;
      do_tooling conn (ToolingUpdate "ApexClass"
                         (VObj [("Id", id); ("Body", VStr (wa_body args))])) ;;;
      ret (textResponse ("Updated Apex class: " ++ wa_className args)).

Definition writeApexTrigger (conn : Connection) (args : WriteApexTriggerArgs)
  : M response :=
  let metadata :=
    [("Name", VStr (wt_triggerName args));
     ("Body", VStr (wt_body args));
     ("ApiVersion", VStr (strOr (wt_apiVersion args) (Monolith.apiVersion config)));
     ("Status", VStr "Active")] in
  if String.eqb (wt_operation args) "create" then
    if negb (present (wt_objectName args)) then
      throw (Error "objectName required for create")
    else
      result <- do_tooling conn
                  (ToolingCreate "ApexTrigger"
                     (VObj (set "TableEnumOrId" (ofOpt (wt_objectName args)) metadata))) ;;
      id <- lift (get result "id") ;;
      ret (textResponse ("Created trigger: " ++ wt_triggerName args ++ " on "
                         ++ strOr (wt_objectName args) "" ++ " (ID: " ++ toString id
                         ++ ")"))
  else
    existing <- do_query conn (triggerId (wt_triggerName args)) ;;
    if (List.length existing =? 0)%nat then
      throw (Error ("Trigger not found: " ++ wt_triggerName args))
    else
      id <- lift (get (nth 0 existing VUndef) "Id") ;;
      do_tooling conn (ToolingUpdate "ApexTrigger"
                         (VObj [("Id", id); ("Body", VStr (wt_body args))])) ;;;
      ret (textResponse ("Updated trigger: " ++ wt_triggerName args)).

(** The [enable] case of [manageDebugLogs]. *)
Definition enableDebugLogs (conn : Connection) (args : ManageDebugLogsArgs)
    (user : value) : M response :=
  created <- readClock 0 ;;
  let expiration := plusMinutes w created (numOr (dl_expirationTime args) 30) in
  stamp <- readClock 1 ;;
  username <- lift (get user "Username") ;;
  let logLevel := VStr (strOr (dl_logLevel args) "DEBUG") in
  debugLevel <- do_tooling conn
    (ToolingCreate "DebugLevel"
       (VObj [("DeveloperName", VStr ("UserDebug_" ++ decZ stamp));
              ("MasterLabel", VStr ("Debug " ++ toString username));
              ("ApexCode", logLevel);
              ("System", logLevel);
              ("Database", logLevel);
              ("Workflow", logLevel)])) ;;
  userId <- lift (get user "Id") ;;
  debugLevelId <- lift (get debugLevel "id") ;;
  started <- readClock 2 ;;
  do_tooling conn
    (ToolingCreate "TraceFlag"
       (VObj [("TracedEntityId", userId);
              ("DebugLevelId", debugLevelId);
              ("LogType", VStr "USER_DEBUG");
              ("StartDate", VStr (toISOString w started));
              ("ExpirationDate", VStr (toISOString w expiration))])) ;;;
  username' <- lift (get user "Username") ;;
  ret (textResponse ("Enabled debug logs for " ++ toString username' ++ " until "
                     ++ toLocaleString w expiration)).

(** The [disable] case. *)
Definition disableDebugLogs (conn : Connection) (user : value) : M response :=
  userId <- lift (get user "Id") ;;
  current <- readClock 0 ;;
  traceFlags <- do_tooling_query conn
                  (activeTraceFlags (toString userId) (toISOString w current)) ;;
  for_of traceFlags (fun flag =>
    id <- lift (get flag "Id") ;;
    do_tooling conn (ToolingDelete "TraceFlag" id) ;;;
    ret tt) ;;;
  username <- lift (get user "Username") ;;
  ret (textResponse ("Disabled " ++ dec (List.length traceFlags)
                     ++ " debug log configurations for " ++ toString username)).

(** The [retrieve] case. *)
Definition retrieveDebugLogs (conn : Connection) (args : ManageDebugLogsArgs)
    (user : value) : M response :=
  userId <- lift (get user "Id") ;;
  logs <- do_tooling_query conn
            (latestLogs (toString userId) (numOr (dl_limit args) 10)) ;;
  formatted <- lift (mapiR (logLine (parseToLocaleString w)) 0 logs) ;;
  username <- lift (get user "Username") ;;
  ret (textResponse ("Found " ++ dec (List.length logs) ++ " logs for "
                     ++ toString username ++ ":\n" ++ join "\n" formatted)).

Definition manageDebugLogs (conn : Connection) (args : ManageDebugLogsArgs)
  : M response :=
  userQuery <- do_query conn (userByName (dl_username args)) ;;
  if (List.length userQuery =? 0)%nat then
    throw (Error ("User not found: " ++ dl_username args))
  else
    let user := nth 0 userQuery VUndef in
    if String.eqb (dl_operation args) "enable" then enableDebugLogs conn args user
    else if String.eqb (dl_operation args) "disable" then disableDebugLogs conn user
    else if String.eqb (dl_operation args) "retrieve" then
      retrieveDebugLogs conn args user
    else throw (Error ("Invalid operation: " ++ dl_operation args)).

End Server.
End Tooling.

(* ================================================================== *)
(** ** [src/index.ts]: [describeObject] and the whole of [handleToolCall] *)
(* ================================================================== *)

(** The fifteen tools do not use the same part of the platform: the
    handlers of [Monolith] and [Handlers] run in [Net.M], those of [Tooling]
    in [Tooling.M]. Here their calls go to one history, in the order they
    are issued; each part of the platform answers from the calls it has
    received itself. *)
Module Dispatch.

(** A call to the platform: one of the session acquirer or of a handler in
    [Net.M], one of a handler in [Tooling.M], or [conn.describe(objectName)]. *)
Inductive event : Type :=
| Core (e : Net.event)
| Service (e : Tooling.event)
| Describe (conn : Connection) (objectName : string).

Record World : Type := mkWorld {
  platform : Net.World;
  services : Tooling.World;
  conn_describe : list event -> Connection -> string -> result value
}.

Definition M (A : Type) : Type := list event -> result A * list event.

Definition ret {A : Type} (a : A) : M A := fun h => (Ok a, h).
Definition throw {A : Type} (e : JS.error) : M A := fun h => (Throw e, h).
Definition bind {A B : Type} (m : M A) (k : A -> M B) : M B :=
  fun h => match m h with
           | (Ok a, h') => k a h'
           | (Throw e, h') => (Throw e, h')
           end.
Definition lift {A : Type} (r : result A) : M A := fun h => (r, h).

Declare Scope dispatch_scope.
Delimit Scope dispatch_scope with dispatch.
Notation "x <- m ;; k" := (bind m (fun x => k))
  (at level 61, m at next level, right associativity) : dispatch_scope.
Open Scope dispatch_scope.

(** The calls of a history that went to each part of the platform. *)
Fixpoint coreCalls (h : list event) : list Net.event :=
  match h with
  | [] => []
  | Core e :: rest => e :: coreCalls rest
  | _ :: rest => coreCalls rest
  end.

Fixpoint serviceCalls (h : list event) : list Tooling.event :=
  match h with
  | [] => []
  | Service e :: rest => e :: serviceCalls rest
  | _ :: rest => serviceCalls rest
  end.

(** A computation of [Net.M] inside the whole: it runs on the calls of its
    part, and the calls it adds to them are added to the history. *)
Definition liftCore {A : Type} (m : Net.M A) : M A :=
  fun h =>
    let seen := coreCalls h in
    (fst (m seen), (h ++ map Core (skipn (List.length seen) (snd (m seen))))%list).

(** The same for a computation of [Tooling.M]. *)
Definition liftService {A : Type} (m : Tooling.M A) : M A :=
  fun h =>
    let seen := serviceCalls h in
    (fst (m seen), (h ++ map Service (skipn (List.length seen) (snd (m seen))))%list).

(* ---------------------------------------------------------------- *)
(** *** [describeObject] *)

(** [f.referenceTo?.length ? `References: ${f.referenceTo.join(', ')}` : ''] *)
Definition references (f : value) : result string :=
  rbind (get f "referenceTo") (fun referenceTo =>
  if truthy (get_opt referenceTo "length") then
    match referenceTo with
    | VArr items => Ok ("References: " ++ join ", " (map joinItem items))
    | _ => Throw (TypeError "f.referenceTo.join is not a function")
    end
  else Ok "").

(** [f.picklistValues?.length
      ? `Picklist: ${f.picklistValues.map(v => v.value).join(', ')}` : ''] *)
Definition picklist (f : value) : result string :=
  rbind (get f "picklistValues") (fun picklistValues =>
  if truthy (get_opt picklistValues "length") then
    match picklistValues with
    | VArr items =>
        rbind (mapR (fun v => get v "value") items) (fun values =>
        Ok ("Picklist: " ++ join ", " (map joinItem values)))
    | _ => Throw (TypeError "f.picklistValues.map is not a function")
    end
  else Ok "").

(** The lines of one field. *)
Definition describeField (f : value) : result string :=
  rbind (get f "name") (fun name =>
  rbind (get f "label") (fun label =>
  rbind (get f "type") (fun type =>
  rbind (get f "length") (fun length =>
  rbind (get f "nillable") (fun nillable =>
  rbind (references f) (fun referenceLine =>
  rbind (picklist f) (fun picklistLine =>
  Ok ("  - " ++ toString name ++ " (" ++ toString label ++ ")
    Type: " ++ toString type
      ++ (if truthy length then ", Length: " ++ toString length else "") ++ "
    Required: " ++ toString (VBool (negb (truthy nillable))) ++ "
    " ++ referenceLine ++ "
    " ++ picklistLine)))))))).

(** [describe.fields.map(f => ...)] *)
Definition describeFields (fields : value) : result (list string) :=
  match fields with
  | VArr items => mapR describeField items
  | VUndef | VNull => rbind (get fields "map") (fun _ => Ok [])
  | _ => Throw (TypeError "describe.fields.map is not a function")
  end.

(** The text [formatted] of [describeObject]. *)
Definition describeText (describe : value) : result string :=
  rbind (get describe "name") (fun name =>
  rbind (get describe "label") (fun label =>
  rbind (get describe "custom") (fun custom =>
  rbind (get describe "fields") (fun fields =>
  rbind (describeFields fields) (fun lines =>
  Ok ("Object: " ++ toString name ++ " (" ++ toString label ++ ")"
      ++ (if truthy custom then " (Custom)" else "") ++ "
Fields:
" ++ join "\n" lines)))))).

(* ---------------------------------------------------------------- *)
(** *** [handleToolCall] *)

(** A tool call: the name of the tool with its arguments, or [other name]
    for a name that is none of the fifteen. *)
Inductive ToolInvocation : Type :=
| salesforce_search_objects (searchPattern : string)
| salesforce_describe_object (objectName : string)
| salesforce_query_records (args : Handlers.QueryArgs)
| salesforce_aggregate_query (args : Monolith.AggregateQueryArgs)
| salesforce_dml_records (args : Monolith.DmlArgs)
| salesforce_manage_object (args : Monolith.ManageObjectArgs)
| salesforce_manage_field (args : Handlers.ManageFieldArgs)
| salesforce_manage_field_permissions (args : Monolith.ManageFieldPermissionsArgs)
| salesforce_search_all (args : Tooling.SearchAllArgs)
| salesforce_read_apex (args : Handlers.ReadApexArgs)
| salesforce_write_apex (args : Tooling.WriteApexArgs)
| salesforce_read_apex_trigger (args : Handlers.ReadApexTriggerArgs)
| salesforce_write_apex_trigger (args : Tooling.WriteApexTriggerArgs)
| salesforce_execute_anonymous (args : Monolith.ExecuteAnonymousArgs)
| salesforce_manage_debug_logs (args : Tooling.ManageDebugLogsArgs)
| other (name : string).

Section Server.
Variable w : World.
Variable config : Monolith.ExtensionConfig.

Definition do_describe (c : Connection) (objectName : string) : M value :=
  fun h => (conn_describe w h c objectName, (h ++ [Describe c objectName])%list).

Definition describeObject (conn : Connection) (objectName : string) : M response :=
  describe <- do_describe conn objectName ;;
  formatted <- lift (describeText describe) ;;
  ret (textResponse formatted).

(** [Promise.race] against the timer: the raced operation. *)
Definition executeWithTimeout {A : Type} (promise : M A) : M A := promise.

(** The [switch] of [handleToolCall]. *)
Definition dispatch (conn : Connection) (call : ToolInvocation) : M response :=
  match call with
  | salesforce_search_objects searchPattern =>
      executeWithTimeout
        (liftService (Tooling.searchObjects (services w) conn searchPattern))
  | salesforce_describe_object objectName =>
      executeWithTimeout (describeObject conn objectName)
  | salesforce_query_records args =>
      executeWithTimeout (liftCore (Handlers.queryRecords (platform w) conn args))
  | salesforce_aggregate_query args =>
      executeWithTimeout (liftCore (Monolith.aggregateQuery (platform w) conn args))
  | salesforce_dml_records args =>
      executeWithTimeout (liftCore (Monolith.dmlRecords (platform w) conn args))
  | salesforce_manage_object args =>
      executeWithTimeout (liftCore (Monolith.manageObject (platform w) conn args))
  | salesforce_manage_field args =>
      executeWithTimeout (liftCore (Handlers.manageField (platform w) conn args))
  | salesforce_manage_field_permissions args =>
      executeWithTimeout
        (liftCore (Monolith.manageFieldPermissions (platform w) conn args))
  | salesforce_search_all args =>
      executeWithTimeout (liftService (Tooling.searchAll (services w) conn args))
  | salesforce_read_apex args =>
      executeWithTimeout (liftCore (Handlers.readApex (platform w) conn args))
  | salesforce_write_apex args =>
      executeWithTimeout
        (liftService (Tooling.writeApex (services w) config conn args))
  | salesforce_read_apex_trigger args =>
      executeWithTimeout (liftCore (Handlers.readApexTrigger (platform w) conn args))
  | salesforce_write_apex_trigger args =>
      executeWithTimeout
        (liftService (Tooling.writeApexTrigger (services w) config conn args))
  | salesforce_execute_anonymous args =>
      executeWithTimeout (liftCore (Monolith.executeAnonymous (platform w) conn args))
  | salesforce_manage_debug_logs args =>
      executeWithTimeout
        (liftService (Tooling.manageDebugLogs (services w) conn args))
  | other name => throw (Error ("Unknown tool: " ++ name))
  end.

(** The session every tool call opens first. *)
Definition acquire : M Connection :=
  liftCore (Monolith.createSalesforceConnection (platform w) config).

(** [handleToolCall] never throws: it returns a response and the calls
    issued. *)
Definition handleToolCall (call : ToolInvocation) (h : list event)
  : response * list event :=
  match (conn <- acquire ;; dispatch conn call) h with
  | (Ok r, h') => (r, h')
  | (Throw e, h') => (Monolith.errorResponse e, h')
  end.

End Server.
End Dispatch.

(* ================================================================== *)
(** ** The modular server: the handler of tool calls *)
(* ================================================================== *)

Module Registry.

(** The [handler] of an entry of [toolRegistry]: it narrows the arguments,
    which may throw, and runs the tool. *)
Definition handler : Type := Connection -> value -> M response.

Section Server.
Variable w : World.
Variable User_Password : string.
Variable OAuth_2_0_Client_Credentials : string.
Variable env : Monolith.ProcessEnv.

(** [toolRegistry[name]] *)
Variable toolRegistry : string -> option handler.

(** The handler registered for [CallToolRequestSchema]; [args] is
    [request.params.arguments]. *)
Definition callTool (name : string) (args : option value) (h : list event)
  : response * list event :=
  match
    (match args with
     | None => throw (Error "Arguments are required")
     | Some arguments =>
         if negb (truthy arguments) then throw (Error "Arguments are required")
         else
           match toolRegistry name with
           | None => ret (Modular.reply ("Unknown tool: " ++ name) true)
           | Some tool =>
               conn <- Modular.createSalesforceConnection w User_Password
                         OAuth_2_0_Client_Credentials env ;;
               tool conn arguments
           end
     end) h
  with
  | (Ok r, h') => (r, h')
  | (Throw e, h') => (Modular.reply ("Error: " ++ message e) true, h')
  end.

End Server.
End Registry.

(* ================================================================== *)
(** ** [scripts/setup.js]: registering the extension *)
(* ================================================================== *)

Module Setup.

(** [{ id: 'salesforce', path: extensionPath }] *)
Definition extensionEntry (extensionPath : string) : value :=
  VObj [("id", VStr "salesforce"); ("path", VStr extensionPath)].

(** [v === s] for a string [s]. *)
Definition isString (v : value) (s : string) : bool :=
  match v with VStr t => String.eqb t s | _ => false end.

(** [ext => ext.id === 'salesforce' || ext.path === extensionPath] *)
Definition isThisExtension (extensionPath : string) (ext : value) : result bool :=
  rbind (get ext "id") (fun id =>
  if isString id "salesforce" then Ok true
  else rbind (get ext "path") (fun path => Ok (isString path extensionPath))).

(** [l.findIndex(p)] when [p] may throw; [i] is the index of the head. *)
Fixpoint findIndex {A : Type} (p : A -> result bool) (i : nat) (l : list A)
  : result (option nat) :=
  match l with
  | [] => Ok None
  | x :: rest =>
      rbind (p x) (fun b => if b then Ok (Some i) else findIndex p (S i) rest)
  end.

(** [l[i] = v] for an index inside the list. *)
Fixpoint replaceAt {A : Type} (i : nat) (v : A) (l : list A) : list A :=
  match l, i with
  | [], _ => []
  | _ :: rest, O => v :: rest
  | x :: rest, S j => x :: replaceAt j v rest
  end.

(** Lines 134 to 158 of [main]: the configuration, an object given by its
    fields, after the extension is registered at [extensionPath]. *)
Definition registerExtension (config : list (string * value)) (extensionPath : string)
  : result (list (string * value)) :=
  let config1 :=
    if truthy (opt_or_undef (lookup "extensions" config)) then config
    else set "extensions" (VArr []) config in
  match opt_or_undef (lookup "extensions" config1) with
  | VArr extensions =>
      rbind (findIndex (isThisExtension extensionPath) 0 extensions)
        (fun existingIndex =>
         match existingIndex with
         | Some i =>
             Ok (set "extensions"
                   (VArr (replaceAt i (extensionEntry extensionPath) extensions))
                   config1)
         | None =>
             Ok (set "extensions"
                   (VArr (extensions ++ [extensionEntry extensionPath])%list)
                   config1)
         end)
  | _ => Throw (TypeError "config.extensions.findIndex is not a function")
  end.

End Setup.

(* ================================================================== *)
(** ** More stub platforms and vocabulary *)
(* ================================================================== *)

Module Stub2.

Definition passwordLogin : event :=
  ELogin Stub.session "dev@example.com" "hunter2".

(** The configuration of [Stub.oauthConfig] with credentials of the other
    flow added. *)
Definition oauthConfigWithPassword : Monolith.ExtensionConfig :=
  {| Monolith.connectionType := "OAuth_2.0_Client_Credentials";
     Monolith.instanceUrl := "https://acme.my.salesforce.com";
     Monolith.username := Some "dev@example.com";
     Monolith.password := Some "hunter2";
     Monolith.securityToken := Some "tok";
     Monolith.clientId := Some "app";
     Monolith.clientSecret := Some "s3cret";
     Monolith.apiVersion := "61.0";
     Monolith.timeout := VNum 30000;
     Monolith.logLevel := "debug" |}.

(** The token endpoint cannot be reached. *)
Definition offline : World :=
  Stub.world Stub.tokenDocuments Stub.unreachable Stub.loginOk Stub.noRows Stub.saveOk.

(** A reference field whose name already carries the custom suffix. *)
Definition lookupField : Handlers.ManageFieldArgs :=
  {| Handlers.mf_operation := "create";
     Handlers.mf_objectName := "Invoice__c";
     Handlers.mf_fieldName := "Customer__c";
     Handlers.mf_label := Some "Customer";
     Handlers.mf_type := Some "Lookup";
     Handlers.mf_required := None;
     Handlers.mf_unique := None;
     Handlers.mf_externalId := None;
     Handlers.mf_length := None;
     Handlers.mf_precision := None;
     Handlers.mf_scale := None;
     Handlers.mf_referenceTo := Some "Account";
     Handlers.mf_relationshipLabel := None;
     Handlers.mf_relationshipName := Some "Invoices";
     Handlers.mf_deleteConstraint := None;
     Handlers.mf_picklistValues := None;
     Handlers.mf_description := None;
     Handlers.mf_grantAccessTo := Some ["Sales"; "Support"] |}.

(** A number field with the relationship name and delete constraint of a
    lookup, but no [referenceTo], and all its sizes zero. *)
Definition numberField : Handlers.ManageFieldArgs :=
  {| Handlers.mf_operation := "create";
     Handlers.mf_objectName := "Invoice__c";
     Handlers.mf_fieldName := "Total";
     Handlers.mf_label := None;
     Handlers.mf_type := Some "Number";
     Handlers.mf_required := Some false;
     Handlers.mf_unique := None;
     Handlers.mf_externalId := None;
     Handlers.mf_length := Some 0%Z;
     Handlers.mf_precision := Some 0%Z;
     Handlers.mf_scale := Some 0%Z;
     Handlers.mf_referenceTo := None;
     Handlers.mf_relationshipLabel := None;
     Handlers.mf_relationshipName := Some "Totals";
     Handlers.mf_deleteConstraint := Some "SetNull";
     Handlers.mf_picklistValues := None;
     Handlers.mf_description := None;
     Handlers.mf_grantAccessTo := None |}.

Definition contact : value :=
  VObj [("Name", VStr "Ada"); ("Account", VObj [("Name", VStr "Acme")])].

(** A grant that asks for neither read nor edit access. *)
Definition grantNothing : Monolith.ManageFieldPermissionsArgs :=
  {| Monolith.fp_operation := "grant";
     Monolith.fp_objectName := "Account";
     Monolith.fp_fieldName := "Rating";
     Monolith.fp_profileNames := Some ["Sales"];
     Monolith.fp_readable := Some false;
     Monolith.fp_editable := Some false |}.

(** The metadata API rejects every deployment. *)
Definition rejecting : World :=
  Stub.world [] Stub.unreachable Stub.loginOk
    (fun _ _ _ => Ok [VObj [("Id", VStr "0PS01")]])
    (fun _ _ _ => Ok (VArr [VObj [("success", VBool false)]])).



(** The metadata API has no descriptor to return. *)
Definition withoutInvoice : World :=
  Stub.world [] Stub.unreachable Stub.loginOk Stub.noRows (fun _ _ _ => Ok (VArr [])).

(** An update that supplies nothing. *)
Definition touch : Modular.ManageObjectArgs :=
  {| Modular.operation := "update";
     Modular.objectName := "Invoice__c";
     Modular.label := None;
     Modular.pluralLabel := None;
     Modular.description := Some "";
     Modular.nameFieldLabel := None;
     Modular.nameFieldType := None;
     Modular.nameFieldFormat := None;
     Modular.sharingModel := None |}.

(** A create that leaves the label to the handler. *)
Definition newObject : Modular.ManageObjectArgs :=
  {| Modular.operation := "create";
     Modular.objectName := "Customer_Feedback__c";
     Modular.label := None;
     Modular.pluralLabel := Some "Customer Feedback";
     Modular.description := None;
     Modular.nameFieldLabel := None;
     Modular.nameFieldType := None;
     Modular.nameFieldFormat := Some "FB-{0000}";
     Modular.sharingModel := None |}.

End Stub2.

Module ToolingStub.

Definition session : Connection := Stub.session.

Definition sobjects : list Tooling.SObjectInfo :=
  [Tooling.mkSObjectInfo "Account" "Account" false;
   Tooling.mkSObjectInfo "Invoice__c" "Customer Invoice" true;
   Tooling.mkSObjectInfo "Contact" "Contact" false].

Definition dev : value :=
  VObj [("Id", VStr "005A"); ("Username", VStr "dev@example.com");
        ("Name", VStr "Dev")].

(** A platform with the three objects above, the user [dev] behind every
    query, two trace flags behind every tooling query, no search result, and
    a tooling API that accepts every write. The clock shows the number of
    calls issued, in minutes. *)
Definition org : Tooling.World :=
  {| Tooling.describeGlobal := fun _ _ => Ok sobjects;
     Tooling.query := fun _ _ _ => Ok [dev];
     Tooling.search := fun _ _ _ =>
       Ok [VObj [("attributes", VObj [("type", VStr "Account")]);
                 ("Name", VStr "Acme"); ("NumberOfEmployees", VNum 0)];
           VObj [("attributes", VObj [("type", VStr "Lead")]);
                 ("Name", VStr "Acme lead")]];
     Tooling.tooling_query := fun _ _ _ =>
       Ok [VObj [("Id", VStr "7tf1")]; VObj [("Id", VStr "7tf2")]];
     Tooling.tooling := fun _ _ _ => Ok (VObj [("id", VStr "7dl1"); ("success", VBool true)]);
     Tooling.now := fun h _ => Z.of_nat (List.length h);
     Tooling.plusMinutes := fun t n => (t + n)%Z;
     Tooling.toISOString := fun t => decZ t;
     Tooling.toLocaleString := fun t => decZ t;
     Tooling.parseToLocaleString := fun v => toString v |}.

(** The same platform without any user, class or trigger. *)
Definition emptyOrg : Tooling.World :=
  {| Tooling.describeGlobal := fun _ _ => Ok [];
     Tooling.query := fun _ _ _ => Ok [];
     Tooling.search := fun _ _ _ => Ok [];
     Tooling.tooling_query := fun _ _ _ => Ok [];
     Tooling.tooling := fun _ _ _ => Ok (VObj [("id", VStr "7dl1")]);
     Tooling.now := fun h _ => Z.of_nat (List.length h);
     Tooling.plusMinutes := fun t n => (t + n)%Z;
     Tooling.toISOString := fun t => decZ t;
     Tooling.toLocaleString := fun t => decZ t;
     Tooling.parseToLocaleString := fun v => toString v |}.

Definition debugArgs (operation : string) (expirationTime : option Z)
  : Tooling.ManageDebugLogsArgs :=
  {| Tooling.dl_operation := operation;
     Tooling.dl_username := "dev@example.com";
     Tooling.dl_logLevel := None;
     Tooling.dl_expirationTime := expirationTime;
     Tooling.dl_limit := None;
     Tooling.dl_logId := None;
     Tooling.dl_includeBody := None |}.

Definition searchArgs : Tooling.SearchAllArgs :=
  {| Tooling.sa_searchTerm := "Acme";
     Tooling.sa_searchIn := None;
     Tooling.sa_objects :=
       [Tooling.mkSearchObject "Account" ["Name"; "NumberOfEmployees"] None None None;
        Tooling.mkSearchObject "Contact" ["Name"] None None (Some 5%Z)] |}.

Definition rewrite (operation : string) : Tooling.WriteApexArgs :=
  {| Tooling.wa_operation := operation;
     Tooling.wa_className := "AccountController";
     Tooling.wa_apiVersion := Some "61.0";
     Tooling.wa_body := "public class AccountController {}" |}.

Definition newTrigger (objectName : option string) : Tooling.WriteApexTriggerArgs :=
  {| Tooling.wt_operation := "create";
     Tooling.wt_triggerName := "AccountTrigger";
     Tooling.wt_objectName := objectName;
     Tooling.wt_apiVersion := None;
     Tooling.wt_body := "trigger AccountTrigger on Account (before insert) {}" |}.

End ToolingStub.

(** The string is made of spaces only. *)
Fixpoint onlySpaces (s : string) : bool :=
  match s with
  | EmptyString => true
  | String c rest => Ascii.eqb c " " && onlySpaces rest
  end.

(** The record of a search result carries its [attributes]. *)
Definition hasAttributes (r : value) : bool :=
  notNullish r && notNullish (get_opt r "attributes").

(** The type tag of the record of a search result is [name]. *)
Definition typeIs (name : string) (r : value) : bool :=
  match get_opt (get_opt r "attributes") "type" with
  | VStr s => String.eqb s name
  | _ => false
  end.

(** The number of records of a search result rendered in the section of
    [obj]. *)
Definition sectionSize (records : list value) (obj : Tooling.SearchObject) : nat :=
  List.length (filter (typeIs (Tooling.sa_name obj)) records).

(** The record has the type of one of the requested objects. *)
Definition requested (objects : list Tooling.SearchObject) (r : value) : bool :=
  existsb (fun obj => typeIs (Tooling.sa_name obj) r) objects.

(** A platform for the whole server: it accepts the login and every write,
    and describes nothing. *)
Definition wholeOrg : Dispatch.World :=
  Dispatch.mkWorld Stub.quiet ToolingStub.org (fun _ _ _ => Ok VNull).

(** A tool call of [Monolith] as a call of the whole server. *)
Definition whole (call : Monolith.ToolInvocation) : Dispatch.ToolInvocation :=
  match call with
  | Monolith.salesforce_aggregate_query args => Dispatch.salesforce_aggregate_query args
  | Monolith.salesforce_dml_records args => Dispatch.salesforce_dml_records args
  | Monolith.salesforce_manage_object args => Dispatch.salesforce_manage_object args
  | Monolith.salesforce_manage_field_permissions args =>
      Dispatch.salesforce_manage_field_permissions args
  | Monolith.salesforce_execute_anonymous args =>
      Dispatch.salesforce_execute_anonymous args
  end.

(** A computation only adds calls to the history it starts from, and the
    calls it adds all satisfy [P]. *)
Definition emits {A : Type} (P : event -> Prop) (m : M A) : Prop :=
  forall h, exists t, snd (m h) = (h ++ t)%list /\ Forall P t.

(** A query through [conn], or the creation through [conn] of a
    [FieldPermissions] record on [field] of [objectName] that grants read and
    edit. *)
Definition isGrantCall (conn : Connection) (objectName field : string) (e : event)
  : Prop :=
  (exists soql, e = EQuery conn soql)
  \/ (exists parentId,
        e = ECall conn
              (SobjectCreate "FieldPermissions"
                 (VObj [("ParentId", parentId);
                        ("SobjectType", VStr objectName);
                        ("Field", VStr field);
                        ("PermissionsRead", VBool true);
                        ("PermissionsEdit", VBool true)]))).

(* ================================================================== *)
(** ** Properties *)
(* ================================================================== *)

Ltac unfold_monad := unfold bind, ret, throw, lift, try_catch in *.

(* ------------------------------------------------------------------ *)
(** *** Field permissions *)

Section FieldPermissions.
Variable w : World.
Variable conn : Connection.

(** Every exception raised while granting to a profile is caught inside
    [grantFieldPermissions]: the function always returns. *)
Lemma grantFieldPermissions_returns (objectName fieldName : string)
    (profileNames : list string) (h : list event) :
  exists h', Monolith.grantFieldPermissions w conn objectName fieldName profileNames h
             = (Ok tt, h').
Proof.
  unfold Monolith.grantFieldPermissions.
  revert h. induction profileNames as [|p rest IH]; intro h; simpl.
  - exists h. reflexivity.
  - unfold_monad.
    destruct (Monolith.grantOne w conn objectName _ p h) as [[[]|e] h1];
      destruct (IH h1) as [h2 E]; exists h2; exact E.
Qed.

(** With [grant], the loop pushes "Granted to" for every profile. *)
Lemma grantRevokeLoop_grant (args : Monolith.ManageFieldPermissionsArgs)
    (profiles : list string) (h : list event) :
  Monolith.fp_operation args = "grant" ->
  exists h', Monolith.grantRevokeLoop w conn args profiles h
             = (Ok (map (fun p => "Granted to " ++ p) profiles), h').
Proof.
  intro Hop. revert h. induction profiles as [|p rest IH]; intro h; simpl.
  - exists h. reflexivity.
  - rewrite Hop. simpl. unfold_monad.
    destruct (grantFieldPermissions_returns (Monolith.fp_objectName args)
                (Monolith.fp_fieldName args) [p] h) as [h1 E1].
    rewrite E1. destruct (IH h1) as [h2 E2]. rewrite E2.
    exists h2. reflexivity.
Qed.

(** With [revoke], the loop pushes "Revoked from" for every profile and
    issues nothing. *)
Lemma grantRevokeLoop_revoke (args : Monolith.ManageFieldPermissionsArgs)
    (profiles : list string) (h : list event) :
  Monolith.fp_operation args = "revoke" ->
  Monolith.grantRevokeLoop w conn args profiles h
  = (Ok (map (fun p => "Revoked from " ++ p) profiles), h).
Proof.
  intro Hop. induction profiles as [|p rest IH]; simpl.
  - reflexivity.
  - rewrite Hop. simpl. unfold_monad. rewrite IH. reflexivity.
Qed.

End FieldPermissions.

Lemma grantRevokeLoop_withProfiles (w : World) (conn : Connection)
    (args : Monolith.ManageFieldPermissionsArgs) (o : option (list string))
    (profiles : list string) (h : list event) :
  Monolith.grantRevokeLoop w conn (withProfiles args o) profiles h
  = Monolith.grantRevokeLoop w conn args profiles h.
Proof.
  revert h. induction profiles as [|p rest IH]; intro h; simpl.
  - reflexivity.
  - unfold_monad.
    destruct (if (Monolith.fp_operation args =? "grant")%string then _ else _)
      as [[pushed|e] h1]; rewrite IH; reflexivity.
Qed.

(** In a grant, whatever the platform answers, the response is one
    "Granted to" line per profile, in order. *)
Lemma grant_response (w : World) (conn : Connection)
    (args : Monolith.ManageFieldPermissionsArgs) (h : list event) :
  Monolith.fp_operation args = "grant" ->
  exists h',
    Monolith.manageFieldPermissions w conn args h
    = (Ok (textResponse (join "\n" (map (fun p => "Granted to " ++ p)
                                        (Monolith.profilesOf args)))), h').
Proof.
  intro Hop. unfold Monolith.manageFieldPermissions. rewrite Hop. simpl.
  destruct (grantRevokeLoop_grant w conn args (Monolith.profilesOf args) h Hop)
    as [h' E].
  unfold_monad. rewrite E. exists h'. reflexivity.
Qed.

(** In a revoke the response is one "Revoked from" line per profile and the
    history of calls is left as it was. *)
Lemma revoke_response (w : World) (conn : Connection)
    (args : Monolith.ManageFieldPermissionsArgs) (h : list event) :
  Monolith.fp_operation args = "revoke" ->
  Monolith.manageFieldPermissions w conn args h
  = (Ok (textResponse (join "\n" (map (fun p => "Revoked from " ++ p)
                                      (Monolith.profilesOf args)))), h).
Proof.
  intro Hop. unfold Monolith.manageFieldPermissions. rewrite Hop. simpl.
  unfold_monad. rewrite (grantRevokeLoop_revoke w conn args _ h Hop).
  reflexivity.
Qed.

(** C3. A [revoke] issues no call to the platform at all, for any profile
    list, so nothing on the platform changes; the response is not an error
    and reads "Revoked from <profile>" for every listed profile. *)
Theorem revoke_reports_without_platform_call (w : World) (conn : Connection)
    (args : Monolith.ManageFieldPermissionsArgs) (h : list event) :
  Monolith.fp_operation args = "revoke" ->
  let r := textResponse (join "\n" (map (fun p => "Revoked from " ++ p)
                                        (Monolith.profilesOf args))) in
  Monolith.manageFieldPermissions w conn args h = (Ok r, h)
  /\ flaggedError r = false
  /\ (forall names, Monolith.fp_profileNames args = Some names ->
        responseText r = join "\n" (map (fun p => "Revoked from " ++ p) names)).
Proof.
  intros Hop r. split; [|split].
  - apply revoke_response. exact Hop.
  - reflexivity.
  - intros names Hn. subst r. unfold Monolith.profilesOf. rewrite Hn.
    reflexivity.
Qed.

Lemma revoke_reports_without_platform_call_witness :
  Monolith.fp_operation (Stub.permissionArgs "revoke" (Some ["Sales"; "Support"]))
  = "revoke"
  /\ Monolith.manageFieldPermissions Stub.quiet Stub.session
       (Stub.permissionArgs "revoke" (Some ["Sales"; "Support"])) []
     = (Ok (textResponse "Revoked from Sales\nRevoked from Support"), []).
Proof.
  split; [reflexivity|].
  exact (proj1 (revoke_reports_without_platform_call Stub.quiet Stub.session
                  (Stub.permissionArgs "revoke" (Some ["Sales"; "Support"])) []
                  eq_refl)).
Defined.

(** C10. In a [grant] or a [revoke] without [profileNames], the handler
    does exactly what it does for the list ["System Administrator"]: the same
    calls, the same outcome, and a response that names that profile only. *)
Theorem absent_profiles_mean_system_administrator (w : World) (conn : Connection)
    (args : Monolith.ManageFieldPermissionsArgs) (h : list event) :
  Monolith.fp_operation args = "grant" \/ Monolith.fp_operation args = "revoke" ->
  Monolith.fp_profileNames args = None ->
  Monolith.manageFieldPermissions w conn args h
  = Monolith.manageFieldPermissions w conn
      (withProfiles args (Some ["System Administrator"])) h
  /\ exists h',
       Monolith.manageFieldPermissions w conn args h
       = (Ok (textResponse
                ((if String.eqb (Monolith.fp_operation args) "grant"
                  then "Granted to " else "Revoked from ")
                 ++ "System Administrator")), h').
Proof.
  intros Hop Hnone. split.
  - unfold Monolith.manageFieldPermissions, Monolith.profilesOf.
    rewrite Hnone.
    change (Monolith.fp_operation (withProfiles args (Some ["System Administrator"])))
      with (Monolith.fp_operation args).
    change (Monolith.fp_profileNames (withProfiles args (Some ["System Administrator"])))
      with (Some ["System Administrator"]).
    destruct (Monolith.fp_operation args =? "view")%string; [reflexivity|].
    unfold bind. rewrite grantRevokeLoop_withProfiles. reflexivity.
  - destruct Hop as [Hop|Hop].
    + destruct (grant_response w conn args h Hop) as [h' E].
      exists h'. rewrite E, Hop. unfold Monolith.profilesOf. rewrite Hnone.
      reflexivity.
    + exists h. rewrite (revoke_response w conn args h Hop).
      rewrite Hop. unfold Monolith.profilesOf. rewrite Hnone. reflexivity.
Qed.

Lemma absent_profiles_mean_system_administrator_witness :
  (Monolith.fp_operation (Stub.permissionArgs "grant" None) = "grant"
   \/ Monolith.fp_operation (Stub.permissionArgs "grant" None) = "revoke")
  /\ Monolith.fp_profileNames (Stub.permissionArgs "grant" None) = None
  /\ Monolith.manageFieldPermissions Stub.profileAFails Stub.session
       (Stub.permissionArgs "grant" None) []
     = Monolith.manageFieldPermissions Stub.profileAFails Stub.session
         (Stub.permissionArgs "grant" (Some ["System Administrator"])) [].
Proof.
  split; [left; reflexivity|]. split; [reflexivity|].
  exact (proj1 (absent_profiles_mean_system_administrator Stub.profileAFails
                  Stub.session (Stub.permissionArgs "grant" None) []
                  (or_introl eq_refl) eq_refl)).
Defined.

(** C2, on the code. The platform rejects the query for profile "A", so
    granting to "A" throws inside [grantFieldPermissions]; the exception is
    caught there, and [manageFieldPermissions] reports "Granted to A" next to
    "Granted to B": the failure for "A" is not in the response. *)
Theorem grant_failure_is_reported_as_granted :
  fst (Monolith.grantOne Stub.profileAFails Stub.session
         "Account" "Account.Rating__c" "A" [])
  = Throw (Error "INVALID_SESSION_ID")
  /\ fst (Monolith.manageFieldPermissions Stub.profileAFails Stub.session
            (Stub.permissionArgs "grant" (Some ["A"; "B"])) [])
     = Ok (textResponse "Granted to A\nGranted to B")
  /\ fst (Monolith.handleToolCall Stub.profileAFails Stub.passwordConfig
            (Monolith.salesforce_manage_field_permissions
               (Stub.permissionArgs "grant" (Some ["A"; "B"]))) [])
     = textResponse "Granted to A\nGranted to B".
Proof.
  repeat split; vm_compute; reflexivity.
Qed.

(* ------------------------------------------------------------------ *)
(** *** Data manipulation *)

(** An upsert without [externalIdField] throws inside [dmlRecords] before
    the handler issues anything. *)
Lemma dmlRecords_upsert_requires_externalIdField (w : World) (conn : Connection)
    (args : Monolith.DmlArgs) (h : list event) :
  Monolith.dml_operation args = "upsert" ->
  Monolith.dml_externalIdField args = None ->
  Monolith.dmlRecords w conn args h
  = (Throw (Error "externalIdField required for upsert"), h).
Proof.
  intros Hop Hnone.
  unfold Monolith.dmlRecords, Monolith.dmlSubmit. rewrite Hop, Hnone.
  reflexivity.
Qed.

(** C4, as stated, fails: the session is acquired before the arguments of
    the upsert are looked at, so a login is issued before the failure. *)
Lemma upsert_validation_comes_after_login :
  Monolith.handleToolCall Stub.quiet Stub.passwordConfig
    (Monolith.salesforce_dml_records (Stub.dmlArgs "upsert" [Stub.acme] None)) []
  = (Monolith.errorResponse (Error "externalIdField required for upsert"),
     [ELogin Stub.session "dev@example.com" "hunter2"])
  /\ snd (Monolith.handleToolCall Stub.quiet Stub.passwordConfig
            (Monolith.salesforce_dml_records (Stub.dmlArgs "upsert" [Stub.acme] None))
            []) <> [].
Proof.
  split; [vm_compute; reflexivity | vm_compute; discriminate].
Qed.

(** C4, amended. An upsert without [externalIdField] fails before the
    upsert is issued: [dmlRecords] throws without issuing any call, and the
    calls of [handleToolCall] are those of the session acquisition that
    precedes the dispatch, and nothing else; once the session is acquired the
    response is the error "externalIdField required for upsert". *)
Theorem upsert_without_externalIdField_issues_no_upsert (w : World)
    (config : Monolith.ExtensionConfig) (args : Monolith.DmlArgs) (h : list event) :
  Monolith.dml_operation args = "upsert" ->
  Monolith.dml_externalIdField args = None ->
  (forall conn,
     Monolith.dmlRecords w conn args h
     = (Throw (Error "externalIdField required for upsert"), h))
  /\ snd (Monolith.handleToolCall w config (Monolith.salesforce_dml_records args) h)
     = snd (Monolith.createSalesforceConnection w config h)
  /\ (forall conn h',
        Monolith.createSalesforceConnection w config h = (Ok conn, h') ->
        Monolith.handleToolCall w config (Monolith.salesforce_dml_records args) h
        = (Monolith.errorResponse (Error "externalIdField required for upsert"), h')).
Proof.
  intros Hop Hnone. split; [|split].
  - intro conn. apply dmlRecords_upsert_requires_externalIdField; assumption.
  - unfold Monolith.handleToolCall, bind.
    destruct (Monolith.createSalesforceConnection w config h) as [[conn|e] h1];
      [|reflexivity].
    simpl. unfold Monolith.executeWithTimeout.
    rewrite (dmlRecords_upsert_requires_externalIdField w conn args h1 Hop Hnone).
    reflexivity.
  - intros conn h' E. unfold Monolith.handleToolCall, bind. rewrite E.
    simpl. unfold Monolith.executeWithTimeout.
    rewrite (dmlRecords_upsert_requires_externalIdField w conn args h' Hop Hnone).
    reflexivity.
Qed.

Lemma upsert_without_externalIdField_issues_no_upsert_witness :
  Monolith.dml_operation (Stub.dmlArgs "upsert" [Stub.acme; Stub.globex] None) = "upsert"
  /\ Monolith.dml_externalIdField (Stub.dmlArgs "upsert" [Stub.acme; Stub.globex] None)
     = None
  /\ snd (Monolith.handleToolCall Stub.quiet Stub.passwordConfig
            (Monolith.salesforce_dml_records
               (Stub.dmlArgs "upsert" [Stub.acme; Stub.globex] None)) [])
     = snd (Monolith.createSalesforceConnection Stub.quiet Stub.passwordConfig []).
Proof.
  split; [reflexivity|]. split; [reflexivity|].
  exact (proj1 (proj2 (upsert_without_externalIdField_issues_no_upsert Stub.quiet
                         Stub.passwordConfig
                         (Stub.dmlArgs "upsert" [Stub.acme; Stub.globex] None) []
                         eq_refl eq_refl))).
Defined.

Lemma append_empty_r (s : string) : s ++ "" = s.
Proof. induction s as [|c s IH]; simpl; [reflexivity | now rewrite IH]. Qed.

Lemma append_assoc (a b c : string) : (a ++ b) ++ c = a ++ b ++ c.
Proof. induction a as [|x a IH]; simpl; [reflexivity | now rewrite IH]. Qed.

Lemma filter_split_length {A : Type} (p : A -> bool) (l : list A) :
  (List.length (filter p l) + List.length (filter (fun x => negb (p x)) l)
   = List.length l)%nat.
Proof.
  induction l as [|x l IH]; simpl; [reflexivity|].
  destruct (p x); simpl; lia.
Qed.

(** On well-formed entries the filter of [dmlRecords] keeps exactly the
    entries that have not failed. *)
Lemma successful_wellformed (entries : list value) :
  forallb isBulkEntry entries = true ->
  Monolith.successful entries = Ok (filter (fun e => negb (hasFailed e)) entries).
Proof.
  unfold Monolith.successful.
  induction entries as [|e rest IH]; simpl; intro Hwf; [reflexivity|].
  apply andb_prop in Hwf. destruct Hwf as [He Hrest].
  rewrite (IH Hrest). clear IH.
  destruct e as [| |b|z|s|items|fields]; try discriminate He.
  unfold hasFailed, isBulkEntry in *. simpl in *.
  destruct (lookup "success" fields) as [[| |[|]|?|?|?|?]|]; try discriminate He;
    reflexivity.
Qed.

Lemma dmlCounts_wellformed (entries : list value) :
  forallb isBulkEntry entries = true ->
  Monolith.dmlCounts entries
  = Ok ((List.length entries - failures entries)%nat, failures entries)
  /\ (failures entries <= List.length entries)%nat.
Proof.
  intro Hwf. unfold Monolith.dmlCounts. rewrite (successful_wellformed _ Hwf).
  simpl. unfold failures.
  pose proof (filter_split_length hasFailed entries) as Hlen.
  split; [|lia].
  f_equal. f_equal; lia.
Qed.

(** [formatErrors] returns on the errors of a well-formed entry. *)
Lemma formatErrors_returns (errors : value) :
  truthy errors = true ->
  match errors with VArr items => forallb notNullish items | _ => true end = true ->
  exists msg, Monolith.formatErrors errors = Ok msg.
Proof.
  intros Ht Hitems.
  destruct errors as [| |b|z|s|items|fields]; try discriminate Ht;
    unfold Monolith.formatErrors; simpl.
  - eexists; reflexivity.
  - eexists; reflexivity.
  - destruct (String.eqb "message" "length"); eexists; reflexivity.
  - assert (exists ms, mapR (fun e => get e "message") items = Ok ms) as [ms E].
    { clear Ht. induction items as [|e rest IH]; simpl in *; [eexists; reflexivity|].
      apply andb_prop in Hitems. destruct Hitems as [He Hrest].
      destruct (IH Hrest) as [ms E]. rewrite E.
      destruct e; try discriminate He; simpl;
        try (eexists; reflexivity);
        match goal with
        | |- context [if ?c then _ else _] => destruct c; eexists; reflexivity
        end. }
    rewrite E. eexists; reflexivity.
  - eexists; reflexivity.
Qed.

Lemma dmlErrorLines_returns (entries : list value) (idx : nat) :
  forallb isBulkEntry entries = true ->
  exists lines, Monolith.dmlErrorLines entries idx = Ok lines.
Proof.
  revert idx. induction entries as [|e rest IH]; intros idx Hwf; simpl.
  - eexists; reflexivity.
  - simpl in Hwf. apply andb_prop in Hwf. destruct Hwf as [He Hrest].
    destruct (IH (S idx) Hrest) as [lines E]. rewrite E. clear IH.
    destruct e as [| |b|z|s|items|fields]; try discriminate He.
    simpl in *.
    destruct (lookup "success" fields) as [[| |b|?|?|?|?]|]; try discriminate He.
    simpl.
    destruct (negb b && truthy (opt_or_undef (lookup "errors" fields))) eqn:Hc;
      [|eexists; reflexivity].
    apply andb_prop in Hc. destruct Hc as [_ Ht].
    destruct (formatErrors_returns (opt_or_undef (lookup "errors" fields)) Ht)
      as [msg Em].
    { destruct (lookup "errors" fields) as [[| |?|?|?|?|?]|]; simpl; auto. }
    rewrite Em. eexists; reflexivity.
Qed.

(** C9. Whatever the operation, when the platform returns a well-formed bulk
    result with one entry per submitted record (per submitted identifier for
    a delete), the failure count of the report is the number of entries with
    [success = false], the success count is the number of the other entries,
    and the two add up to the number of submitted records. *)
Theorem dml_report_counts (w : World) (conn : Connection) (args : Monolith.DmlArgs)
    (h h' : list event) (entries : list value) :
  Monolith.dmlSubmit w conn args h = (Ok (VArr entries), h') ->
  forallb isBulkEntry entries = true ->
  List.length entries = List.length (Monolith.dml_records args) ->
  let failed := failures entries in
  let success := (List.length entries - failed)%nat in
  Monolith.dmlCounts entries = Ok (success, failed)
  /\ (exists errors,
        Monolith.dmlRecords w conn args h
        = (Ok (textResponse
                 (dmlSummary (Monolith.dml_operation args) success failed ++ errors)),
           h'))
  /\ (success + failed = List.length (Monolith.dml_records args))%nat.
Proof.
  intros Hsubmit Hwf Hlen failed success.
  destruct (dmlCounts_wellformed entries Hwf) as [Hcounts Hle].
  split; [exact Hcounts|]. split.
  - unfold Monolith.dmlRecords, bind. rewrite Hsubmit.
    unfold lift, Monolith.dmlReport. simpl asArray. rewrite Hcounts. simpl.
    fold failed. fold success.
    change (toUpperCase (Monolith.dml_operation args) ++ " completed: "
            ++ dec success ++ " successful, " ++ dec failed ++ " failed")
      with (dmlSummary (Monolith.dml_operation args) success failed).
    destruct (0 <? failed)%nat.
    + destruct (dmlErrorLines_returns entries 0 Hwf) as [lines E]. rewrite E.
      simpl. eexists. reflexivity.
    + exists "". rewrite append_empty_r. reflexivity.
  - subst success failed. rewrite <- Hlen. lia.
Qed.

Lemma dml_report_counts_witness :
  forallb isBulkEntry (asArray Stub.oneSavedOneRejected) = true
  /\ failures (asArray Stub.oneSavedOneRejected) = 1%nat
  /\ Monolith.dmlCounts (asArray Stub.oneSavedOneRejected) = Ok (1%nat, 1%nat)
  /\ (1 + 1 = List.length (Monolith.dml_records
                             (Stub.dmlArgs "insert" [Stub.acme; Stub.globex] None)))%nat.
Proof.
  split; [reflexivity|]. split; [reflexivity|].
  pose proof (dml_report_counts Stub.halfRejecting Stub.session
                (Stub.dmlArgs "insert" [Stub.acme; Stub.globex] None)
                [] _ (asArray Stub.oneSavedOneRejected)
                eq_refl eq_refl eq_refl) as H.
  split; [exact (proj1 H) | exact (proj2 (proj2 H))].
Defined.

(* ------------------------------------------------------------------ *)
(** *** Anonymous execution *)

(** A text carries the label of one outcome at most. *)
Lemma labelled_exclusive (o1 o2 : outcome) (t : string) :
  labelled o1 t -> labelled o2 t -> o1 = o2.
Proof.
  destruct o1, o2; simpl; intros H1 H2; try reflexivity; exfalso;
    repeat match goal with
           | H : exists _, _ |- _ => destruct H
           end;
    subst t; simpl in *; discriminate.
Qed.

(** The text rendered for a result object carries the label of the outcome
    its [compiled] and [success] flags select, filled in from the result. *)
Lemma executeAnonymousText_labelled (fields : list (string * value)) :
  exists t,
    Monolith.executeAnonymousText (VObj fields) = Ok t
    /\ labelled (reported fields) t
    /\ match reported fields with
       | CompileFailure =>
           t = "Compilation: Failed\nError at line "
               ++ toString (field fields "line") ++ ", column "
               ++ toString (field fields "column") ++ ": "
               ++ toString (field fields "compileProblem")
       | RuntimeFailure =>
           t = "Compilation: Success\nExecution: Failed\n"
               ++ toString (field fields "exceptionMessage")
               ++ (if truthy (field fields "exceptionStackTrace")
                   then "\n\nStack trace:\n"
                        ++ toString (field fields "exceptionStackTrace")
                   else "")
       | Success => t = "Compilation: Success\nExecution: Success"
       end
    /\ (truthy (field fields "compiled") = true ->
        truthy (field fields "success") = false ->
        contains t "Execution: Failed"
        /\ contains t (toString (field fields "exceptionMessage"))).
Proof.
  unfold Monolith.executeAnonymousText, reported, field. simpl.
  destruct (truthy (opt_or_undef (lookup "compiled" fields))); simpl.
  - destruct (truthy (opt_or_undef (lookup "success" fields))); simpl.
    + eexists. split; [reflexivity|]. split; [reflexivity|].
      split; [reflexivity|]. discriminate.
    + set (m := toString (opt_or_undef (lookup "exceptionMessage" fields))).
      set (st := toString (opt_or_undef (lookup "exceptionStackTrace" fields))).
      destruct (truthy (opt_or_undef (lookup "exceptionStackTrace" fields))).
      * eexists. split; [reflexivity|]. split; [|split].
        -- exists m, ("\n\nStack trace:\n" ++ st). reflexivity.
        -- reflexivity.
        -- intros _ _. split.
           ++ exists "Compilation: Success\n", ("\n" ++ m ++ "\n\nStack trace:\n" ++ st).
              reflexivity.
           ++ exists "Compilation: Success\nExecution: Failed\n",
                     ("\n\nStack trace:\n" ++ st).
              reflexivity.
      * eexists. split; [reflexivity|]. split; [|split].
        -- exists m, "". simpl. rewrite append_empty_r. reflexivity.
        -- simpl. rewrite append_empty_r. reflexivity.
        -- intros _ _. split.
           ++ exists "Compilation: Success\n", ("\n" ++ m). reflexivity.
           ++ exists "Compilation: Success\nExecution: Failed\n", "".
              simpl. rewrite append_empty_r. reflexivity.
  - eexists. split; [reflexivity|]. split; [|split].
    + eexists. eexists. eexists. simpl. reflexivity.
    + reflexivity.
    + discriminate.
Qed.

(** C8. When the platform returns a result object, [executeAnonymous]
    returns a response whose text carries the label of the outcome the
    result reports, and of no other of the three outcomes: a compile failure
    when [compiled] is falsy, with the line, the column and the problem of the
    result; otherwise a success when [success] is truthy, and a runtime
    failure when it is not, with the exception message of the result followed
    by its stack trace when there is one. For [compiled: true] and
    [success: false] the text contains "Execution: Failed" and the exception
    message, and the response does not set [isError]. *)
Theorem executeAnonymous_labels_one_outcome (w : World) (conn : Connection)
    (args : Monolith.ExecuteAnonymousArgs) (h : list event)
    (fields : list (string * value)) :
  call w h conn (ToolingExecuteAnonymous (Monolith.ea_apexCode args))
  = Ok (VObj fields) ->
  exists t,
    Monolith.executeAnonymous w conn args h
    = (Ok (textResponse t),
       (h ++ [ECall conn (ToolingExecuteAnonymous (Monolith.ea_apexCode args))])%list)
    /\ labelled (reported fields) t
    /\ (forall o, labelled o t -> o = reported fields)
    /\ match reported fields with
       | CompileFailure =>
           t = "Compilation: Failed\nError at line "
               ++ toString (field fields "line") ++ ", column "
               ++ toString (field fields "column") ++ ": "
               ++ toString (field fields "compileProblem")
       | RuntimeFailure =>
           t = "Compilation: Success\nExecution: Failed\n"
               ++ toString (field fields "exceptionMessage")
               ++ (if truthy (field fields "exceptionStackTrace")
                   then "\n\nStack trace:\n"
                        ++ toString (field fields "exceptionStackTrace")
                   else "")
       | Success => t = "Compilation: Success\nExecution: Success"
       end
    /\ (lookup "compiled" fields = Some (VBool true) ->
        lookup "success" fields = Some (VBool false) ->
        reported fields = RuntimeFailure
        /\ contains t "Execution: Failed"
        /\ contains t (toString (field fields "exceptionMessage"))
        /\ isError (textResponse t) = None
        /\ flaggedError (textResponse t) = false).
Proof.
  intro Hcall.
  destruct (executeAnonymousText_labelled fields) as [t [Et [Hl [Hexact Hfail]]]].
  exists t. split; [|split; [|split; [|split]]].
  - unfold Monolith.executeAnonymous, bind, do_call, lift, ret.
    rewrite Hcall, Et. reflexivity.
  - exact Hl.
  - intros o Ho. exact (labelled_exclusive _ _ t Ho Hl).
  - exact Hexact.
  - intros Hc Hs.
    assert (truthy (field fields "compiled") = true) as Tc
      by (unfold field; rewrite Hc; reflexivity).
    assert (truthy (field fields "success") = false) as Ts
      by (unfold field; rewrite Hs; reflexivity).
    destruct (Hfail Tc Ts) as [H1 H2].
    repeat split; try assumption.
    unfold reported. rewrite Tc, Ts. reflexivity.
Qed.

Lemma executeAnonymous_labels_one_outcome_witness :
  call Stub.apexFails [] Stub.session
    (ToolingExecuteAnonymous (Monolith.ea_apexCode Stub.apexArgs))
  = Ok (VObj Stub.divisionByZero)
  /\ exists t,
       Monolith.executeAnonymous Stub.apexFails Stub.session Stub.apexArgs []
       = (Ok (textResponse t),
          [ECall Stub.session (ToolingExecuteAnonymous "Integer x = 1/0;")])
       /\ labelled RuntimeFailure t
       /\ contains t "Division by zero".
Proof.
  split; [reflexivity|].
  destruct (executeAnonymous_labels_one_outcome Stub.apexFails Stub.session
              Stub.apexArgs [] Stub.divisionByZero eq_refl)
    as [t [E [Hl [_ [_ Hscenario]]]]].
  exists t. split; [exact E|]. split; [exact Hl|].
  exact (proj1 (proj2 (proj2 (Hscenario eq_refl eq_refl)))).
Defined.

(* ------------------------------------------------------------------ *)
(** *** Aggregate queries *)

Lemma split_two (c : ascii) (a b : string) :
  exists first second others, split c (a ++ String c b) = first :: second :: others.
Proof.
  induction a as [|x a IH]; simpl.
  - rewrite Ascii.eqb_refl.
    destruct b as [|y b]; simpl.
    + exists "", "", []. reflexivity.
    + destruct (Ascii.eqb y c).
      * eexists _, _, _. reflexivity.
      * destruct (split c b); eexists _, _, _; reflexivity.
  - destruct IH as [first [second [others E]]]. rewrite E.
    destruct (Ascii.eqb x c); eexists _, _, _; reflexivity.
Qed.

Lemma split_free (c : ascii) (s : string) :
  occurs c s = false -> split c s = [s].
Proof.
  induction s as [|x s IH]; simpl; intro H; [reflexivity|].
  apply orb_false_elim in H. destruct H as [Hx Hs].
  rewrite Hx, (IH Hs). reflexivity.
Qed.

(** The last piece of a string split at [c] is what follows the last [c]. *)
Lemma last_split_app (c : ascii) (a b d : string) :
  last (split c (a ++ String c b)) d = last (split c b) d.
Proof.
  induction a as [|x a IH]; simpl.
  - rewrite Ascii.eqb_refl.
    destruct (split c b) eqn:E; [|reflexivity].
    destruct b; simpl in E; [discriminate|].
    destruct (Ascii.eqb a c); [discriminate|]. destruct (split c b); discriminate.
  - destruct (split_two c a b) as [first [second [others E]]].
    rewrite E in *. destruct (Ascii.eqb x c); exact IH.
Qed.

(** The first piece is what precedes the first [c]. *)
Lemma hd_split_app (c : ascii) (a b d : string) :
  occurs c a = false -> hd d (split c (a ++ String c b)) = a.
Proof.
  induction a as [|x a IH]; simpl; intro H.
  - rewrite Ascii.eqb_refl. reflexivity.
  - apply orb_false_elim in H. destruct H as [Hx Ha]. rewrite Hx.
    specialize (IH Ha).
    destruct (split_two c a b) as [first [second [others E]]].
    rewrite E in *. simpl in *. rewrite IH. reflexivity.
Qed.

(** The alias of a select-field is its last token, the bare field name its
    first, the tokens being separated by single spaces. *)
Lemma aliasOf_last_token (expression alias : string) :
  occurs " " alias = false ->
  Monolith.aliasOf (expression ++ " " ++ alias) = alias.
Proof.
  intro H. unfold Monolith.aliasOf.
  change (expression ++ " " ++ alias) with (expression ++ String " " alias).
  rewrite last_split_app, (split_free _ _ H). reflexivity.
Qed.

Lemma baseFieldOf_first_token (expression rest : string) :
  occurs " " expression = false ->
  Monolith.baseFieldOf (expression ++ " " ++ rest) = expression.
Proof.
  intro H. unfold Monolith.baseFieldOf.
  change (expression ++ " " ++ rest) with (expression ++ String " " rest).
  apply hd_split_app. exact H.
Qed.

Lemma aliasOf_single_token (selectField : string) :
  occurs " " selectField = false ->
  Monolith.aliasOf selectField = selectField
  /\ Monolith.baseFieldOf selectField = selectField.
Proof.
  intro H. unfold Monolith.aliasOf, Monolith.baseFieldOf.
  rewrite (split_free _ _ H). split; reflexivity.
Qed.

(** A truthy value under the alias is the value of the group. *)
Lemma groupValue_alias (record : value) (selectField : string) (v : value) :
  get record (Monolith.aliasOf selectField) = Ok v ->
  truthy v = true ->
  Monolith.groupValue record selectField = Ok v.
Proof.
  intros Hget Ht. unfold Monolith.groupValue. rewrite Hget. simpl.
  rewrite Ht. reflexivity.
Qed.

(** A falsy value under the alias, zero included, sends the lookup to the
    bare field name. *)
Lemma groupValue_fallback (record : value) (selectField : string) (v : value) :
  get record (Monolith.aliasOf selectField) = Ok v ->
  truthy v = false ->
  Monolith.groupValue record selectField
  = get record (Monolith.baseFieldOf selectField).
Proof.
  intros Hget Ht. unfold Monolith.groupValue. rewrite Hget. simpl.
  rewrite Ht. reflexivity.
Qed.

(** C7, on the code. For the select-field "SUM(Amount) total" the alias is
    "total" and the bare field name "SUM(Amount)". The platform returns the
    sum under the alias, and the sum is 0: the alias lookup yields 0, the
    handler falls back to the bare name all the same, finds nothing, and
    renders "total: null" instead of the value present under the alias. *)
Theorem aggregate_zero_under_alias_is_rendered_null :
  Monolith.aliasOf "SUM(Amount) total" = "total"
  /\ Monolith.baseFieldOf "SUM(Amount) total" = "SUM(Amount)"
  /\ get Stub.zeroTotal "total" = Ok (VNum 0)
  /\ Monolith.groupValue Stub.zeroTotal "SUM(Amount) total" = Ok VUndef
  /\ Monolith.aggregateLine Stub.zeroTotal "SUM(Amount) total" = Ok "    total: null"
  /\ fst (Monolith.aggregateQuery Stub.oneZeroGroup Stub.session Stub.totalsByStage [])
     = Ok (textResponse
             "Aggregate query returned 1 groups:\n\nGroup 1:\n    StageName: Prospecting\n    total: null").
Proof.
  repeat split; vm_compute; reflexivity.
Qed.

(* ------------------------------------------------------------------ *)
(** *** Session acquisition *)

(** What the handlers of the token request do with a response that ended
    with a JSON object as its body. *)
Lemma tokenRequest_object (w : World) (req : httpsReq) (h : list event)
    (statusCode : Z) (data : string) (fields : list (string * value)) :
  https_request w h req = HttpEnd statusCode data ->
  JSON_parse w data = Ok (VObj fields) ->
  Monolith.tokenRequest w req h
  = (if Z.eqb statusCode 200 then Ok (VObj fields)
     else Throw (Error ("OAuth failed: " ++ toString (field fields "error") ++ " - "
                        ++ toString (field fields "error_description"))),
     (h ++ [EHttps req])%list).
Proof.
  intros Hhttps Hparse.
  unfold Monolith.tokenRequest, bind, do_https. rewrite Hhttps, Hparse.
  destruct (Z.eqb statusCode 200); reflexivity.
Qed.

(** C5. For an OAuth client-credentials configuration with its client id
    and secret and a well-formed instance URL, when the token endpoint
    answers with a JSON object: on status 200 the session holds the
    [instance_url] and the [access_token] of the body; on any other status
    the acquisition fails with an error that carries the [error] and the
    [error_description] of the body. *)
Theorem oauth_session_from_token_response (w : World)
    (config : Monolith.ExtensionConfig) (h : list event) (tokenUrl : url)
    (statusCode : Z) (data : string) (fields : list (string * value)) :
  Monolith.connectionType config = "OAuth_2.0_Client_Credentials" ->
  present (Monolith.clientId config) = true ->
  present (Monolith.clientSecret config) = true ->
  new_URL w "/services/oauth2/token" (Monolith.instanceUrl config) = Ok tokenUrl ->
  https_request w h (Monolith.tokenOptions w config tokenUrl)
  = HttpEnd statusCode data ->
  JSON_parse w data = Ok (VObj fields) ->
  let h' := (h ++ [EHttps (Monolith.tokenOptions w config tokenUrl)])%list in
  (statusCode = 200%Z ->
   Monolith.createSalesforceConnection w config h
   = (Ok (ConnToken (field fields "instance_url") (field fields "access_token")), h'))
  /\ (statusCode <> 200%Z ->
      Monolith.createSalesforceConnection w config h
      = (Throw (Error ("OAuth failed: " ++ toString (field fields "error") ++ " - "
                       ++ toString (field fields "error_description"))), h')).
Proof.
  intros Htype Hid Hsecret Hurl Hhttps Hparse h'.
  assert (Monolith.createSalesforceConnection w config h
          = (if Z.eqb statusCode 200
             then Ok (ConnToken (field fields "instance_url")
                                (field fields "access_token"))
             else Throw (Error ("OAuth failed: " ++ toString (field fields "error")
                                ++ " - "
                                ++ toString (field fields "error_description"))),
             h')) as Hrun.
  { unfold Monolith.createSalesforceConnection, Monolith.createConnectionInternal.
    rewrite Htype, Hid, Hsecret. simpl.
    unfold bind at 1. unfold lift at 1. rewrite Hurl.
    unfold bind at 1.
    rewrite (tokenRequest_object w _ h statusCode data fields Hhttps Hparse).
    destruct (Z.eqb statusCode 200); reflexivity. }
  rewrite Hrun. split; intro Hstatus.
  - subst statusCode. reflexivity.
  - apply Z.eqb_neq in Hstatus. rewrite Hstatus. reflexivity.
Qed.

Lemma oauth_session_from_token_response_witness :
  present (Monolith.clientId (Stub.oauthConfig (Some "app") (Some "s3cret"))) = true
  /\ new_URL Stub.tokenEndpoint "/services/oauth2/token"
       (Monolith.instanceUrl (Stub.oauthConfig (Some "app") (Some "s3cret")))
     = Ok Stub.tokenUrl
  /\ Monolith.createSalesforceConnection Stub.tokenEndpoint
       (Stub.oauthConfig (Some "app") (Some "s3cret")) []
     = (Ok (ConnToken (VStr "https://acme.my.salesforce.com") (VStr "00Dxx!AQ4")),
        [EHttps (Monolith.tokenOptions Stub.tokenEndpoint
                   (Stub.oauthConfig (Some "app") (Some "s3cret")) Stub.tokenUrl)]).
Proof.
  split; [reflexivity|]. split; [reflexivity|].
  exact (proj1 (oauth_session_from_token_response Stub.tokenEndpoint
                  (Stub.oauthConfig (Some "app") (Some "s3cret")) [] Stub.tokenUrl
                  200 "granted" _ eq_refl eq_refl eq_refl eq_refl eq_refl eq_refl)
               eq_refl).
Defined.

(** The modular session acquirer treats the token response in the same
    way. *)
Lemma modular_oauth_session_from_token_response (w : World)
    (User_Password OAuth_2_0_Client_Credentials : string)
    (env : Monolith.ProcessEnv) (h : list event) (tokenUrl : url)
    (statusCode : Z) (data : string) (fields : list (string * value)) :
  strOr (Monolith.SALESFORCE_CONNECTION_TYPE env) User_Password
  = OAuth_2_0_Client_Credentials ->
  present (Monolith.SALESFORCE_CLIENT_ID env) = true ->
  present (Monolith.SALESFORCE_CLIENT_SECRET env) = true ->
  new_URL w "/services/oauth2/token"
    (strOr (Monolith.SALESFORCE_INSTANCE_URL env) "https://login.salesforce.com")
  = Ok tokenUrl ->
  https_request w h (Modular.tokenOptions w env tokenUrl) = HttpEnd statusCode data ->
  JSON_parse w data = Ok (VObj fields) ->
  Modular.createSalesforceConnection w User_Password OAuth_2_0_Client_Credentials env h
  = (if Z.eqb statusCode 200
     then Ok (ConnToken (field fields "instance_url") (field fields "access_token"))
     else Throw (Error ("OAuth failed: " ++ toString (field fields "error") ++ " - "
                        ++ toString (field fields "error_description"))),
     (h ++ [EHttps (Modular.tokenOptions w env tokenUrl)])%list).
Proof.
  intros Htype Hid Hsecret Hurl Hhttps Hparse.
  unfold Modular.createSalesforceConnection.
  rewrite Htype, String.eqb_refl, Hid, Hsecret. simpl.
  unfold bind at 1. unfold lift at 1. rewrite Hurl.
  unfold bind at 1.
  change (Modular.tokenRequest w) with (Monolith.tokenRequest w).
  rewrite (tokenRequest_object w _ h statusCode data fields Hhttps Hparse).
  destruct (Z.eqb statusCode 200); reflexivity.
Qed.

(** C6, as stated, fails: with a username and a password, the security
    token and the instance URL may both be missing and the login is issued
    all the same, with the password alone, at the default login URL. *)
Lemma login_without_security_token :
  Monolith.SALESFORCE_TOKEN Stub.passwordEnv = None
  /\ Monolith.SALESFORCE_INSTANCE_URL Stub.passwordEnv = None
  /\ Monolith.securityToken (Monolith.initConfig Stub.quiet Stub.passwordEnv) = None
  /\ Monolith.createSalesforceConnection Stub.quiet
       (Monolith.initConfig Stub.quiet Stub.passwordEnv) []
     = (Ok (ConnLogin "https://login.salesforce.com" (Some "58.0")),
        [ELogin (ConnLogin "https://login.salesforce.com" (Some "58.0"))
                "dev@example.com" "hunter2"]).
Proof.
  repeat split; vm_compute; reflexivity.
Qed.

(** C6, amended. A configuration of the OAuth client-credentials flow
    without a client id or without a client secret, and a configuration of the
    username/password flow without a username or without a password, make the
    session acquisition fail before any network call is attempted. *)
Theorem missing_credentials_fail_before_any_call (w : World)
    (config : Monolith.ExtensionConfig) (h : list event) :
  (Monolith.connectionType config = "OAuth_2.0_Client_Credentials"
   /\ (present (Monolith.clientId config) = false
       \/ present (Monolith.clientSecret config) = false))
  \/ (Monolith.connectionType config <> "OAuth_2.0_Client_Credentials"
      /\ (present (Monolith.username config) = false
          \/ present (Monolith.password config) = false)) ->
  exists msg,
    Monolith.createSalesforceConnection w config h = (Throw (Error msg), h).
Proof.
  unfold Monolith.createSalesforceConnection, Monolith.createConnectionInternal.
  intros [[Htype Hmissing] | [Htype Hmissing]].
  - rewrite Htype. simpl.
    exists "Client ID and Client Secret are required for OAuth 2.0".
    destruct Hmissing as [Hm | Hm]; rewrite Hm; simpl;
      [|rewrite orb_true_r]; reflexivity.
  - apply String.eqb_neq in Htype. rewrite Htype.
    exists "Username and Password are required".
    destruct Hmissing as [Hm | Hm]; rewrite Hm; simpl;
      [|rewrite orb_true_r]; reflexivity.
Qed.

Lemma missing_credentials_fail_before_any_call_witness :
  present (Monolith.clientSecret (Stub.oauthConfig (Some "app") None)) = false
  /\ exists msg,
       Monolith.createSalesforceConnection Stub.tokenEndpoint
         (Stub.oauthConfig (Some "app") None) []
       = (Throw (Error msg), []).
Proof.
  split; [reflexivity|].
  exact (missing_credentials_fail_before_any_call Stub.tokenEndpoint
           (Stub.oauthConfig (Some "app") None) []
           (or_introl (conj eq_refl (or_intror eq_refl)))).
Defined.

(* ------------------------------------------------------------------ *)
(** *** Metadata updates *)

Lemma lookup_set_other (k k' : string) (v : value) (fields : list (string * value)) :
  k <> k' -> lookup k (set k' v fields) = lookup k fields.
Proof.
  intro Hne. induction fields as [|[k0 v0] rest IH]; simpl.
  - apply String.eqb_neq in Hne. rewrite Hne. reflexivity.
  - destruct (String.eqb k' k0) eqn:E; simpl.
    + apply String.eqb_eq in E. subst k0.
      apply String.eqb_neq in Hne. rewrite Hne. reflexivity.
    + destruct (String.eqb k k0); [reflexivity | exact IH].
Qed.

Lemma lookup_set_same (k : string) (v : value) (fields : list (string * value)) :
  lookup k (set k v fields) = Some v.
Proof.
  induction fields as [|[k0 v0] rest IH]; simpl.
  - rewrite String.eqb_refl. reflexivity.
  - destruct (String.eqb k k0) eqn:E; simpl; rewrite E; [reflexivity | exact IH].
Qed.

(** An override that the call does not supply leaves the property alone. *)
Lemma lookup_setIfPresent (k k' : string) (o : option string)
    (fields : list (string * value)) :
  (k = k' -> present o = false) ->
  lookup k (Modular.setIfPresent k' o fields) = lookup k fields.
Proof.
  intro H. unfold Modular.setIfPresent.
  destruct (present o) eqn:Hp; [|reflexivity].
  apply lookup_set_other. intro Heq. specialize (H Heq). discriminate.
Qed.

(** The merge of the modular [manageObject]: an attribute of the current
    descriptor for which the call supplies no override is submitted as it
    is. *)
Lemma updateMetadata_frame (fields : list (string * value))
    (args : Modular.ManageObjectArgs) (k : string) :
  (k = "label" -> present (Modular.label args) = false) ->
  (k = "pluralLabel" -> present (Modular.pluralLabel args) = false) ->
  (k = "description" -> present (Modular.description args) = false) ->
  (k = "sharingModel" -> present (Modular.sharingModel args) = false) ->
  k <> "nameField" ->
  get (Modular.updateMetadata (VObj fields) args) k = get (VObj fields) k.
Proof.
  intros Hl Hp Hd Hs Hn. unfold Modular.updateMetadata. simpl.
  rewrite lookup_set_other by exact Hn.
  rewrite !lookup_setIfPresent by assumption.
  reflexivity.
Qed.

(** The same inside [nameField]. *)
Lemma updateNameField_frame (fields nameField : list (string * value))
    (args : Modular.ManageObjectArgs) (k : string) :
  lookup "nameField" fields = Some (VObj nameField) ->
  (k = "label" -> present (Modular.nameFieldLabel args) = false) ->
  (k = "type" -> present (Modular.nameFieldType args) = false) ->
  (k = "displayFormat" -> present (Modular.nameFieldFormat args) = false) ->
  get (Modular.updateNameField (VObj fields) args) k = get (VObj nameField) k.
Proof.
  intros Hnf Hl Ht Hf. unfold Modular.updateNameField, get_opt. simpl.
  rewrite Hnf. simpl.
  rewrite !lookup_setIfPresent by assumption.
  reflexivity.
Qed.

(** The modular [manageObject] reads the descriptor and submits the merge. *)
Lemma modular_update_reads_then_merges (w : World) (conn : Connection)
    (args : Modular.ManageObjectArgs) (h : list event)
    (fields : list (string * value)) :
  Modular.operation args <> "create" ->
  let read := ECall conn (Metadata "read" "CustomObject"
                                   (VArr [VStr (Modular.objectName args)])) in
  call w h conn (Metadata "read" "CustomObject" (VArr [VStr (Modular.objectName args)]))
  = Ok (VArr [VObj fields]) ->
  snd (Modular.manageObject w conn args h)
  = (h ++ [read]
       ++ [ECall conn (Metadata "update" "CustomObject"
                                (Modular.updateMetadata (VObj fields) args))])%list.
Proof.
  intros Hop read Hread. apply String.eqb_neq in Hop.
  unfold Modular.manageObject, try_catch. rewrite Hop.
  unfold bind at 1. unfold do_call at 1. rewrite Hread. simpl.
  unfold bind at 1. unfold do_call at 1.
  rewrite <- app_assoc. simpl.
  match goal with
  | |- context [call w (h ++ ?l)%list conn ?r] =>
      destruct (call w (h ++ l)%list conn r) as [updateResult|e]
  end; [|reflexivity].
  unfold bind, lift, ret.
  destruct (Modular.succeeded updateResult) as [[|]|e]; reflexivity.
Qed.

(** The monolithic [manageObject] issues one call: the operation itself,
    with a descriptor computed from the arguments alone. *)
Lemma monolith_manageObject_calls (w : World) (conn : Connection)
    (args : Monolith.ManageObjectArgs) (h : list event) :
  snd (Monolith.manageObject w conn args h)
  = (h ++ [ECall conn (Metadata (Monolith.mo_operation args) "CustomObject"
                                (Monolith.objectMetadata args))])%list.
Proof.
  unfold Monolith.manageObject, bind, do_call, lift, ret.
  destruct (call w h conn _) as [result|e]; [|reflexivity].
  destruct (Monolith.resultSuccess result); reflexivity.
Qed.

(** C1, on the code. The platform holds an object with sharing model
    "Private", an auto-number name field and history tracking. An update
    through the monolithic [manageObject] that only supplies a new label
    issues no read; the descriptor it submits sets the sharing model to
    "ReadWrite" and the name field to a text field labelled "Bill Name", and
    has no [enableHistory]. The modular [manageObject] reads the descriptor
    first and submits it with the label replaced and the rest unchanged. *)
Theorem monolith_update_overwrites_descriptor :
  snd (Monolith.manageObject Stub.withInvoice Stub.session Stub.relabel [])
  = [ECall Stub.session
       (Metadata "update" "CustomObject"
          (VObj [("fullName", VStr "Invoice__c");
                 ("label", VStr "Bill");
                 ("pluralLabel", VUndef);
                 ("nameField", VObj [("label", VStr "Bill Name"); ("type", VStr "Text")]);
                 ("deploymentStatus", VStr "Deployed");
                 ("sharingModel", VStr "ReadWrite")]))]
  /\ get Stub.invoiceDescriptor "sharingModel" = Ok (VStr "Private")
  /\ get (Monolith.objectMetadata Stub.relabel) "sharingModel" = Ok (VStr "ReadWrite")
  /\ get Stub.invoiceDescriptor "enableHistory" = Ok (VBool true)
  /\ get (Monolith.objectMetadata Stub.relabel) "enableHistory" = Ok VUndef
  /\ snd (Modular.manageObject Stub.withInvoice Stub.session Stub.relabelModular [])
     = [ECall Stub.session
          (Metadata "read" "CustomObject" (VArr [VStr "Invoice__c"]));
        ECall Stub.session
          (Metadata "update" "CustomObject"
             (VObj [("fullName", VStr "Invoice__c");
                    ("label", VStr "Bill");
                    ("pluralLabel", VStr "Invoices");
                    ("nameField", VObj [("label", VStr "Invoice Number");
                                        ("type", VStr "AutoNumber");
                                        ("displayFormat", VStr "INV-{0000}")]);
                    ("deploymentStatus", VStr "Deployed");
                    ("sharingModel", VStr "Private");
                    ("enableHistory", VBool true)]))].
Proof.
  repeat split; vm_compute; reflexivity.
Qed.

(* ------------------------------------------------------------------ *)
(** *** The calls of a session acquisition and of a tool call *)

Lemma emits_ret {A : Type} (P : event -> Prop) (a : A) : emits P (ret a).
Proof. intro h. exists []. simpl. rewrite app_nil_r. auto. Qed.

Lemma emits_throw {A : Type} (P : event -> Prop) (e : error) : emits P (@throw A e).
Proof. intro h. exists []. simpl. rewrite app_nil_r. auto. Qed.

Lemma emits_lift {A : Type} (P : event -> Prop) (r : result A) : emits P (lift r).
Proof. intro h. exists []. simpl. rewrite app_nil_r. auto. Qed.

Lemma emits_bind {A B : Type} (P : event -> Prop) (m : M A) (k : A -> M B) :
  emits P m -> (forall a, emits P (k a)) -> emits P (bind m k).
Proof.
  intros Hm Hk h. unfold bind. destruct (Hm h) as [t1 [E1 F1]].
  destruct (m h) as [[a|e] h1]; simpl in E1; subst h1.
  - destruct (Hk a (h ++ t1)%list) as [t2 [E2 F2]]. exists (t1 ++ t2)%list.
    rewrite E2, app_assoc. split; [reflexivity | apply Forall_app; auto].
  - exists t1. auto.
Qed.

Lemma emits_try_catch {A : Type} (P : event -> Prop) (m : M A)
    (handler : error -> M A) :
  emits P m -> (forall e, emits P (handler e)) -> emits P (try_catch m handler).
Proof.
  intros Hm Hk h. unfold try_catch. destruct (Hm h) as [t1 [E1 F1]].
  destruct (m h) as [[a|e] h1]; simpl in E1; subst h1.
  - exists t1. auto.
  - destruct (Hk e (h ++ t1)%list) as [t2 [E2 F2]]. exists (t1 ++ t2)%list.
    rewrite E2, app_assoc. split; [reflexivity | apply Forall_app; auto].
Qed.

Lemma emits_one {A : Type} (P : event -> Prop) (m : M A) (e : event) :
  (forall h, snd (m h) = (h ++ [e])%list) -> P e -> emits P m.
Proof. intros Hm He h. exists [e]. auto. Qed.

Lemma emits_for_of {A : Type} (P : event -> Prop) (l : list A) (body : A -> M unit) :
  (forall x, emits P (body x)) -> emits P (for_of l body).
Proof.
  intro Hb. induction l as [|x rest IH]; simpl.
  - apply emits_ret.
  - apply emits_bind; [apply Hb | intros _; exact IH].
Qed.

Lemma emits_any_query (w : World) (c : Connection) (soql : string) :
  emits (fun _ => True) (do_query w c soql).
Proof. apply emits_one with (e := EQuery c soql); auto. Qed.

Lemma emits_any_call (w : World) (c : Connection) (r : request) :
  emits (fun _ => True) (do_call w c r).
Proof. apply emits_one with (e := ECall c r); auto. Qed.

Create HintDb emits.
#[local] Hint Resolve emits_ret emits_throw emits_lift emits_any_query
  emits_any_call : emits.

Ltac emits_step :=
  first [ apply emits_bind; [|intro]
        | apply emits_try_catch; [|intro]
        | apply emits_for_of; intro
        | solve [auto with emits]
        | match goal with
          | |- emits _ (if ?c then _ else _) => destruct c
          | |- emits _ (match ?x with _ => _ end) => destruct x
          end ].

(** The calls of [grantFieldPermissions] are queries and creations of
    permissions that grant read and edit on the field. *)
Lemma emits_grantFieldPermissions (w : World) (conn : Connection)
    (objectName fieldName : string) (profiles : list string) :
  emits (isGrantCall conn objectName
           (objectName ++ "." ++ Monolith.fieldApiNameOf fieldName))
        (Monolith.grantFieldPermissions w conn objectName fieldName profiles).
Proof.
  unfold Monolith.grantFieldPermissions.
  apply emits_for_of. intro p.
  apply emits_try_catch; [|intro; apply emits_ret].
  unfold Monolith.grantOne.
  apply emits_bind.
  { eapply emits_one; [intro; reflexivity | left; eexists; reflexivity]. }
  intro profile. destruct (List.length profile =? 0)%nat; [apply emits_ret|].
  apply emits_bind; [apply emits_lift|]. intro profileId.
  apply emits_bind.
  { eapply emits_one; [intro; reflexivity | left; eexists; reflexivity]. }
  intro permSet. destruct (0 <? List.length permSet)%nat; [|apply emits_ret].
  apply emits_bind; [apply emits_lift|]. intro parentId.
  apply emits_bind; [|intro; apply emits_ret].
  eapply emits_one; [intro; reflexivity | right; exists parentId; reflexivity].
Qed.

Lemma emits_weaken {A : Type} (P Q : event -> Prop) (m : M A) :
  (forall e, P e -> Q e) -> emits P m -> emits Q m.
Proof.
  intros HPQ Hm h. destruct (Hm h) as [t [E F]]. exists t. split; [exact E|].
  eapply Forall_impl; eauto.
Qed.

(** With [grant] the loop of [manageFieldPermissions] issues the calls of
    [grantFieldPermissions] and nothing else. *)
Lemma emits_grantRevokeLoop_grant (w : World) (conn : Connection)
    (args : Monolith.ManageFieldPermissionsArgs) (profiles : list string) :
  Monolith.fp_operation args = "grant" ->
  emits (isGrantCall conn (Monolith.fp_objectName args)
           (Monolith.fp_objectName args ++ "."
            ++ Monolith.fieldApiNameOf (Monolith.fp_fieldName args)))
        (Monolith.grantRevokeLoop w conn args profiles).
Proof.
  intro Hop. induction profiles as [|p rest IH]; simpl.
  - apply emits_ret.
  - rewrite Hop. simpl.
    apply emits_bind;
      [|intro; apply emits_bind; [exact IH | intro; apply emits_ret]].
    apply emits_try_catch; [|intro; apply emits_ret].
    apply emits_bind; [apply emits_grantFieldPermissions | intro; apply emits_ret].
Qed.

Lemma emits_any_grantRevokeLoop (w : World) (conn : Connection)
    (args : Monolith.ManageFieldPermissionsArgs) (profiles : list string) :
  emits (fun _ => True) (Monolith.grantRevokeLoop w conn args profiles).
Proof.
  induction profiles as [|p rest IH]; simpl.
  - apply emits_ret.
  - apply emits_bind;
      [|intro; apply emits_bind; [exact IH | intro; apply emits_ret]].
    apply emits_try_catch; [|intro; apply emits_ret].
    destruct (String.eqb (Monolith.fp_operation args) "grant").
    + apply emits_bind; [|intro; apply emits_ret].
      eapply emits_weaken; [|apply emits_grantFieldPermissions]. auto.
    + destruct (String.eqb (Monolith.fp_operation args) "revoke"); apply emits_ret.
Qed.

Lemma emits_any_dispatch (w : World) (conn : Connection)
    (call : Monolith.ToolInvocation) :
  emits (fun _ => True) (Monolith.dispatch w conn call).
Proof.
  destruct call as [args|args|args|args|args]; simpl; unfold Monolith.executeWithTimeout.
  - unfold Monolith.aggregateQuery. repeat emits_step.
  - unfold Monolith.dmlRecords, Monolith.dmlSubmit. repeat emits_step.
  - unfold Monolith.manageObject. repeat emits_step.
  - unfold Monolith.manageFieldPermissions.
    destruct (String.eqb (Monolith.fp_operation args) "view").
    + repeat emits_step.
    + apply emits_bind; [apply emits_any_grantRevokeLoop | intro; apply emits_ret].
  - unfold Monolith.executeAnonymous. repeat emits_step.
Qed.

(** X1. A session acquisition issues one network operation at most, and
    the operation is the one of the selected flow: the token request in the
    OAuth client-credentials flow, never a login; in the other flow the
    login, with the password followed by the security token, never an https
    request. *)
Theorem session_acquisition_issues_one_operation (w : World)
    (config : Monolith.ExtensionConfig) (h : list event) :
  exists t,
    snd (Monolith.createSalesforceConnection w config h) = (h ++ t)%list
    /\ if String.eqb (Monolith.connectionType config) "OAuth_2.0_Client_Credentials"
       then t = []
            \/ exists tokenUrl,
                 new_URL w "/services/oauth2/token" (Monolith.instanceUrl config)
                 = Ok tokenUrl
                 /\ t = [EHttps (Monolith.tokenOptions w config tokenUrl)]
       else t = []
            \/ t = [ELogin (ConnLogin (Monolith.instanceUrl config)
                                      (Some (Monolith.apiVersion config)))
                           (strOr (Monolith.username config) "")
                           (strOr (Monolith.password config) ""
                            ++ strOr (Monolith.securityToken config) "")].
Proof.
  unfold Monolith.createSalesforceConnection, Monolith.createConnectionInternal.
  destruct (String.eqb (Monolith.connectionType config) "OAuth_2.0_Client_Credentials").
  - destruct (negb (present (Monolith.clientId config))
              || negb (present (Monolith.clientSecret config))).
    + exists []. simpl. rewrite app_nil_r. auto.
    + unfold bind at 1. unfold lift at 1.
      destruct (new_URL w "/services/oauth2/token" (Monolith.instanceUrl config))
        as [tokenUrl|e] eqn:Hurl.
      * exists [EHttps (Monolith.tokenOptions w config tokenUrl)].
        split; [|right; exists tokenUrl; auto].
        unfold bind at 1. unfold Monolith.tokenRequest, bind, do_https.
        destruct (https_request w h _) as [statusCode data|e]; [|reflexivity].
        destruct (JSON_parse w data) as [parsed|e]; [|reflexivity].
        destruct (negb (Z.eqb statusCode 200)).
        -- destruct (get parsed "error"); [|reflexivity].
           destruct (get parsed "error_description"); reflexivity.
        -- unfold ret, lift.
           destruct (get parsed "instance_url"); [|reflexivity].
           destruct (get parsed "access_token"); reflexivity.
      * exists []. simpl. rewrite app_nil_r. auto.
  - destruct (negb (present (Monolith.username config))
              || negb (present (Monolith.password config))).
    + exists []. simpl. rewrite app_nil_r. auto.
    + eexists. split; [|right; reflexivity].
      unfold bind, do_login.
      destruct (login w h _ _ _); reflexivity.
Qed.

(** X2. The credentials of one flow play no part in the other: two
    configurations that select the same flow with the same instance URL and
    agree on the credentials of that flow (client id, client secret and
    timeout for OAuth; username, password, security token and API version
    otherwise) acquire their session in the same way, with the same calls
    and the same outcome. *)
Theorem session_ignores_the_other_flow (w : World)
    (c1 c2 : Monolith.ExtensionConfig) (h : list event) :
  Monolith.connectionType c1 = Monolith.connectionType c2 ->
  Monolith.instanceUrl c1 = Monolith.instanceUrl c2 ->
  (if String.eqb (Monolith.connectionType c1) "OAuth_2.0_Client_Credentials"
   then Monolith.clientId c1 = Monolith.clientId c2
        /\ Monolith.clientSecret c1 = Monolith.clientSecret c2
        /\ Monolith.timeout c1 = Monolith.timeout c2
   else Monolith.username c1 = Monolith.username c2
        /\ Monolith.password c1 = Monolith.password c2
        /\ Monolith.securityToken c1 = Monolith.securityToken c2
        /\ Monolith.apiVersion c1 = Monolith.apiVersion c2) ->
  Monolith.createSalesforceConnection w c1 h
  = Monolith.createSalesforceConnection w c2 h.
Proof.
  intros Htype Hurl Hcreds.
  unfold Monolith.createSalesforceConnection, Monolith.createConnectionInternal,
    Monolith.tokenOptions, Monolith.requestBody.
  rewrite <- Htype, <- Hurl.
  destruct (String.eqb (Monolith.connectionType c1) "OAuth_2.0_Client_Credentials").
  - destruct Hcreds as [Hid [Hsecret Htimeout]].
    rewrite <- Hid, <- Hsecret, <- Htimeout. reflexivity.
  - destruct Hcreds as [Hu [Hp [Ht Hv]]].
    rewrite <- Hu, <- Hp, <- Ht, <- Hv. reflexivity.
Qed.

Lemma session_ignores_the_other_flow_witness :
  Monolith.createSalesforceConnection Stub.tokenEndpoint
    (Stub.oauthConfig (Some "app") (Some "s3cret")) []
  = Monolith.createSalesforceConnection Stub.tokenEndpoint
      Stub2.oauthConfigWithPassword [].
Proof.
  exact (session_ignores_the_other_flow Stub.tokenEndpoint
           (Stub.oauthConfig (Some "app") (Some "s3cret"))
           Stub2.oauthConfigWithPassword [] eq_refl eq_refl
           (conj eq_refl (conj eq_refl eq_refl))).
Defined.

Lemma tokenRequest_transport_error (w : World) (req : httpsReq) (h : list event)
    (e : error) :
  https_request w h req = HttpError e ->
  Monolith.tokenRequest w req h = (Throw e, (h ++ [EHttps req])%list).
Proof.
  intro Hhttps. unfold Monolith.tokenRequest, bind, do_https. rewrite Hhttps.
  reflexivity.
Qed.

Lemma tokenRequest_unparsable (w : World) (req : httpsReq) (h : list event)
    (statusCode : Z) (data : string) (e : error) :
  https_request w h req = HttpEnd statusCode data ->
  JSON_parse w data = Throw e ->
  Monolith.tokenRequest w req h
  = (Throw (Error ("Failed to parse OAuth response: " ++ errorToString e)),
     (h ++ [EHttps req])%list).
Proof.
  intros Hhttps Hparse. unfold Monolith.tokenRequest, bind, do_https.
  rewrite Hhttps, Hparse. reflexivity.
Qed.

Lemma tokenRequest_null (w : World) (req : httpsReq) (h : list event)
    (statusCode : Z) (data : string) :
  https_request w h req = HttpEnd statusCode data ->
  JSON_parse w data = Ok VNull ->
  Monolith.tokenRequest w req h
  = (if Z.eqb statusCode 200 then Ok VNull
     else Throw (Error "Failed to parse OAuth response: TypeError: Cannot read properties of null (reading 'error')"),
     (h ++ [EHttps req])%list).
Proof.
  intros Hhttps Hparse. unfold Monolith.tokenRequest, bind, do_https.
  rewrite Hhttps, Hparse. destruct (Z.eqb statusCode 200); reflexivity.
Qed.

(** X3. How the OAuth flow fails, client id and secret being present. An
    instance URL that does not parse fails before any request. Once the token
    request is issued: an error of the transport is thrown as it is; a body
    that is not JSON gives "Failed to parse OAuth response: <error>" whatever
    the status; the body [null] gives that same parse failure under a status
    other than 200, and under status 200 a [TypeError] for reading
    [instance_url] of [null]. *)
Theorem oauth_failures (w : World) (config : Monolith.ExtensionConfig)
    (h : list event) :
  Monolith.connectionType config = "OAuth_2.0_Client_Credentials" ->
  present (Monolith.clientId config) = true ->
  present (Monolith.clientSecret config) = true ->
  (forall e,
     new_URL w "/services/oauth2/token" (Monolith.instanceUrl config) = Throw e ->
     Monolith.createSalesforceConnection w config h = (Throw e, h))
  /\ (forall tokenUrl,
        new_URL w "/services/oauth2/token" (Monolith.instanceUrl config) = Ok tokenUrl ->
        let req := Monolith.tokenOptions w config tokenUrl in
        let h' := (h ++ [EHttps req])%list in
        (forall e,
           https_request w h req = HttpError e ->
           Monolith.createSalesforceConnection w config h = (Throw e, h'))
        /\ (forall statusCode data e,
              https_request w h req = HttpEnd statusCode data ->
              JSON_parse w data = Throw e ->
              Monolith.createSalesforceConnection w config h
              = (Throw (Error ("Failed to parse OAuth response: " ++ errorToString e)),
                 h'))
        /\ (forall statusCode data,
              https_request w h req = HttpEnd statusCode data ->
              JSON_parse w data = Ok VNull ->
              Monolith.createSalesforceConnection w config h
              = (Throw (if Z.eqb statusCode 200
                        then TypeError
                               "Cannot read properties of null (reading 'instance_url')"
                        else Error
                               "Failed to parse OAuth response: TypeError: Cannot read properties of null (reading 'error')"),
                 h'))).
Proof.
  intros Htype Hid Hsecret.
  unfold Monolith.createSalesforceConnection, Monolith.createConnectionInternal.
  rewrite Htype, Hid, Hsecret. simpl. split.
  - intros e Hurl. unfold bind, lift. rewrite Hurl. reflexivity.
  - intros tokenUrl Hurl.
    assert (forall r h',
              Monolith.tokenRequest w (Monolith.tokenOptions w config tokenUrl) h
              = (r, h') ->
              (tokenUrl0 <- lift (new_URL w "/services/oauth2/token"
                                          (Monolith.instanceUrl config)) ;;
               tokenResponse <- Monolith.tokenRequest w
                                  (Monolith.tokenOptions w config tokenUrl0) ;;
               instance_url <- lift (get tokenResponse "instance_url") ;;
               access_token <- lift (get tokenResponse "access_token") ;;
               ret (ConnToken instance_url access_token)) h
              = match r with
                | Ok tokenResponse =>
                    (instance_url <- lift (get tokenResponse "instance_url") ;;
                     access_token <- lift (get tokenResponse "access_token") ;;
                     ret (ConnToken instance_url access_token)) h'
                | Throw e => (Throw e, h')
                end) as Hrun.
    { intros r h' E. unfold bind at 1. unfold lift at 1. rewrite Hurl.
      unfold bind at 1. rewrite E. reflexivity. }
    repeat split.
    + intros e Hhttps. apply (Hrun (Throw e)).
      apply tokenRequest_transport_error. exact Hhttps.
    + intros statusCode data e Hhttps Hparse. apply (Hrun (Throw _)).
      apply (tokenRequest_unparsable w _ h statusCode data e Hhttps Hparse).
    + intros statusCode data Hhttps Hparse.
      rewrite (Hrun _ _ (tokenRequest_null w _ h statusCode data Hhttps Hparse)).
      destruct (Z.eqb statusCode 200); reflexivity.
Qed.

Lemma oauth_failures_witness :
  Monolith.createSalesforceConnection Stub2.offline
    (Stub.oauthConfig (Some "app") (Some "s3cret")) []
  = (Throw (Error "connect ECONNREFUSED"),
     [EHttps (Monolith.tokenOptions Stub2.offline
                (Stub.oauthConfig (Some "app") (Some "s3cret")) Stub.tokenUrl)]).
Proof.
  exact (proj1 (proj2 (oauth_failures Stub2.offline
                         (Stub.oauthConfig (Some "app") (Some "s3cret")) []
                         eq_refl eq_refl eq_refl) Stub.tokenUrl eq_refl)
               (Error "connect ECONNREFUSED") eq_refl).
Defined.

(** For the tools of [Monolith.ToolInvocation]: the calls of a tool call are
    those of the session acquisition, followed by those of the handler, and a
    failed acquisition is the end of the call. *)
Lemma monolith_tool_call_starts_with_the_session (w : World)
    (config : Monolith.ExtensionConfig) (call : Monolith.ToolInvocation)
    (h : list event) :
  (exists t,
     snd (Monolith.handleToolCall w config call h)
     = (snd (Monolith.createSalesforceConnection w config h) ++ t)%list)
  /\ (forall e h',
        Monolith.createSalesforceConnection w config h = (Throw e, h') ->
        Monolith.handleToolCall w config call h
        = (mkResponse [mkText "text" ("Error: " ++ messageOf e)] (Some true), h')).
Proof.
  unfold Monolith.handleToolCall, bind. split.
  - destruct (Monolith.createSalesforceConnection w config h) as [[conn|e] h1]; simpl.
    + destruct (emits_any_dispatch w conn call h1) as [t [E _]]. exists t.
      destruct (Monolith.dispatch w conn call h1) as [[r|e] h2]; exact E.
    + exists []. now rewrite app_nil_r.
  - intros e h' E. rewrite E. reflexivity.
Qed.

Lemma strOr_not_empty (o : option string) (d : string) :
  d <> "" -> strOr o d <> "".
Proof.
  intro Hd. unfold strOr. destruct o as [s|]; [|exact Hd].
  destruct (String.eqb s "") eqn:E; [exact Hd|].
  apply String.eqb_neq. exact E.
Qed.

(** X5. [initConfig] treats an environment variable set to the empty string
    as unset: the connection type, the instance URL, the API version and the
    log level of the configuration are never empty, and an empty or unset
    instance URL is the default login URL. *)
Theorem initConfig_defaults (w : World) (env : Monolith.ProcessEnv) :
  Monolith.connectionType (Monolith.initConfig w env) <> ""
  /\ Monolith.instanceUrl (Monolith.initConfig w env) <> ""
  /\ Monolith.apiVersion (Monolith.initConfig w env) <> ""
  /\ Monolith.logLevel (Monolith.initConfig w env) <> ""
  /\ (present (Monolith.SALESFORCE_INSTANCE_URL env) = false ->
      Monolith.instanceUrl (Monolith.initConfig w env)
      = "https://login.salesforce.com")
  /\ (present (Monolith.SALESFORCE_CONNECTION_TYPE env) = false ->
      Monolith.connectionType (Monolith.initConfig w env) = "User_Password").
Proof.
  simpl. repeat split; try (apply strOr_not_empty; discriminate).
  - destruct (Monolith.SALESFORCE_INSTANCE_URL env) as [s|]; [|reflexivity].
    unfold present, strOr. simpl. destruct (String.eqb s ""); [reflexivity|discriminate].
  - destruct (Monolith.SALESFORCE_CONNECTION_TYPE env) as [s|]; [|reflexivity].
    unfold present, strOr. simpl. destruct (String.eqb s ""); [reflexivity|discriminate].
Qed.

(* ------------------------------------------------------------------ *)
(** *** The logger *)

(** X6. The levels of the logger are cumulative: an error is always
    written; whatever is written at [debug] is written at [info], and whatever
    is written at [info] is written at [warn]; a logger whose level is none of
    "warn", "info" and "debug" writes errors only. *)
Theorem logger_levels_are_cumulative (l : Handlers.Logger) (args : list value) :
  Handlers.error l args = [VStr "[ERROR]" :: args]
  /\ (Handlers.debug l args <> [] -> Handlers.info l args <> [])
  /\ (Handlers.info l args <> [] -> Handlers.warn l args <> [])
  /\ (Handlers.level l <> "warn" -> Handlers.level l <> "info" ->
      Handlers.level l <> "debug" ->
      Handlers.warn l args = [] /\ Handlers.info l args = []
      /\ Handlers.debug l args = []).
Proof.
  unfold Handlers.error, Handlers.debug, Handlers.info, Handlers.warn,
    Handlers.includes. simpl.
  destruct (String.eqb (Handlers.level l) "warn") eqn:Ew;
    destruct (String.eqb (Handlers.level l) "info") eqn:Ei;
    destruct (String.eqb (Handlers.level l) "debug") eqn:Ed; simpl;
    repeat split; try congruence; try discriminate; intros;
    try (apply String.eqb_eq in Ew); try (apply String.eqb_eq in Ei);
    try (apply String.eqb_eq in Ed); congruence.
Qed.

(* ------------------------------------------------------------------ *)
(** *** Data manipulation, continued *)

Lemma get_notNullish (v : value) (k : string) :
  notNullish v = true -> get v k = Ok (get_opt v k).
Proof.
  intro H. unfold get_opt. destruct v; try discriminate H; simpl;
    try reflexivity;
    match goal with |- context [if ?c then _ else _] => destruct c end; reflexivity.
Qed.

Lemma mapR_get (k : string) (l : list value) :
  forallb notNullish l = true ->
  mapR (fun r => get r k) l = Ok (map (fun r => get_opt r k) l).
Proof.
  induction l as [|x rest IH]; simpl; intro H; [reflexivity|].
  apply andb_prop in H. destruct H as [Hx Hrest].
  rewrite (get_notNullish x k Hx), (IH Hrest). reflexivity.
Qed.

(** X7. An operation that is none of insert, update, delete and upsert
    issues no call; [dmlRecords] then reads [success] of an undefined result
    and throws the [TypeError] of that read. *)
Theorem dml_unknown_operation_throws (w : World) (conn : Connection)
    (args : Monolith.DmlArgs) (h : list event) :
  Monolith.dml_operation args <> "insert" ->
  Monolith.dml_operation args <> "update" ->
  Monolith.dml_operation args <> "delete" ->
  Monolith.dml_operation args <> "upsert" ->
  Monolith.dmlRecords w conn args h
  = (Throw (TypeError "Cannot read properties of undefined (reading 'success')"), h).
Proof.
  intros Hi Hu Hd Hs.
  apply String.eqb_neq in Hi, Hu, Hd, Hs.
  unfold Monolith.dmlRecords, Monolith.dmlSubmit. rewrite Hi, Hu, Hd, Hs.
  reflexivity.
Qed.

Lemma dml_unknown_operation_throws_witness :
  Monolith.dmlRecords Stub.quiet Stub.session
    (Stub.dmlArgs "merge" [Stub.acme; Stub.globex] None) []
  = (Throw (TypeError "Cannot read properties of undefined (reading 'success')"), []).
Proof.
  apply (dml_unknown_operation_throws Stub.quiet Stub.session
           (Stub.dmlArgs "merge" [Stub.acme; Stub.globex] None) []);
    discriminate.
Defined.

(** X8. The report of a well-formed result has an "Errors:" section exactly
    when an entry has failed: without failures it is the summary line alone,
    with the number of entries as the success count. A result that is a single
    object, not an array, is reported as a batch of one. *)
Theorem dml_report_sections (operation : string) (result : value) :
  forallb isBulkEntry (asArray result) = true ->
  let entries := asArray result in
  (failures entries = 0%nat ->
   Monolith.dmlReport operation result
   = Ok (dmlSummary operation (List.length entries) 0))
  /\ (failures entries <> 0%nat ->
      exists lines,
        Monolith.dmlReport operation result
        = Ok (dmlSummary operation (List.length entries - failures entries)
                         (failures entries)
              ++ "\n\nErrors:\n" ++ lines))
  /\ (forall fields, result = VObj fields -> entries = [result]).
Proof.
  intros Hwf entries.
  destruct (dmlCounts_wellformed entries Hwf) as [Hcounts _].
  unfold Monolith.dmlReport. fold entries. rewrite Hcounts. simpl.
  repeat split.
  - intro H0. rewrite H0. simpl. rewrite Nat.sub_0_r. reflexivity.
  - intro Hn. destruct (failures entries) as [|n] eqn:E; [congruence|]. simpl.
    destruct (dmlErrorLines_returns entries 0 Hwf) as [lines El]. rewrite El.
    exists lines. reflexivity.
  - intros fields ->. reflexivity.
Qed.

Lemma dml_report_sections_witness :
  Monolith.dmlReport "insert" (VObj [("id", VStr "001A"); ("success", VBool true)])
  = Ok "INSERT completed: 1 successful, 0 failed".
Proof.
  exact (proj1 (dml_report_sections "insert"
                  (VObj [("id", VStr "001A"); ("success", VBool true)]) eq_refl)
               eq_refl).
Defined.

(** X9. A delete submits one identifier per record, in the order of the
    records: the [Id] of each, [undefined] for a record without one. A record
    that is [null] or [undefined] makes the handler throw before it issues
    the call. *)
Theorem delete_submits_the_ids (w : World) (conn : Connection)
    (args : Monolith.DmlArgs) (h : list event) :
  Monolith.dml_operation args = "delete" ->
  let ids := map (fun r => get_opt r "Id") (Monolith.dml_records args) in
  (forallb notNullish (Monolith.dml_records args) = true ->
   snd (Monolith.dmlSubmit w conn args h)
   = (h ++ [ECall conn (SobjectDestroy (Monolith.dml_objectName args) (VArr ids))])%list
   /\ List.length ids = List.length (Monolith.dml_records args))
  /\ (forallb notNullish (Monolith.dml_records args) = false ->
      exists e, Monolith.dmlRecords w conn args h = (Throw e, h)).
Proof.
  intros Hop ids. unfold Monolith.dmlRecords, Monolith.dmlSubmit. rewrite Hop.
  simpl. split.
  - intro Hall. unfold bind, lift, do_call.
    rewrite (mapR_get "Id" _ Hall). simpl.
    split; [reflexivity | apply length_map].
  - intro Hsome. unfold bind, lift.
    assert (exists e, mapR (fun r => get r "Id") (Monolith.dml_records args)
                      = Throw e) as [e E].
    { induction (Monolith.dml_records args) as [|r rest IH]; simpl in *;
        [discriminate|].
      destruct (notNullish r) eqn:Hr; simpl in Hsome.
      - rewrite (get_notNullish r "Id" Hr). simpl.
        destruct (IH Hsome) as [e E]. rewrite E. eexists; reflexivity.
      - destruct r; try discriminate Hr; simpl; eexists; reflexivity. }
    rewrite E. exists e. reflexivity.
Qed.

Lemma delete_submits_the_ids_witness :
  snd (Monolith.dmlSubmit Stub.quiet Stub.session
         (Stub.dmlArgs "delete" [Stub.acme; VObj [("Name", VStr "No id")]] None) [])
  = [ECall Stub.session
       (SobjectDestroy "Account" (VArr [VStr "001A"; VUndef]))].
Proof.
  exact (proj1 (proj1 (delete_submits_the_ids Stub.quiet Stub.session
                         (Stub.dmlArgs "delete"
                            [Stub.acme; VObj [("Name", VStr "No id")]] None) []
                         eq_refl) eq_refl)).
Defined.

(* ------------------------------------------------------------------ *)
(** *** Field permissions, continued *)

(** X10. A grant only queries and creates: every call it issues is a query
    or the creation of a [FieldPermissions] record on the field, and every
    record it creates has [PermissionsRead] and [PermissionsEdit] set to
    [true], whatever the arguments [readable] and [editable] say. *)
Theorem grant_creates_read_and_edit_permissions (w : World) (conn : Connection)
    (args : Monolith.ManageFieldPermissionsArgs) (h : list event) :
  Monolith.fp_operation args = "grant" ->
  exists t,
    snd (Monolith.manageFieldPermissions w conn args h) = (h ++ t)%list
    /\ Forall (isGrantCall conn (Monolith.fp_objectName args)
                 (Monolith.fp_objectName args ++ "."
                  ++ Monolith.fieldApiNameOf (Monolith.fp_fieldName args))) t.
Proof.
  intro Hop.
  assert (emits (isGrantCall conn (Monolith.fp_objectName args)
                   (Monolith.fp_objectName args ++ "."
                    ++ Monolith.fieldApiNameOf (Monolith.fp_fieldName args)))
                (Monolith.manageFieldPermissions w conn args)) as H.
  { unfold Monolith.manageFieldPermissions. rewrite Hop. simpl.
    apply emits_bind; [|intro; apply emits_ret].
    apply emits_grantRevokeLoop_grant. exact Hop. }
  exact (H h).
Qed.

Lemma grant_creates_read_and_edit_permissions_witness :
  Monolith.fp_readable Stub2.grantNothing = Some false
  /\ Monolith.fp_editable Stub2.grantNothing = Some false
  /\ exists t,
       snd (Monolith.manageFieldPermissions Stub.profileAFails Stub.session
              Stub2.grantNothing [])
       = ([] ++ t)%list
       /\ Forall (isGrantCall Stub.session "Account" "Account.Rating__c") t.
Proof.
  split; [reflexivity|]. split; [reflexivity|].
  exact (grant_creates_read_and_edit_permissions Stub.profileAFails Stub.session
           Stub2.grantNothing [] eq_refl).
Defined.

Lemma grantRevokeLoop_other (w : World) (conn : Connection)
    (args : Monolith.ManageFieldPermissionsArgs) (profiles : list string)
    (h : list event) :
  Monolith.fp_operation args <> "grant" ->
  Monolith.fp_operation args <> "revoke" ->
  Monolith.grantRevokeLoop w conn args profiles h = (Ok [], h).
Proof.
  intros Hg Hr. apply String.eqb_neq in Hg, Hr.
  induction profiles as [|p rest IH]; simpl; [reflexivity|].
  rewrite Hg, Hr. unfold_monad. rewrite IH. reflexivity.
Qed.

(** X11. An operation that is none of view, grant and revoke is not
    rejected: the handler issues no call and returns an empty text, not
    flagged as an error, whatever the profile list. *)
Theorem unknown_permission_operation_is_silent (w : World) (conn : Connection)
    (args : Monolith.ManageFieldPermissionsArgs) (h : list event) :
  Monolith.fp_operation args <> "view" ->
  Monolith.fp_operation args <> "grant" ->
  Monolith.fp_operation args <> "revoke" ->
  Monolith.manageFieldPermissions w conn args h = (Ok (textResponse ""), h)
  /\ flaggedError (textResponse "") = false.
Proof.
  intros Hv Hg Hr. split; [|reflexivity].
  unfold Monolith.manageFieldPermissions.
  apply String.eqb_neq in Hv. rewrite Hv.
  unfold bind. rewrite (grantRevokeLoop_other w conn args _ h Hg Hr). reflexivity.
Qed.

Lemma unknown_permission_operation_is_silent_witness :
  Monolith.manageFieldPermissions Stub.quiet Stub.session
    (Stub.permissionArgs "remove" (Some ["Sales"; "Support"])) []
  = (Ok (textResponse ""), []).
Proof.
  apply (unknown_permission_operation_is_silent Stub.quiet Stub.session
           (Stub.permissionArgs "remove" (Some ["Sales"; "Support"])) []);
    discriminate.
Defined.

(* ------------------------------------------------------------------ *)
(** *** Custom fields *)

(** X12. [manageField] grants field-level security only after a successful
    create with a [grantAccessTo] list: an update, a failed deployment or a
    call without the list issues the metadata call and nothing else. After a
    successful create with the list, the response ends with "Field Level
    Security granted to: <profiles>" whatever happened while granting. *)
Theorem manageField_field_level_security (w : World) (conn : Connection)
    (args : Handlers.ManageFieldArgs) (h : list event)
    (metadata result success : value) :
  Handlers.fieldMetadata args = Ok metadata ->
  let deploy := Metadata (Handlers.mf_operation args) "CustomField" metadata in
  call w h conn deploy = Ok result ->
  Monolith.resultSuccess result = Ok success ->
  let text :=
    if truthy success
    then "Successfully " ++ Handlers.mf_operation args ++ "d field "
         ++ Handlers.mf_fieldName args ++ "__c on " ++ Handlers.mf_objectName args
    else "Failed to " ++ Handlers.mf_operation args ++ " field" in
  match Handlers.mf_grantAccessTo args with
  | Some profiles =>
      if truthy success && String.eqb (Handlers.mf_operation args) "create"
      then exists h',
             Handlers.manageField w conn args h
             = (Ok (textResponse (text ++ "\nField Level Security granted to: "
                                  ++ join ", " profiles)), h')
      else Handlers.manageField w conn args h
           = (Ok (textResponse text), (h ++ [ECall conn deploy])%list)
  | None =>
      Handlers.manageField w conn args h
      = (Ok (textResponse text), (h ++ [ECall conn deploy])%list)
  end.
Proof.
  intros Hmd deploy Hcall Hsuccess text.
  unfold Handlers.manageField, bind, lift, do_call. rewrite Hmd.
  fold deploy. rewrite Hcall, Hsuccess. fold text.
  destruct (Handlers.mf_grantAccessTo args) as [profiles|]; [|reflexivity].
  destruct (truthy success && String.eqb (Handlers.mf_operation args) "create");
    [|reflexivity].
  destruct (grantFieldPermissions_returns w conn (Handlers.mf_objectName args)
              (Handlers.mf_fieldName args) profiles (h ++ [ECall conn deploy])%list)
    as [h' E].
  rewrite E. exists h'. reflexivity.
Qed.

Lemma manageField_field_level_security_witness :
  Handlers.manageField Stub2.rejecting Stub.session Stub2.lookupField []
  = (Ok (textResponse "Failed to create field"),
     [ECall Stub.session
        (Metadata "create" "CustomField"
           (VObj [("fullName", VStr "Invoice__c.Customer__c__c");
                  ("label", VStr "Customer");
                  ("type", VStr "Lookup");
                  ("referenceTo", VStr "Account");
                  ("relationshipName", VStr "Invoices");
                  ("relationshipLabel", VStr "Invoices")]))]).
Proof.
  exact (manageField_field_level_security Stub2.rejecting Stub.session
           Stub2.lookupField [] _ _ (VBool false) eq_refl eq_refl eq_refl).
Defined.

Lemma lookup_setIfTrue (k k' : string) (flag : option bool)
    (fields : list (string * value)) :
  k <> k' -> lookup k (Handlers.setIfTrue k' flag fields) = lookup k fields.
Proof.
  intro H. unfold Handlers.setIfTrue.
  destruct flag as [[|]|]; try reflexivity. apply lookup_set_other. exact H.
Qed.

Lemma lookup_setIfNonZero (k k' : string) (n : option Z)
    (fields : list (string * value)) :
  k <> k' -> lookup k (Handlers.setIfNonZero k' n fields) = lookup k fields.
Proof.
  intro H. unfold Handlers.setIfNonZero.
  destruct n as [z|]; [|reflexivity].
  destruct (Z.eqb z 0); [reflexivity|]. apply lookup_set_other. exact H.
Qed.

Lemma lookup_setIfDefined (k k' : string) (n : option Z)
    (fields : list (string * value)) :
  k <> k' -> lookup k (Handlers.setIfDefined k' n fields) = lookup k fields.
Proof.
  intro H. unfold Handlers.setIfDefined.
  destruct n as [z|]; [|reflexivity]. apply lookup_set_other. exact H.
Qed.

Lemma lookup_setIfPresent_other (k k' : string) (o : option string)
    (fields : list (string * value)) :
  k <> k' -> lookup k (Handlers.setIfPresent k' o fields) = lookup k fields.
Proof.
  intro H. unfold Handlers.setIfPresent.
  destruct (present o); [|reflexivity]. apply lookup_set_other. exact H.
Qed.

Lemma lookup_withReference (k : string) (args : Handlers.ManageFieldArgs)
    (fields : list (string * value)) :
  (present (Handlers.mf_referenceTo args) = false
   \/ (k <> "referenceTo" /\ k <> "relationshipName" /\ k <> "relationshipLabel"
       /\ k <> "deleteConstraint")) ->
  lookup k (Handlers.withReference args fields) = lookup k fields.
Proof.
  unfold Handlers.withReference. intros [H | [H1 [H2 [H3 H4]]]].
  - rewrite H. reflexivity.
  - destruct (present (Handlers.mf_referenceTo args)); [|reflexivity].
    rewrite lookup_setIfPresent_other by exact H4.
    rewrite !lookup_set_other by assumption. reflexivity.
Qed.

Lemma lookup_withPicklist (k : string) (args : Handlers.ManageFieldArgs)
    (fields fields' : list (string * value)) :
  Handlers.withPicklist args fields = Ok fields' ->
  (Handlers.mf_picklistValues args = None \/ k <> "valueSet") ->
  lookup k fields' = lookup k fields.
Proof.
  unfold Handlers.withPicklist. intros E H.
  destruct (Handlers.mf_picklistValues args) as [values|].
  - destruct H as [H|H]; [discriminate|].
    destruct (mapR Handlers.picklistEntry values); simpl in E; [|discriminate].
    injection E as <-. apply lookup_set_other. exact H.
  - injection E as <-. reflexivity.
Qed.


Ltac through_field_metadata :=
  repeat first
    [ rewrite lookup_withReference
        by (first [ left; assumption
                  | right; repeat split; discriminate ])
    | rewrite lookup_setIfDefined by discriminate
    | rewrite lookup_setIfNonZero by discriminate
    | rewrite lookup_setIfPresent_other by discriminate
    | rewrite lookup_setIfTrue by discriminate ].



(** X14. What [manageField] leaves out of the descriptor. Without
    [referenceTo] no relationship attribute is attached, even when the call
    supplies a relationship name, label or delete constraint; without
    [picklistValues] there is no value set. A scale of 0 is submitted, whereas
    a precision or a length of 0, and [required: false], are left out. *)
Theorem manageField_conditional_attributes (args : Handlers.ManageFieldArgs)
    (metadata : value) :
  Handlers.fieldMetadata args = Ok metadata ->
  (present (Handlers.mf_referenceTo args) = false ->
   get metadata "referenceTo" = Ok VUndef
   /\ get metadata "relationshipName" = Ok VUndef
   /\ get metadata "relationshipLabel" = Ok VUndef
   /\ get metadata "deleteConstraint" = Ok VUndef)
  /\ (Handlers.mf_picklistValues args = None -> get metadata "valueSet" = Ok VUndef)
  /\ (forall z, Handlers.mf_scale args = Some z -> get metadata "scale" = Ok (VNum z))
  /\ (Handlers.mf_precision args = Some 0%Z -> get metadata "precision" = Ok VUndef)
  /\ (Handlers.mf_length args = Some 0%Z -> get metadata "length" = Ok VUndef)
  /\ (Handlers.mf_required args = Some false -> get metadata "required" = Ok VUndef).
Proof.
  intro Hmd. unfold Handlers.fieldMetadata in Hmd.
  destruct (Handlers.withPicklist args _) as [fields|e] eqn:E; [|discriminate].
  simpl in Hmd. injection Hmd as <-. simpl.
  repeat split; intros.
  - rewrite (lookup_withPicklist _ _ _ _ E) by (right; discriminate).
    through_field_metadata. reflexivity.
  - rewrite (lookup_withPicklist _ _ _ _ E) by (right; discriminate).
    through_field_metadata. reflexivity.
  - rewrite (lookup_withPicklist _ _ _ _ E) by (right; discriminate).
    through_field_metadata. reflexivity.
  - rewrite (lookup_withPicklist _ _ _ _ E) by (right; discriminate).
    through_field_metadata. reflexivity.
  - rewrite (lookup_withPicklist _ _ _ _ E) by (left; assumption).
    through_field_metadata. reflexivity.
  - rewrite (lookup_withPicklist _ _ _ _ E) by (right; discriminate).
    rewrite lookup_withReference by (right; repeat split; discriminate).
    match goal with H : Handlers.mf_scale args = Some _ |- _ => rewrite H end.
    simpl. rewrite lookup_set_same. reflexivity.
  - rewrite (lookup_withPicklist _ _ _ _ E) by (right; discriminate).
    rewrite lookup_withReference by (right; repeat split; discriminate).
    rewrite lookup_setIfDefined by discriminate.
    match goal with H : Handlers.mf_precision args = Some _ |- _ => rewrite H end.
    simpl. through_field_metadata. reflexivity.
  - rewrite (lookup_withPicklist _ _ _ _ E) by (right; discriminate).
    rewrite lookup_withReference by (right; repeat split; discriminate).
    rewrite lookup_setIfDefined by discriminate.
    rewrite lookup_setIfNonZero by discriminate.
    match goal with H : Handlers.mf_length args = Some _ |- _ => rewrite H end.
    simpl. through_field_metadata. reflexivity.
  - rewrite (lookup_withPicklist _ _ _ _ E) by (right; discriminate).
    rewrite lookup_withReference by (right; repeat split; discriminate).
    rewrite lookup_setIfDefined by discriminate.
    rewrite !lookup_setIfNonZero by discriminate.
    rewrite lookup_setIfPresent_other by discriminate.
    rewrite !lookup_setIfTrue by discriminate.
    match goal with H : Handlers.mf_required args = Some _ |- _ => rewrite H end.
    reflexivity.
Qed.

Lemma manageField_conditional_attributes_witness :
  exists metadata,
    Handlers.fieldMetadata Stub2.numberField = Ok metadata
    /\ get metadata "relationshipName" = Ok VUndef
    /\ get metadata "scale" = Ok (VNum 0)
    /\ get metadata "precision" = Ok VUndef.
Proof.
  eexists. split; [reflexivity|].
  pose proof (manageField_conditional_attributes Stub2.numberField _ eq_refl) as H.
  split; [exact (proj1 (proj2 (proj1 H eq_refl)))|].
  split; [exact (proj1 (proj2 (proj2 H)) 0%Z eq_refl)|].
  exact (proj1 (proj2 (proj2 (proj2 H))) eq_refl).
Defined.

(* ------------------------------------------------------------------ *)
(** *** Record queries *)

Lemma split_cons_free (c : ascii) (a rest : string) :
  occurs c a = false -> split c (a ++ String c rest) = a :: split c rest.
Proof.
  induction a as [|x a IH]; simpl; intro H.
  - rewrite Ascii.eqb_refl. reflexivity.
  - apply orb_false_elim in H. destruct H as [Hx Ha]. rewrite Hx, (IH Ha).
    reflexivity.
Qed.

Lemma fold_get_opt_nullish (parts : list string) (v : value) :
  notNullish v = false -> parts <> [] -> fold_left get_opt parts v = VUndef.
Proof.
  intros Hv Hparts. destruct parts as [|p parts]; [congruence|]. simpl.
  assert (get_opt v p = VUndef) as -> by (destruct v; try discriminate Hv; reflexivity).
  clear. induction parts as [|q parts IH]; simpl; [reflexivity | exact IH].
Qed.

Lemma split_not_nil (c : ascii) (s : string) : split c s <> [].
Proof.
  destruct s as [|x s]; simpl; [discriminate|].
  destruct (Ascii.eqb x c); [discriminate|]. destruct (split c s); discriminate.
Qed.

(** X15. [getNestedValue] follows a dotted path through related records and
    never throws: a path without a dot reads the property; a path
    [first.rest] reads [rest] in the value of [first]; from [null] or
    [undefined], and so from an absent relationship, every path gives
    [undefined]. *)
Theorem getNestedValue_follows_the_path (obj : value) (first rest : string) :
  occurs "." first = false ->
  Handlers.getNestedValue obj first = get_opt obj first
  /\ Handlers.getNestedValue obj (first ++ "." ++ rest)
     = Handlers.getNestedValue (get_opt obj first) rest
  /\ (notNullish obj = false ->
      forall path, Handlers.getNestedValue obj path = VUndef)
  /\ (notNullish (get_opt obj first) = false ->
      Handlers.getNestedValue obj (first ++ "." ++ rest) = VUndef).
Proof.
  intro Hfirst. unfold Handlers.getNestedValue.
  change (first ++ "." ++ rest) with (first ++ String "." rest).
  rewrite (split_cons_free _ _ rest Hfirst), (split_free _ _ Hfirst). simpl.
  repeat split.
  - intros Hobj path. apply fold_get_opt_nullish; [exact Hobj | apply split_not_nil].
  - intro Hrel. apply fold_get_opt_nullish; [exact Hrel | apply split_not_nil].
Qed.

Lemma getNestedValue_follows_the_path_witness :
  Handlers.getNestedValue Stub2.contact "Account.Name" = VStr "Acme"
  /\ Handlers.getNestedValue Stub2.contact "Owner.Manager.Name" = VUndef.
Proof.
  pose proof (getNestedValue_follows_the_path Stub2.contact "Account" "Name" eq_refl)
    as H1.
  pose proof (getNestedValue_follows_the_path Stub2.contact "Owner" "Manager.Name"
                eq_refl) as H2.
  split.
  - exact (proj1 (proj2 H1)).
  - exact (proj2 (proj2 (proj2 H2)) eq_refl).
Defined.






(* ------------------------------------------------------------------ *)
(** *** Reading Apex classes and triggers *)

(** X18. Reading a class or a trigger by name issues one query, built from
    that name alone (a name pattern given with it plays no part). With no row
    the handler fails with "No Apex class found: <name>", or "No trigger
    found: <name>"; with rows it renders the first one and ignores the
    others. *)
Theorem read_apex_by_name (w : World) (conn : Connection) (h : list event)
    (name : string) (pattern : option string) (meta : option bool) :
  name <> "" ->
  let classArgs := Handlers.mkReadApexArgs (Some name) pattern meta in
  let triggerArgs := Handlers.mkReadApexTriggerArgs (Some name) pattern meta in
  (query w h conn (Handlers.classByName name) = Ok [] ->
   Handlers.readApex w conn classArgs h
   = (Throw (Error ("No Apex class found: " ++ name)),
      (h ++ [EQuery conn (Handlers.classByName name)])%list))
  /\ (forall fields others,
        query w h conn (Handlers.classByName name) = Ok (VObj fields :: others) ->
        Handlers.readApex w conn classArgs h
        = (Ok (textResponse ("# " ++ toString (field fields "Name") ++ "\n\n```apex\n"
                             ++ toString (field fields "Body") ++ "\n```")),
           (h ++ [EQuery conn (Handlers.classByName name)])%list))
  /\ (query w h conn (Handlers.triggerByName name) = Ok [] ->
      Handlers.readApexTrigger w conn triggerArgs h
      = (Throw (Error ("No trigger found: " ++ name)),
         (h ++ [EQuery conn (Handlers.triggerByName name)])%list))
  /\ (forall fields others,
        query w h conn (Handlers.triggerByName name) = Ok (VObj fields :: others) ->
        Handlers.readApexTrigger w conn triggerArgs h
        = (Ok (textResponse ("# " ++ toString (field fields "Name") ++ " ("
                             ++ toString (field fields "TableEnumOrId")
                             ++ ")\n\n```apex\n"
                             ++ toString (field fields "Body") ++ "\n```")),
           (h ++ [EQuery conn (Handlers.triggerByName name)])%list)).
Proof.
  intros Hname classArgs triggerArgs.
  apply String.eqb_neq in Hname.
  unfold Handlers.readApex, Handlers.readApexTrigger, present, strOr. simpl.
  rewrite Hname. simpl. unfold bind, do_query. repeat split.
  - intro Hq. rewrite Hq. reflexivity.
  - intros fields others Hq. rewrite Hq. reflexivity.
  - intro Hq. rewrite Hq. reflexivity.
  - intros fields others Hq. rewrite Hq. reflexivity.
Qed.

Lemma read_apex_by_name_witness :
  Handlers.readApex Stub.quiet Stub.session
    (Handlers.mkReadApexArgs (Some "AccountController") (Some "Account") None) []
  = (Throw (Error "No Apex class found: AccountController"),
     [EQuery Stub.session (Handlers.classByName "AccountController")]).
Proof.
  assert ("AccountController" <> "") as Hne by discriminate.
  exact (proj1 (read_apex_by_name Stub.quiet Stub.session [] "AccountController"
                  (Some "Account") None Hne) eq_refl).
Defined.

(* ------------------------------------------------------------------ *)
(** *** Searching objects *)

Lemma searchTerms_blank (pattern : string) :
  onlySpaces pattern = true -> Tooling.searchTerms pattern = [].
Proof.
  unfold Tooling.searchTerms.
  induction pattern as [|c rest IH]; simpl; intro H; [reflexivity|].
  apply andb_prop in H. destruct H as [Hc Hrest].
  apply Ascii.eqb_eq in Hc. subst c. simpl. exact (IH Hrest).
Qed.

Lemma filter_all {A : Type} (p : A -> bool) (l : list A) :
  (forall x, p x = true) -> filter p l = l.
Proof.
  intro H. induction l as [|x rest IH]; simpl; [reflexivity|].
  now rewrite H, IH.
Qed.

(** X19. [searchObjects] with an empty pattern, or a pattern of spaces,
    lists every object of the org. Patterns that differ only in the case of
    their letters give the same result. *)
Theorem searchObjects_blank_and_case (w : Tooling.World) (conn : Connection)
    (h : list Tooling.event) :
  (forall pattern sobjects,
     onlySpaces pattern = true ->
     Tooling.describeGlobal w h conn = Ok sobjects ->
     Tooling.searchObjects w conn pattern h
     = (Ok (textResponse ("Found " ++ dec (List.length sobjects) ++ " objects:\n\n"
                          ++ join "\n\n" (map Tooling.objectEntry sobjects))),
        (h ++ [Tooling.mkEvent conn Tooling.DescribeGlobal])%list))
  /\ (forall p1 p2,
        Tooling.toLowerCase p1 = Tooling.toLowerCase p2 ->
        Tooling.searchObjects w conn p1 h = Tooling.searchObjects w conn p2 h).
Proof.
  split.
  - intros pattern sobjects Hblank Hd.
    unfold Tooling.searchObjects, Tooling.bind, Tooling.do_describeGlobal.
    rewrite Hd, (searchTerms_blank _ Hblank).
    rewrite filter_all by reflexivity. reflexivity.
  - intros p1 p2 Hcase.
    unfold Tooling.searchObjects, Tooling.searchTerms. rewrite Hcase. reflexivity.
Qed.

Lemma searchObjects_blank_and_case_witness :
  Tooling.searchObjects ToolingStub.org ToolingStub.session "  " []
  = (Ok (textResponse
           "Found 3 objects:\n\nAccount\n  Label: Account\n\nInvoice__c (Custom)\n  Label: Customer Invoice\n\nContact\n  Label: Contact"),
     [Tooling.mkEvent ToolingStub.session Tooling.DescribeGlobal])
  /\ Tooling.searchObjects ToolingStub.org ToolingStub.session "INVOICE" []
     = Tooling.searchObjects ToolingStub.org ToolingStub.session "invoice" [].
Proof.
  pose proof (searchObjects_blank_and_case ToolingStub.org ToolingStub.session [])
    as H.
  split.
  - exact (proj1 H "  " ToolingStub.sobjects eq_refl eq_refl).
  - exact (proj2 H "INVOICE" "invoice" eq_refl).
Defined.

(* ------------------------------------------------------------------ *)
(** *** Searching records *)

Lemma hasType_wellformed (name : string) (r : value) :
  hasAttributes r = true -> Tooling.hasType name r = Ok (typeIs name r).
Proof.
  unfold hasAttributes, Tooling.hasType, typeIs. intro H.
  apply andb_prop in H. destruct H as [Hr Ha].
  rewrite (get_notNullish r "attributes" Hr). simpl.
  rewrite (get_notNullish _ "type" Ha). reflexivity.
Qed.

Lemma filterR_hasType (name : string) (records : list value) :
  forallb hasAttributes records = true ->
  filterR (Tooling.hasType name) records = Ok (filter (typeIs name) records).
Proof.
  induction records as [|r rest IH]; simpl; intro H; [reflexivity|].
  apply andb_prop in H. destruct H as [Hr Hrest].
  rewrite (hasType_wellformed name r Hr), (IH Hrest). simpl.
  destruct (typeIs name r); reflexivity.
Qed.

Lemma mapR_total {A B : Type} (f : A -> result B) (g : A -> B) (l : list A) :
  (forall x, f x = Ok (g x)) -> mapR f l = Ok (map g l).
Proof.
  intro H. induction l as [|x rest IH]; simpl; [reflexivity|].
  now rewrite H, IH.
Qed.

Lemma typeIs_unique (n1 n2 : string) (r : value) :
  typeIs n1 r = true -> typeIs n2 r = true -> n1 = n2.
Proof.
  unfold typeIs. destruct (get_opt (get_opt r "attributes") "type");
    try discriminate.
  intros H1 H2. apply String.eqb_eq in H1, H2. congruence.
Qed.

(** A record is counted in the section of one object at most, the names of
    the objects being distinct. *)
Lemma sections_of_one_record (objects : list Tooling.SearchObject) (r : value) :
  NoDup (map Tooling.sa_name objects) ->
  list_sum (map (fun obj => if typeIs (Tooling.sa_name obj) r then 1 else 0)%nat
                objects)
  = (if requested objects r then 1 else 0)%nat.
Proof.
  unfold requested.
  induction objects as [|obj rest IH]; simpl; intro Hnd; [reflexivity|].
  inversion Hnd as [|n ns Hnotin Hrest]; subst.
  rewrite (IH Hrest).
  destruct (typeIs (Tooling.sa_name obj) r) eqn:E; simpl; [|reflexivity].
  destruct (existsb (fun o => typeIs (Tooling.sa_name o) r) rest) eqn:Ex;
    [|reflexivity].
  exfalso. apply existsb_exists in Ex. destruct Ex as [o [Hin Ho]].
  apply Hnotin. rewrite (typeIs_unique _ _ r E Ho).
  apply in_map. exact Hin.
Qed.

Lemma list_sum_map_add {A : Type} (f g : A -> nat) (l : list A) :
  list_sum (map (fun x => f x + g x)%nat l)
  = (list_sum (map f l) + list_sum (map g l))%nat.
Proof. induction l as [|x rest IH]; simpl; [reflexivity | rewrite IH; lia]. Qed.

Lemma sections_partition (objects : list Tooling.SearchObject) (records : list value) :
  NoDup (map Tooling.sa_name objects) ->
  list_sum (map (sectionSize records) objects)
  = List.length (filter (requested objects) records).
Proof.
  intro Hnd. unfold sectionSize.
  induction records as [|r rest IH]; simpl.
  - induction objects as [|o os IHo]; simpl; [reflexivity|].
    inversion Hnd; subst. auto.
  - rewrite (map_ext _ (fun obj =>
               (if typeIs (Tooling.sa_name obj) r then 1 else 0)
               + List.length (filter (typeIs (Tooling.sa_name obj)) rest))%nat).
    + rewrite list_sum_map_add, IH, (sections_of_one_record objects r Hnd).
      destruct (requested objects r); reflexivity.
    + intro obj. destruct (typeIs (Tooling.sa_name obj) r); reflexivity.
Qed.

(** X20. [searchAll] issues one search and sorts its flat result by type:
    the section of each requested object announces and lists the records
    whose type tag is the name of the object, in the order of the result. The
    names of the objects being distinct, no record is listed twice, and the
    sizes of the sections add up to the number of records of a requested
    type: a record of another type is listed nowhere. In a section a value
    that is falsy, 0 and the empty string included, is rendered as "null". *)
Theorem searchAll_sorts_by_type (w : Tooling.World) (conn : Connection)
    (args : Tooling.SearchAllArgs) (h : list Tooling.event) (records : list value) :
  Tooling.search w h conn (Tooling.sosl args) = Ok records ->
  forallb hasAttributes records = true ->
  let section (obj : Tooling.SearchObject) :=
    "\n" ++ Tooling.sa_name obj ++ " (" ++ dec (sectionSize records obj)
    ++ " records):\n"
    ++ Tooling.searchRecordsText (Tooling.sa_fields obj)
         (filter (typeIs (Tooling.sa_name obj)) records) 0 in
  Tooling.searchAll w conn args h
  = (Ok (textResponse ("Search Results:"
                       ++ String.concat "" (map section (Tooling.sa_objects args)))),
     (h ++ [Tooling.mkEvent conn (Tooling.Search (Tooling.sosl args))])%list)
  /\ (NoDup (map Tooling.sa_name (Tooling.sa_objects args)) ->
      list_sum (map (sectionSize records) (Tooling.sa_objects args))
      = List.length (filter (requested (Tooling.sa_objects args)) records)
      /\ (list_sum (map (sectionSize records) (Tooling.sa_objects args))
          <= List.length records)%nat)
  /\ (forall fields name,
        truthy (field fields name) = false ->
        Tooling.searchLine (VObj fields) name = "    " ++ name ++ ": null\n").
Proof.
  intros Hsearch Hwf section. split; [|split].
  - unfold Tooling.searchAll, Tooling.bind, Tooling.do_search, Tooling.lift.
    rewrite Hsearch.
    rewrite (mapR_total (Tooling.searchSection records) section).
    + reflexivity.
    + intro obj. unfold Tooling.searchSection.
      rewrite (filterR_hasType _ _ Hwf). reflexivity.
  - intro Hnd. rewrite (sections_partition _ records Hnd).
    split; [reflexivity | apply filter_length_le].
  - intros fields name Hfalsy. unfold Tooling.searchLine, get_opt, or_else. simpl.
    unfold field in Hfalsy. rewrite Hfalsy. reflexivity.
Qed.

Lemma searchAll_sorts_by_type_witness :
  Tooling.searchAll ToolingStub.org ToolingStub.session ToolingStub.searchArgs []
  = (Ok (textResponse
           "Search Results:\nAccount (1 records):\n  Record 1:\n    Name: Acme\n    NumberOfEmployees: null\n\nContact (0 records):\n"),
     [Tooling.mkEvent ToolingStub.session
        (Tooling.Search
           "FIND {Acme} IN ALL FIELDS RETURNING Account(Name,NumberOfEmployees), Contact(Name LIMIT 5)")]).
Proof.
  exact (proj1 (searchAll_sorts_by_type ToolingStub.org ToolingStub.session
                  ToolingStub.searchArgs [] _ eq_refl eq_refl)).
Defined.

(* ------------------------------------------------------------------ *)
(** *** Writing Apex classes and triggers *)

(** X21. Every operation of [writeApex] other than "create" is an update.
    An update first looks the class up by name: without a row it fails with
    "Class not found: <name>" and writes nothing; with rows it submits the
    [Id] of the first row with the new body, and nothing else (no API
    version, no name). *)
Theorem writeApex_update (w : Tooling.World) (config : Monolith.ExtensionConfig)
    (conn : Connection) (args : Tooling.WriteApexArgs) (h : list Tooling.event) :
  Tooling.wa_operation args <> "create" ->
  let soql := Tooling.classId (Tooling.wa_className args) in
  let lookup := Tooling.mkEvent conn (Tooling.Query soql) in
  (Tooling.query w h conn soql = Ok [] ->
   Tooling.writeApex w config conn args h
   = (Throw (Error ("Class not found: " ++ Tooling.wa_className args)),
      (h ++ [lookup])%list))
  /\ (forall fields others,
        Tooling.query w h conn soql = Ok (VObj fields :: others) ->
        snd (Tooling.writeApex w config conn args h)
        = (h ++ [lookup;
                 Tooling.mkEvent conn
                   (Tooling.ToolingUpdate "ApexClass"
                      (VObj [("Id", field fields "Id");
                             ("Body", VStr (Tooling.wa_body args))]))])%list).
Proof.
  intros Hop soql lookup. apply String.eqb_neq in Hop.
  unfold Tooling.writeApex. rewrite Hop. split.
  - intro Hq. unfold Tooling.bind, Tooling.do_query. fold soql. rewrite Hq.
    reflexivity.
  - intros fields others Hq.
    unfold Tooling.bind at 1. unfold Tooling.do_query. fold soql. rewrite Hq.
    simpl. unfold Tooling.bind, Tooling.lift, Tooling.do_tooling. simpl.
    rewrite <- app_assoc. simpl.
    destruct (Tooling.tooling w _ conn _); reflexivity.
Qed.

Lemma writeApex_update_witness :
  Tooling.writeApex ToolingStub.emptyOrg Stub.passwordConfig ToolingStub.session
    (ToolingStub.rewrite "upsert") []
  = (Throw (Error "Class not found: AccountController"),
     [Tooling.mkEvent ToolingStub.session
        (Tooling.Query "SELECT Id FROM ApexClass WHERE Name = 'AccountController'")]).
Proof.
  assert ("upsert" <> "create") as Hne by discriminate.
  exact (proj1 (writeApex_update ToolingStub.emptyOrg Stub.passwordConfig
                  ToolingStub.session (ToolingStub.rewrite "upsert") [] Hne)
               eq_refl).
Defined.

(** X22. Creating a trigger without [objectName] fails with "objectName
    required for create" before anything is sent. With it, the one call is the
    creation of an active trigger on that object, at the API version of the
    call or else of the configuration. *)
Theorem writeApexTrigger_create (w : Tooling.World)
    (config : Monolith.ExtensionConfig) (conn : Connection)
    (args : Tooling.WriteApexTriggerArgs) (h : list Tooling.event) :
  Tooling.wt_operation args = "create" ->
  (present (Tooling.wt_objectName args) = false ->
   Tooling.writeApexTrigger w config conn args h
   = (Throw (Error "objectName required for create"), h))
  /\ (present (Tooling.wt_objectName args) = true ->
      snd (Tooling.writeApexTrigger w config conn args h)
      = (h ++ [Tooling.mkEvent conn
                 (Tooling.ToolingCreate "ApexTrigger"
                    (VObj [("Name", VStr (Tooling.wt_triggerName args));
                           ("Body", VStr (Tooling.wt_body args));
                           ("ApiVersion",
                            VStr (strOr (Tooling.wt_apiVersion args)
                                        (Monolith.apiVersion config)));
                           ("Status", VStr "Active");
                           ("TableEnumOrId",
                            ofOpt (Tooling.wt_objectName args))]))])%list).
Proof.
  intro Hop. unfold Tooling.writeApexTrigger. rewrite Hop. simpl. split.
  - intro Hmissing. rewrite Hmissing. reflexivity.
  - intro Hpresent. rewrite Hpresent. simpl.
    unfold Tooling.bind, Tooling.do_tooling, Tooling.lift.
    destruct (Tooling.tooling w h conn _) as [result|e]; [|reflexivity].
    destruct (get result "id"); reflexivity.
Qed.

Lemma writeApexTrigger_create_witness :
  Tooling.writeApexTrigger ToolingStub.org Stub.passwordConfig ToolingStub.session
    (ToolingStub.newTrigger None) []
  = (Throw (Error "objectName required for create"), []).
Proof.
  exact (proj1 (writeApexTrigger_create ToolingStub.org Stub.passwordConfig
                  ToolingStub.session (ToolingStub.newTrigger None) [] eq_refl)
               eq_refl).
Defined.

(* ------------------------------------------------------------------ *)
(** *** Debug logs *)

(** X23. [manageDebugLogs] looks the user up before it looks at the
    operation. Without a matching user every operation fails with "User not
    found: <username>" after that one query; with a user, an operation that
    is none of enable, disable and retrieve fails with "Invalid operation:
    <operation>", after the same query and nothing else. *)
Theorem debug_logs_look_the_user_up_first (w : Tooling.World) (conn : Connection)
    (args : Tooling.ManageDebugLogsArgs) (h : list Tooling.event) :
  let soql := Tooling.userByName (Tooling.dl_username args) in
  let lookup := Tooling.mkEvent conn (Tooling.Query soql) in
  (Tooling.query w h conn soql = Ok [] ->
   Tooling.manageDebugLogs w conn args h
   = (Throw (Error ("User not found: " ++ Tooling.dl_username args)),
      (h ++ [lookup])%list))
  /\ (forall user others,
        Tooling.query w h conn soql = Ok (user :: others) ->
        Tooling.dl_operation args <> "enable" ->
        Tooling.dl_operation args <> "disable" ->
        Tooling.dl_operation args <> "retrieve" ->
        Tooling.manageDebugLogs w conn args h
        = (Throw (Error ("Invalid operation: " ++ Tooling.dl_operation args)),
           (h ++ [lookup])%list)).
Proof.
  intros soql lookup.
  unfold Tooling.manageDebugLogs, Tooling.bind, Tooling.do_query. split.
  - intro Hq. fold soql. rewrite Hq. reflexivity.
  - intros user others Hq He Hd Hr. fold soql. rewrite Hq. simpl.
    apply String.eqb_neq in He, Hd, Hr. rewrite He, Hd, Hr. reflexivity.
Qed.

Lemma debug_logs_look_the_user_up_first_witness :
  Tooling.manageDebugLogs ToolingStub.emptyOrg ToolingStub.session
    (ToolingStub.debugArgs "purge" None) []
  = (Throw (Error "User not found: dev@example.com"),
     [Tooling.mkEvent ToolingStub.session
        (Tooling.Query (Tooling.userByName "dev@example.com"))])
  /\ Tooling.manageDebugLogs ToolingStub.org ToolingStub.session
       (ToolingStub.debugArgs "purge" None) []
     = (Throw (Error "Invalid operation: purge"),
        [Tooling.mkEvent ToolingStub.session
           (Tooling.Query (Tooling.userByName "dev@example.com"))]).
Proof.
  split.
  - exact (proj1 (debug_logs_look_the_user_up_first ToolingStub.emptyOrg
                    ToolingStub.session (ToolingStub.debugArgs "purge" None) [])
                 eq_refl).
  - apply (proj2 (debug_logs_look_the_user_up_first ToolingStub.org
                    ToolingStub.session (ToolingStub.debugArgs "purge" None) [])
                 ToolingStub.dev [] eq_refl); discriminate.
Defined.

(** The loop of [disable]: with a tooling API that accepts every deletion,
    it issues one deletion per flag, in order. *)
Lemma delete_loop (w : Tooling.World) (conn : Connection) (flags : list value)
    (h : list Tooling.event) :
  (forall h' id, exists v,
     Tooling.tooling w h' conn (Tooling.ToolingDelete "TraceFlag" id) = Ok v) ->
  forallb notNullish flags = true ->
  Tooling.for_of flags (fun flag =>
    Tooling.bind (Tooling.lift (get flag "Id")) (fun id =>
    Tooling.bind (Tooling.do_tooling w conn (Tooling.ToolingDelete "TraceFlag" id))
      (fun _ => Tooling.ret tt))) h
  = (Ok tt,
     (h ++ map (fun flag => Tooling.mkEvent conn
                              (Tooling.ToolingDelete "TraceFlag" (get_opt flag "Id")))
               flags)%list).
Proof.
  intros Hdel. revert h. induction flags as [|flag rest IH]; intros h Hwf; simpl.
  - now rewrite app_nil_r.
  - simpl in Hwf. apply andb_prop in Hwf. destruct Hwf as [Hflag Hrest].
    unfold Tooling.bind at 1. unfold Tooling.bind at 1. unfold Tooling.lift at 1.
    rewrite (get_notNullish flag "Id" Hflag).
    unfold Tooling.bind at 1. unfold Tooling.do_tooling at 1.
    destruct (Hdel h (get_opt flag "Id")) as [v E]. rewrite E.
    unfold Tooling.ret at 1. rewrite (IH _ Hrest).
    rewrite <- app_assoc. reflexivity.
Qed.

(** X24. [disable] lists the trace flags of the user that have not yet
    expired and, the tooling API accepting the deletions, deletes every one of
    them, one call per flag in the order of the list; the response reports
    their number. *)
Theorem disable_deletes_every_trace_flag (w : Tooling.World) (conn : Connection)
    (args : Tooling.ManageDebugLogsArgs) (h : list Tooling.event)
    (user : list (string * value)) (others flags : list value) :
  Tooling.dl_operation args = "disable" ->
  let lookup := Tooling.mkEvent conn
                  (Tooling.Query (Tooling.userByName (Tooling.dl_username args))) in
  let h1 := (h ++ [lookup])%list in
  let soql := Tooling.activeTraceFlags (toString (field user "Id"))
                (Tooling.toISOString w (Tooling.now w h1 0)) in
  Tooling.query w h conn (Tooling.userByName (Tooling.dl_username args))
  = Ok (VObj user :: others) ->
  Tooling.tooling_query w h1 conn soql = Ok flags ->
  forallb notNullish flags = true ->
  (forall h' id, exists v,
     Tooling.tooling w h' conn (Tooling.ToolingDelete "TraceFlag" id) = Ok v) ->
  Tooling.manageDebugLogs w conn args h
  = (Ok (textResponse ("Disabled " ++ dec (List.length flags)
                       ++ " debug log configurations for "
                       ++ toString (field user "Username"))),
     (h1 ++ [Tooling.mkEvent conn (Tooling.ToolingQuery soql)]
         ++ map (fun flag => Tooling.mkEvent conn
                               (Tooling.ToolingDelete "TraceFlag" (get_opt flag "Id")))
                flags)%list).
Proof.
  intros Hop lookup h1 soql Hq Hflags Hwf Hdel.
  unfold Tooling.manageDebugLogs. rewrite Hop.
  unfold Tooling.bind at 1. unfold Tooling.do_query. rewrite Hq. simpl.
  unfold Tooling.disableDebugLogs.
  unfold Tooling.bind at 1. unfold Tooling.lift at 1. simpl.
  unfold Tooling.bind at 1. unfold Tooling.readClock.
  unfold Tooling.bind at 1. unfold Tooling.do_tooling_query.
  fold lookup. fold h1. fold soql. fold (field user "Id"). fold soql.
  rewrite Hflags.
  unfold Tooling.bind at 1.
  rewrite (delete_loop w conn flags _ Hdel Hwf).
  unfold Tooling.bind, Tooling.lift, Tooling.ret. simpl.
  rewrite <- app_assoc. reflexivity.
Qed.

Lemma disable_deletes_every_trace_flag_witness :
  Tooling.manageDebugLogs ToolingStub.org ToolingStub.session
    (ToolingStub.debugArgs "disable" None) []
  = (Ok (textResponse "Disabled 2 debug log configurations for dev@example.com"),
     [Tooling.mkEvent ToolingStub.session
        (Tooling.Query (Tooling.userByName "dev@example.com"));
      Tooling.mkEvent ToolingStub.session
        (Tooling.ToolingQuery (Tooling.activeTraceFlags "005A" "1"));
      Tooling.mkEvent ToolingStub.session
        (Tooling.ToolingDelete "TraceFlag" (VStr "7tf1"));
      Tooling.mkEvent ToolingStub.session
        (Tooling.ToolingDelete "TraceFlag" (VStr "7tf2"))]).
Proof.
  apply (disable_deletes_every_trace_flag ToolingStub.org ToolingStub.session
           (ToolingStub.debugArgs "disable" None) [] _ [] _ eq_refl eq_refl eq_refl
           eq_refl).
  intros h' id. eexists. reflexivity.
Defined.

Lemma tooling_bind_lift {A B : Type} (a : A) (k : A -> Tooling.M B)
    (h : list Tooling.event) :
  Tooling.bind (Tooling.lift (Ok a)) k h = k a h.
Proof. reflexivity. Qed.

Lemma tooling_bind_clock {B : Type} (w : Tooling.World) (n : nat)
    (k : Z -> Tooling.M B) (h : list Tooling.event) :
  Tooling.bind (Tooling.readClock w n) k h = k (Tooling.now w h n) h.
Proof. reflexivity. Qed.

Lemma tooling_bind_query {B : Type} (w : Tooling.World) (conn : Connection)
    (soql : string) (k : list value -> Tooling.M B) (h : list Tooling.event)
    (records : list value) :
  Tooling.query w h conn soql = Ok records ->
  Tooling.bind (Tooling.do_query w conn soql) k h
  = k records (h ++ [Tooling.mkEvent conn (Tooling.Query soql)])%list.
Proof. intro E. unfold Tooling.bind, Tooling.do_query. now rewrite E. Qed.

Lemma tooling_bind_call {B : Type} (w : Tooling.World) (conn : Connection)
    (r : Tooling.request) (k : value -> Tooling.M B) (h : list Tooling.event)
    (v : value) :
  Tooling.tooling w h conn r = Ok v ->
  Tooling.bind (Tooling.do_tooling w conn r) k h
  = k v (h ++ [Tooling.mkEvent conn r])%list.
Proof. intro E. unfold Tooling.bind, Tooling.do_tooling. now rewrite E. Qed.

(** X25. [enable] creates a debug level and then a trace flag that refers
    to it and to the user. The flag expires [expirationTime] minutes after the
    first reading of the clock, 30 minutes when the argument is absent or 0,
    and every category of the level is logged at [logLevel], "DEBUG" when
    absent. When the creation of the flag fails, the error is thrown and the
    debug level created before it is left in place: no further call is
    issued. *)
Theorem enable_creates_a_level_then_a_flag (w : Tooling.World) (conn : Connection)
    (args : Tooling.ManageDebugLogsArgs) (h : list Tooling.event)
    (user level : list (string * value)) (others : list value) :
  Tooling.dl_operation args = "enable" ->
  let lookup := Tooling.mkEvent conn
                  (Tooling.Query (Tooling.userByName (Tooling.dl_username args))) in
  let h1 := (h ++ [lookup])%list in
  let expiration :=
    Tooling.plusMinutes w (Tooling.now w h1 0)
      (Tooling.numOr (Tooling.dl_expirationTime args) 30) in
  let logLevel := VStr (strOr (Tooling.dl_logLevel args) "DEBUG") in
  let createLevel :=
    Tooling.ToolingCreate "DebugLevel"
      (VObj [("DeveloperName", VStr ("UserDebug_" ++ decZ (Tooling.now w h1 1)));
             ("MasterLabel", VStr ("Debug " ++ toString (field user "Username")));
             ("ApexCode", logLevel); ("System", logLevel);
             ("Database", logLevel); ("Workflow", logLevel)]) in
  let h2 := (h1 ++ [Tooling.mkEvent conn createLevel])%list in
  let createFlag :=
    Tooling.ToolingCreate "TraceFlag"
      (VObj [("TracedEntityId", field user "Id");
             ("DebugLevelId", field level "id");
             ("LogType", VStr "USER_DEBUG");
             ("StartDate", VStr (Tooling.toISOString w (Tooling.now w h2 2)));
             ("ExpirationDate", VStr (Tooling.toISOString w expiration))]) in
  Tooling.query w h conn (Tooling.userByName (Tooling.dl_username args))
  = Ok (VObj user :: others) ->
  Tooling.tooling w h1 conn createLevel = Ok (VObj level) ->
  (forall v,
     Tooling.tooling w h2 conn createFlag = Ok v ->
     Tooling.manageDebugLogs w conn args h
     = (Ok (textResponse ("Enabled debug logs for "
                          ++ toString (field user "Username") ++ " until "
                          ++ Tooling.toLocaleString w expiration)),
        (h2 ++ [Tooling.mkEvent conn createFlag])%list))
  /\ (forall e,
        Tooling.tooling w h2 conn createFlag = Throw e ->
        Tooling.manageDebugLogs w conn args h
        = (Throw e, (h2 ++ [Tooling.mkEvent conn createFlag])%list))
  /\ (Tooling.dl_expirationTime args = None \/ Tooling.dl_expirationTime args = Some 0%Z ->
      expiration = Tooling.plusMinutes w (Tooling.now w h1 0) 30).
Proof.
  intros Hop lookup h1 expiration logLevel createLevel h2 createFlag Hq Hlevel.
  assert (forall r,
            Tooling.tooling w h2 conn createFlag = r ->
            Tooling.manageDebugLogs w conn args h
            = (match r with
               | Ok _ => Ok (textResponse ("Enabled debug logs for "
                                           ++ toString (field user "Username")
                                           ++ " until "
                                           ++ Tooling.toLocaleString w expiration))
               | Throw e => Throw e
               end,
               (h2 ++ [Tooling.mkEvent conn createFlag])%list)) as Hrun.
  { intros r Hr.
    unfold Tooling.manageDebugLogs. rewrite Hop.
    rewrite (tooling_bind_query w conn _ _ h _ Hq).
    change (List.length (VObj user :: others) =? 0)%nat with false.
    change (nth 0 (VObj user :: others) VUndef) with (VObj user).
    cbv beta iota. change (String.eqb "enable" "enable") with true. cbv iota.
    unfold Tooling.enableDebugLogs.
    rewrite !tooling_bind_clock.
    change (get (VObj user) "Username") with (Ok (field user "Username")).
    rewrite tooling_bind_lift.
    fold lookup h1 logLevel createLevel.
    rewrite (tooling_bind_call w conn createLevel _ h1 _ Hlevel).
    change (get (VObj user) "Id") with (Ok (field user "Id")).
    change (get (VObj level) "id") with (Ok (field level "id")).
    rewrite !tooling_bind_lift, tooling_bind_clock.
    fold h2 expiration createFlag.
    unfold Tooling.bind at 1. unfold Tooling.do_tooling. rewrite Hr.
    destruct r; reflexivity. }
  repeat split.
  - intros v Hv. exact (Hrun _ Hv).
  - intros e He. exact (Hrun _ He).
  - intros [Hn | Hz]; subst expiration; rewrite ?Hn, ?Hz; reflexivity.
Qed.

Lemma enable_creates_a_level_then_a_flag_witness :
  Tooling.manageDebugLogs ToolingStub.org ToolingStub.session
    (ToolingStub.debugArgs "enable" (Some 0%Z)) []
  = (Ok (textResponse "Enabled debug logs for dev@example.com until 31"),
     [Tooling.mkEvent ToolingStub.session
        (Tooling.Query (Tooling.userByName "dev@example.com"));
      Tooling.mkEvent ToolingStub.session
        (Tooling.ToolingCreate "DebugLevel"
           (VObj [("DeveloperName", VStr "UserDebug_1");
                  ("MasterLabel", VStr "Debug dev@example.com");
                  ("ApexCode", VStr "DEBUG"); ("System", VStr "DEBUG");
                  ("Database", VStr "DEBUG"); ("Workflow", VStr "DEBUG")]));
      Tooling.mkEvent ToolingStub.session
        (Tooling.ToolingCreate "TraceFlag"
           (VObj [("TracedEntityId", VStr "005A");
                  ("DebugLevelId", VStr "7dl1");
                  ("LogType", VStr "USER_DEBUG");
                  ("StartDate", VStr "2");
                  ("ExpirationDate", VStr "31")]))]).
Proof.
  exact (proj1 (enable_creates_a_level_then_a_flag ToolingStub.org
                  ToolingStub.session (ToolingStub.debugArgs "enable" (Some 0%Z)) []
                  _ _ [] eq_refl eq_refl eq_refl) _ eq_refl).
Defined.

(* ------------------------------------------------------------------ *)
(** *** The modular [manageObject] *)

(** X26. The modular [manageObject] never throws: whatever the platform
    answers it returns a response. Whatever is thrown on the way, by the
    create, the read or the update call, or by reading [success] in a result
    that has none to read, comes back as "Error managing object: <message>"
    flagged [isError], with no call after the one that failed; a result
    that reports no success comes back as "Failed to create ..." or
    "Failed to update ...", flagged as well. On the update path, which every
    operation other than "create" takes, a read that returns no descriptor
    ends the call with "Custom object <name> not found", flagged [isError],
    and no update is issued. *)
Theorem modular_manageObject_returns (w : World) (conn : Connection)
    (args : Modular.ManageObjectArgs) (h : list event) :
  let failure (e : error) :=
    Ok (Modular.reply ("Error managing object: " ++ message e) true) in
  let name := Modular.objectName args in
  (exists r h', Modular.manageObject w conn args h = (Ok r, h'))
  /\ (Modular.operation args = "create" ->
      let create := Metadata "create" "CustomObject" (Modular.createMetadata args) in
      (forall e,
         call w h conn create = Throw e ->
         Modular.manageObject w conn args h
         = (failure e, (h ++ [ECall conn create])%list))
      /\ (forall result e,
            call w h conn create = Ok result ->
            Modular.succeeded result = Throw e ->
            Modular.manageObject w conn args h
            = (failure e, (h ++ [ECall conn create])%list))
      /\ (forall result ok,
            call w h conn create = Ok result ->
            Modular.succeeded result = Ok ok ->
            Modular.manageObject w conn args h
            = (Ok (if ok
                   then Modular.reply ("Successfully created custom object " ++ name)
                                      false
                   else Modular.reply ("Failed to create custom object " ++ name)
                                      true),
               (h ++ [ECall conn create])%list)))
  /\ (Modular.operation args <> "create" ->
      let read := Metadata "read" "CustomObject" (VArr [VStr name]) in
      (forall e,
         call w h conn read = Throw e ->
         Modular.manageObject w conn args h
         = (failure e, (h ++ [ECall conn read])%list))
      /\ (forall existing,
            call w h conn read = Ok existing ->
            let current := match existing with
                           | VArr items => nth 0 items VUndef
                           | _ => existing
                           end in
            let update := Metadata "update" "CustomObject"
                                   (Modular.updateMetadata current args) in
            let h1 := (h ++ [ECall conn read])%list in
            (truthy current = false ->
             Modular.manageObject w conn args h
             = (Ok (Modular.reply ("Custom object " ++ name ++ " not found") true),
                h1))
            /\ (truthy current = true ->
                (forall e,
                   call w h1 conn update = Throw e ->
                   Modular.manageObject w conn args h
                   = (failure e, (h1 ++ [ECall conn update])%list))
                /\ (forall result e,
                      call w h1 conn update = Ok result ->
                      Modular.succeeded result = Throw e ->
                      Modular.manageObject w conn args h
                      = (failure e, (h1 ++ [ECall conn update])%list))
                /\ (forall result ok,
                      call w h1 conn update = Ok result ->
                      Modular.succeeded result = Ok ok ->
                      Modular.manageObject w conn args h
                      = (Ok (if ok
                             then Modular.reply
                                    ("Successfully updated custom object " ++ name)
                                    false
                             else Modular.reply
                                    ("Failed to update custom object " ++ name)
                                    true),
                         (h1 ++ [ECall conn update])%list))))).
Proof.
  intros failure name. subst failure name. split; [|split].
  - unfold Modular.manageObject, try_catch.
    match goal with
    | |- exists r h', match ?m h with _ => _ end = _ =>
        destruct (m h) as [[r|e] h1]
    end; eexists; eexists; reflexivity.
  - intros Hop create. subst create. apply String.eqb_eq in Hop.
    unfold Modular.manageObject, try_catch. rewrite Hop.
    repeat split.
    + intros e Hcall. unfold bind at 1. unfold do_call at 1.
      rewrite Hcall. reflexivity.
    + intros result e Hcall Hs. unfold bind at 1. unfold do_call at 1.
      rewrite Hcall. unfold bind, lift. rewrite Hs. reflexivity.
    + intros result ok Hcall Hs. unfold bind at 1. unfold do_call at 1.
      rewrite Hcall. unfold bind, lift, ret. rewrite Hs.
      destruct ok; reflexivity.
  - intros Hop read. subst read. apply String.eqb_neq in Hop.
    unfold Modular.manageObject, try_catch. rewrite Hop. split.
    + intros e Hread. unfold bind at 1. unfold do_call at 1.
      rewrite Hread. reflexivity.
    + intros existing Hread. cbv zeta.
      set (current := match existing with
                      | VArr items => nth 0 items VUndef
                      | _ => existing
                      end).
      split.
      * intro Hnone. unfold bind at 1. unfold do_call at 1.
        rewrite Hread. cbv beta iota zeta. fold current. rewrite Hnone.
        reflexivity.
      * intro Hsome. repeat split.
        -- intros e Hcall. unfold bind at 1. unfold do_call at 1.
           rewrite Hread. cbv beta iota zeta. fold current. rewrite Hsome.
           unfold bind at 1. unfold do_call at 1. cbn [negb].
           rewrite Hcall. reflexivity.
        -- intros result e Hcall Hs. unfold bind at 1. unfold do_call at 1.
           rewrite Hread. cbv beta iota zeta. fold current. rewrite Hsome.
           unfold bind at 1. unfold do_call at 1. cbn [negb].
           rewrite Hcall. unfold bind, lift. rewrite Hs. reflexivity.
        -- intros result ok Hcall Hs. unfold bind at 1. unfold do_call at 1.
           rewrite Hread. cbv beta iota zeta. fold current. rewrite Hsome.
           unfold bind at 1. unfold do_call at 1. cbn [negb].
           rewrite Hcall. unfold bind, lift, ret. rewrite Hs.
           destruct ok; reflexivity.
Qed.

Lemma modular_manageObject_returns_witness :
  Modular.manageObject Stub2.withoutInvoice Stub.session Stub.relabelModular []
  = (Ok (Modular.reply "Custom object Invoice__c not found" true),
     [ECall Stub.session (Metadata "read" "CustomObject" (VArr [VStr "Invoice__c"]))]).
Proof.
  assert (Modular.operation Stub.relabelModular <> "create") as Hne by discriminate.
  exact (proj1 (proj2 (proj2 (proj2 (modular_manageObject_returns Stub2.withoutInvoice
                                       Stub.session Stub.relabelModular [])) Hne)
                      (VArr []) eq_refl)
               eq_refl).
Defined.

Lemma set_same (k : string) (v : value) (fields : list (string * value)) :
  lookup k fields = Some v -> set k v fields = fields.
Proof.
  induction fields as [|[k0 v0] rest IH]; simpl; [discriminate|].
  destruct (String.eqb k k0) eqn:E.
  - intro H. injection H as ->. reflexivity.
  - intro H. now rewrite (IH H).
Qed.

Lemma setIfPresent_absent (k : string) (o : option string)
    (fields : list (string * value)) :
  present o = false -> Modular.setIfPresent k o fields = fields.
Proof. intro H. unfold Modular.setIfPresent. now rewrite H. Qed.

Lemma lookup_setIfPresent_same (k : string) (o : option string)
    (fields : list (string * value)) :
  present o = true -> lookup k (Modular.setIfPresent k o fields) = Some (ofOpt o).
Proof.
  intro H. unfold Modular.setIfPresent. rewrite H. apply lookup_set_same.
Qed.

(** X27. The merge of the modular update. An override the call supplies
    replaces the attribute of the current descriptor, at the top level
    ([label], [pluralLabel], [description], [sharingModel]) and inside
    [nameField] ([label], [type], [displayFormat]); every other attribute is
    submitted as it was read. An update that supplies no override, an empty
    string counting as none, submits a descriptor that has a [nameField]
    object exactly as it was read. *)
Theorem modular_merge (fields nameField : list (string * value))
    (args : Modular.ManageObjectArgs) :
  lookup "nameField" fields = Some (VObj nameField) ->
  let merged := Modular.updateMetadata (VObj fields) args in
  let mergedNameField := Modular.updateNameField (VObj fields) args in
  (present (Modular.label args) = true ->
   get merged "label" = Ok (ofOpt (Modular.label args)))
  /\ (present (Modular.pluralLabel args) = true ->
      get merged "pluralLabel" = Ok (ofOpt (Modular.pluralLabel args)))
  /\ (present (Modular.description args) = true ->
      get merged "description" = Ok (ofOpt (Modular.description args)))
  /\ (present (Modular.sharingModel args) = true ->
      get merged "sharingModel" = Ok (ofOpt (Modular.sharingModel args)))
  /\ get merged "nameField" = Ok mergedNameField
  /\ (present (Modular.nameFieldLabel args) = true ->
      get mergedNameField "label" = Ok (ofOpt (Modular.nameFieldLabel args)))
  /\ (present (Modular.nameFieldType args) = true ->
      get mergedNameField "type" = Ok (ofOpt (Modular.nameFieldType args)))
  /\ (present (Modular.nameFieldFormat args) = true ->
      get mergedNameField "displayFormat" = Ok (ofOpt (Modular.nameFieldFormat args)))
  /\ (forall k,
        k <> "label" -> k <> "pluralLabel" -> k <> "description" ->
        k <> "sharingModel" -> k <> "nameField" ->
        get merged k = get (VObj fields) k)
  /\ (forall k,
        k <> "label" -> k <> "type" -> k <> "displayFormat" ->
        get mergedNameField k = get (VObj nameField) k)
  /\ (present (Modular.label args) = false ->
      present (Modular.pluralLabel args) = false ->
      present (Modular.description args) = false ->
      present (Modular.sharingModel args) = false ->
      present (Modular.nameFieldLabel args) = false ->
      present (Modular.nameFieldType args) = false ->
      present (Modular.nameFieldFormat args) = false ->
      merged = VObj fields).
Proof.
  intros Hnf merged mergedNameField. subst merged mergedNameField.
  unfold Modular.updateMetadata. simpl.
  repeat split.
  - intro H. rewrite lookup_set_other by discriminate.
    rewrite !lookup_setIfPresent by (intro; discriminate).
    now rewrite lookup_setIfPresent_same.
  - intro H. rewrite lookup_set_other by discriminate.
    rewrite !lookup_setIfPresent by (intro; discriminate).
    now rewrite lookup_setIfPresent_same.
  - intro H. rewrite lookup_set_other by discriminate.
    rewrite !lookup_setIfPresent by (intro; discriminate).
    now rewrite lookup_setIfPresent_same.
  - intro H. rewrite lookup_set_other by discriminate.
    now rewrite lookup_setIfPresent_same.
  - now rewrite lookup_set_same.
  - intro H. unfold Modular.updateNameField. simpl.
    rewrite !lookup_setIfPresent by (intro; discriminate).
    now rewrite lookup_setIfPresent_same.
  - intro H. unfold Modular.updateNameField. simpl.
    rewrite !lookup_setIfPresent by (intro; discriminate).
    now rewrite lookup_setIfPresent_same.
  - intro H. unfold Modular.updateNameField. simpl.
    now rewrite lookup_setIfPresent_same.
  - intros k H1 H2 H3 H4 H5.
    exact (updateMetadata_frame fields args k
             (fun E => False_ind _ (H1 E)) (fun E => False_ind _ (H2 E))
             (fun E => False_ind _ (H3 E)) (fun E => False_ind _ (H4 E)) H5).
  - intros k H1 H2 H3.
    exact (updateNameField_frame fields nameField args k Hnf
             (fun E => False_ind _ (H1 E)) (fun E => False_ind _ (H2 E))
             (fun E => False_ind _ (H3 E))).
  - intros Hl Hp Hd Hs Hnl Hnt Hnff.
    unfold Modular.updateNameField, get_opt. simpl. rewrite Hnf. simpl.
    rewrite !setIfPresent_absent by assumption.
    now rewrite (set_same _ _ _ Hnf).
Qed.

Lemma modular_merge_witness :
  Modular.updateMetadata Stub.invoiceDescriptor Stub2.touch = Stub.invoiceDescriptor
  /\ get (Modular.updateMetadata Stub.invoiceDescriptor Stub.relabelModular) "label"
     = Ok (VStr "Bill").
Proof.
  pose (fields := spread Stub.invoiceDescriptor).
  pose (nameField := spread (or_else (get_opt Stub.invoiceDescriptor "nameField")
                                     (VObj []))).
  split.
  - exact (proj2 (proj2 (proj2 (proj2 (proj2 (proj2 (proj2 (proj2 (proj2 (proj2
             (modular_merge fields nameField Stub2.touch eq_refl))))))))))
             eq_refl eq_refl eq_refl eq_refl eq_refl eq_refl eq_refl).
  - exact (proj1 (modular_merge fields nameField Stub.relabelModular eq_refl) eq_refl).
Defined.

Lemma underscoresToSpaces_clean (s : string) :
  occurs "_" (Modular.underscoresToSpaces s) = false.
Proof.
  induction s as [|c s IH]; simpl; [reflexivity|]. rewrite IH.
  destruct (Ascii.eqb c "_") eqn:E; [reflexivity|]. rewrite E. reflexivity.
Qed.

(** X28. A create without a label derives it from the API name: the
    trailing [__c] is removed and every underscore becomes a space, so the
    label holds no underscore. The display format of the name field is
    submitted only for an "AutoNumber" name field. *)
Theorem modular_create_defaults (args : Modular.ManageObjectArgs) :
  present (Modular.label args) = false ->
  exists label,
    get (Modular.createMetadata args) "label" = Ok (VStr label)
    /\ label = Modular.underscoresToSpaces
                 (Modular.stripCustomSuffix (Modular.objectName args))
    /\ occurs "_" label = false
    /\ (endsWith (Modular.objectName args) "__c" = true ->
        String.length (Modular.stripCustomSuffix (Modular.objectName args))
        = (String.length (Modular.objectName args) - 3)%nat)
    /\ (Modular.nameFieldType args <> Some "AutoNumber" ->
        forall nameField,
          get (Modular.createMetadata args) "nameField" = Ok nameField ->
          get nameField "displayFormat" = Ok VUndef).
Proof.
  intro Hlabel. eexists. split; [|split; [reflexivity|split; [|split]]].
  - unfold Modular.createMetadata. simpl.
    rewrite !lookup_setIfPresent by (intro; discriminate). simpl.
    unfold or_else. unfold present in Hlabel. rewrite Hlabel. reflexivity.
  - apply underscoresToSpaces_clean.
  - intro Hends. unfold Modular.stripCustomSuffix. rewrite Hends.
    unfold endsWith in Hends. apply andb_prop in Hends. destruct Hends as [Hlen _].
    apply Nat.leb_le in Hlen. simpl in Hlen.
    generalize dependent (Modular.objectName args). intros name Hlen.
    assert (forall n s, (n <= String.length s)%nat ->
                        String.length (substring 0 n s) = n) as Hsub.
    { induction n as [|n IH]; intros [|c s] Hn; simpl in *; try lia; try reflexivity.
      rewrite IH by lia. reflexivity. }
    apply Hsub. lia.
  - intros Htype nameField. unfold Modular.createMetadata. simpl.
    rewrite !lookup_setIfPresent by (intro; discriminate). simpl.
    intro E. injection E as <-.
    assert (match Modular.nameFieldType args with
            | Some t => String.eqb t "AutoNumber"
            | None => false
            end = false) as Hno.
    { destruct (Modular.nameFieldType args) as [t|]; [|reflexivity].
      apply String.eqb_neq. congruence. }
    rewrite Hno. reflexivity.
Qed.

Lemma modular_create_defaults_witness :
  get (Modular.createMetadata Stub2.newObject) "label" = Ok (VStr "Customer Feedback")
  /\ get (Modular.createMetadata Stub2.newObject) "nameField"
     = Ok (VObj [("type", VStr "Text"); ("label", VStr "Name")]).
Proof.
  destruct (modular_create_defaults Stub2.newObject eq_refl) as [label [Hget [Heq _]]].
  split; [|reflexivity].
  rewrite Hget, Heq. reflexivity.
Defined.

(* ------------------------------------------------------------------ *)
(** *** The modular server's tool call *)

(** X29. The modular server answers a tool call without ever throwing, and
    it rejects before it opens a session: with the arguments missing (or
    falsy) the response is "Error: Arguments are required", with a name that
    is not in the registry it is "Unknown tool: <name>", both flagged
    [isError] and with no network call issued. When the session cannot be
    acquired the response is "Error: <message>" and the tool's handler is not
    run; otherwise the handler runs on the session and an exception it raises
    is rendered the same way. *)
Theorem callTool_rejects_before_the_session (w : World)
    (User_Password OAuth_2_0_Client_Credentials : string)
    (env : Monolith.ProcessEnv)
    (toolRegistry : string -> option Registry.handler)
    (name : string) (h : list event) :
  let callTool := Registry.callTool w User_Password OAuth_2_0_Client_Credentials
                                    env toolRegistry name in
  let connect := Modular.createSalesforceConnection w User_Password
                   OAuth_2_0_Client_Credentials env in
  callTool None h = (Modular.reply "Error: Arguments are required" true, h)
  /\ (forall arguments,
        truthy arguments = false ->
        callTool (Some arguments) h
        = (Modular.reply "Error: Arguments are required" true, h))
  /\ (forall arguments,
        truthy arguments = true ->
        toolRegistry name = None ->
        callTool (Some arguments) h
        = (Modular.reply ("Unknown tool: " ++ name) true, h))
  /\ (forall arguments tool e h',
        truthy arguments = true ->
        toolRegistry name = Some tool ->
        connect h = (Throw e, h') ->
        callTool (Some arguments) h
        = (Modular.reply ("Error: " ++ message e) true, h'))
  /\ (forall arguments tool conn h',
        truthy arguments = true ->
        toolRegistry name = Some tool ->
        connect h = (Ok conn, h') ->
        callTool (Some arguments) h
        = match tool conn arguments h' with
          | (Ok r, h'') => (r, h'')
          | (Throw e, h'') => (Modular.reply ("Error: " ++ message e) true, h'')
          end).
Proof.
  intros callTool connect. subst callTool connect. unfold Registry.callTool.
  repeat split.
  - intros arguments Hfalsy. rewrite Hfalsy. reflexivity.
  - intros arguments Htruthy Hnone. rewrite Htruthy, Hnone. reflexivity.
  - intros arguments tool e h' Htruthy Htool Hconn.
    rewrite Htruthy, Htool. unfold bind. cbn [negb]. rewrite Hconn. reflexivity.
  - intros arguments tool conn h' Htruthy Htool Hconn.
    rewrite Htruthy, Htool. unfold bind. cbn [negb]. rewrite Hconn. reflexivity.
Qed.

Lemma callTool_rejects_before_the_session_witness :
  Registry.callTool Stub.quiet "User_Password" "OAuth_2.0_Client_Credentials"
    Stub.passwordEnv (fun _ => None) "salesforce_describe" (Some (VObj [])) []
  = (Modular.reply "Unknown tool: salesforce_describe" true, []).
Proof.
  exact (proj1 (proj2 (proj2
           (callTool_rejects_before_the_session Stub.quiet "User_Password"
              "OAuth_2.0_Client_Credentials" Stub.passwordEnv (fun _ => None)
              "salesforce_describe" [])))
           (VObj []) eq_refl eq_refl).
Defined.

(* ------------------------------------------------------------------ *)
(** *** Registering the extension *)

Lemma findIndex_replace {A : Type} (p : A -> result bool) (v : A) (l : list A) :
  p v = Ok true ->
  forall i j,
    Setup.findIndex p i l = Ok (Some j) ->
    (i <= j)%nat
    /\ Setup.findIndex p i (Setup.replaceAt (j - i) v l) = Ok (Some j)
    /\ Setup.replaceAt (j - i) v (Setup.replaceAt (j - i) v l)
       = Setup.replaceAt (j - i) v l
    /\ In v (Setup.replaceAt (j - i) v l)
    /\ List.length (Setup.replaceAt (j - i) v l) = List.length l.
Proof.
  intro Hv. induction l as [|x rest IH]; intros i j; simpl; [discriminate|].
  destruct (p x) as [[|]|e] eqn:Hx; simpl; try discriminate.
  - intro H. injection H as <-. rewrite Nat.sub_diag. simpl. rewrite Hv. simpl.
    repeat split; auto.
  - intro H. destruct (IH (S i) j H) as [Hle [Hfind [Hrep [Hin Hlen]]]].
    replace (j - i)%nat with (S (j - S i)) by lia. simpl. rewrite Hx. simpl.
    repeat split; [lia | exact Hfind | now rewrite Hrep | now right | now rewrite Hlen].
Qed.

Lemma findIndex_append {A : Type} (p : A -> result bool) (v : A) (l : list A) :
  p v = Ok true ->
  forall i,
    Setup.findIndex p i l = Ok None ->
    Setup.findIndex p i (l ++ [v])%list = Ok (Some (i + List.length l)%nat)
    /\ Setup.replaceAt (List.length l) v (l ++ [v])%list = (l ++ [v])%list.
Proof.
  intro Hv. induction l as [|x rest IH]; intro i; simpl.
  - intros _. rewrite Hv. simpl. rewrite Nat.add_0_r. split; reflexivity.
  - destruct (p x) as [[|]|e] eqn:Hx; simpl; try discriminate.
    intro H. destruct (IH (S i) H) as [Hfind Hrep].
    rewrite Hfind, Hrep. split; [f_equal; f_equal; lia | reflexivity].
Qed.

(** X30. Registering the extension settles the configuration: when it
    succeeds, the [extensions] array holds the entry
    [{id: 'salesforce', path}], every other key of the configuration is as it
    was, the array keeps its length or grows by one, and registering again at
    the same path changes nothing. *)
Theorem registerExtension_settles (config config' : list (string * value))
    (extensionPath : string) :
  Setup.registerExtension config extensionPath = Ok config' ->
  Setup.registerExtension config' extensionPath = Ok config'
  /\ (exists extensions,
        lookup "extensions" config' = Some (VArr extensions)
        /\ In (Setup.extensionEntry extensionPath) extensions
        /\ forall before,
             lookup "extensions" config = Some (VArr before) ->
             List.length extensions = List.length before
             \/ List.length extensions = S (List.length before))
  /\ (forall k, k <> "extensions" -> lookup k config' = lookup k config).
Proof.
  assert (Setup.isThisExtension extensionPath (Setup.extensionEntry extensionPath)
          = Ok true) as Hentry by reflexivity.
  unfold Setup.registerExtension.
  set (config1 := if truthy (opt_or_undef (lookup "extensions" config))
                  then config else set "extensions" (VArr []) config).
  assert (forall k, k <> "extensions" -> lookup k config1 = lookup k config) as Hframe.
  { intros k Hk. subst config1.
    destruct (truthy (opt_or_undef (lookup "extensions" config))); [reflexivity|].
    now apply lookup_set_other. }
  assert (forall before, lookup "extensions" config = Some (VArr before) ->
                         lookup "extensions" config1 = Some (VArr before)) as Hkeep.
  { intros before Hb. subst config1. rewrite Hb. exact Hb. }
  destruct (opt_or_undef (lookup "extensions" config1)) as [| | | | |extensions|]
    eqn:Hexts; try discriminate.
  assert (forall before, lookup "extensions" config = Some (VArr before) ->
                         before = extensions) as Hsame.
  { intros before Hb. rewrite (Hkeep before Hb) in Hexts. simpl in Hexts. congruence. }
  destruct (Setup.findIndex (Setup.isThisExtension extensionPath) 0 extensions)
    as [[i|]|e] eqn:Hfind; simpl; try discriminate; intro H; injection H as <-.
  - destruct (findIndex_replace _ _ _ Hentry 0 i Hfind)
      as [_ [Hagain [Hrep [Hin Hlen]]]].
    rewrite Nat.sub_0_r in Hagain, Hrep, Hin, Hlen.
    repeat split.
    + rewrite lookup_set_same. simpl. rewrite lookup_set_same. simpl.
      rewrite Hagain. simpl. rewrite Hrep.
      f_equal. apply set_same. apply lookup_set_same.
    + eexists. split; [apply lookup_set_same|]. split; [exact Hin|].
      intros before Hb. left. rewrite (Hsame before Hb). exact Hlen.
    + intros k Hk. rewrite lookup_set_other by exact Hk. now apply Hframe.
  - destruct (findIndex_append _ _ _ Hentry 0 Hfind) as [Hagain Hrep].
    repeat split.
    + rewrite lookup_set_same. simpl. rewrite lookup_set_same. simpl.
      rewrite Hagain. simpl. rewrite Hrep.
      f_equal. apply set_same. apply lookup_set_same.
    + eexists. split; [apply lookup_set_same|]. split.
      * apply in_or_app. right. now left.
      * intros before Hb. right. rewrite (Hsame before Hb).
        rewrite length_app. simpl. lia.
    + intros k Hk. rewrite lookup_set_other by exact Hk. now apply Hframe.
Qed.

Lemma registerExtension_settles_witness :
  Setup.registerExtension
    [("theme", VStr "dark");
     ("extensions", VArr [Setup.extensionEntry "/opt/salesforce"])]
    "/opt/salesforce"
  = Ok [("theme", VStr "dark");
        ("extensions", VArr [Setup.extensionEntry "/opt/salesforce"])].
Proof.
  exact (proj1 (registerExtension_settles
                  [("theme", VStr "dark")]
                  [("theme", VStr "dark");
                   ("extensions", VArr [Setup.extensionEntry "/opt/salesforce"])]
                  "/opt/salesforce" eq_refl)).
Defined.

(* ------------------------------------------------------------------ *)
(** *** The whole of [handleToolCall] *)

Lemma emits_any_createSalesforceConnection (w : World)
    (config : Monolith.ExtensionConfig) :
  emits (fun _ => True) (Monolith.createSalesforceConnection w config).
Proof.
  unfold Monolith.createSalesforceConnection, Monolith.createConnectionInternal.
  destruct (String.eqb (Monolith.connectionType config) "OAuth_2.0_Client_Credentials").
  - destruct (negb (present (Monolith.clientId config))
              || negb (present (Monolith.clientSecret config)));
      [apply emits_throw|].
    apply emits_bind; [apply emits_lift|intro tokenUrl].
    apply emits_bind; [|intro; repeat emits_step].
    unfold Monolith.tokenRequest.
    apply emits_bind;
      [apply emits_one with (e := EHttps (Monolith.tokenOptions w config tokenUrl));
       auto|intro out].
    cbv zeta. repeat emits_step.
  - destruct (negb (present (Monolith.username config))
              || negb (present (Monolith.password config)));
      [apply emits_throw|].
    apply emits_bind; [|intro; apply emits_ret].
    eapply emits_one; [intro h; reflexivity|exact I].
Qed.

Lemma coreCalls_app (h1 h2 : list Dispatch.event) :
  Dispatch.coreCalls (h1 ++ h2) = (Dispatch.coreCalls h1 ++ Dispatch.coreCalls h2)%list.
Proof.
  induction h1 as [|[e|e|c o] rest IH]; simpl; [reflexivity| |exact IH|exact IH].
  now rewrite IH.
Qed.

Lemma coreCalls_Core (s : list event) : Dispatch.coreCalls (map Dispatch.Core s) = s.
Proof. induction s as [|e rest IH]; simpl; [reflexivity|now rewrite IH]. Qed.

(** A computation of [Net.M] that only adds calls adds the same calls to the
    history of the whole server. *)
Lemma liftCore_run {A : Type} (m : Net.M A) (h : list Dispatch.event)
    (t : list event) :
  snd (m (Dispatch.coreCalls h)) = (Dispatch.coreCalls h ++ t)%list ->
  Dispatch.liftCore m h
  = (fst (m (Dispatch.coreCalls h)), (h ++ map Dispatch.Core t)%list).
Proof.
  intro E. unfold Dispatch.liftCore. cbv zeta. rewrite E.
  rewrite skipn_app, skipn_all, Nat.sub_diag. reflexivity.
Qed.

(** Whatever the tool, its handler only adds calls. *)
Lemma dispatch_appends (w : Dispatch.World) (config : Monolith.ExtensionConfig)
    (conn : Connection) (call : Dispatch.ToolInvocation) (h : list Dispatch.event) :
  exists t, snd (Dispatch.dispatch w config conn call h) = (h ++ t)%list.
Proof.
  destruct call; simpl;
    unfold Dispatch.executeWithTimeout, Dispatch.liftCore, Dispatch.liftService;
    try (eexists; reflexivity).
  - unfold Dispatch.describeObject, Dispatch.bind, Dispatch.do_describe,
      Dispatch.lift, Dispatch.ret.
    exists [Dispatch.Describe conn objectName].
    destruct (Dispatch.conn_describe w h conn objectName) as [described|e];
      [|reflexivity].
    destruct (Dispatch.describeText described); reflexivity.
  - exists []. now rewrite app_nil_r.
Qed.

(** X4. In [handleToolCall] nothing reaches the platform before the session
    acquisition: whatever the tool, one of the fifteen or an unknown name,
    the calls of a tool call are those of the acquisition, followed by those
    of the handler. When the acquisition fails the handler is not run: no
    further call is issued and the response is the error response of that
    failure, flagged [isError]. An unknown name is rejected only once the
    session is acquired, with "Error: Unknown tool: <name>". *)
Theorem tool_call_starts_with_the_session (w : Dispatch.World)
    (config : Monolith.ExtensionConfig) (call : Dispatch.ToolInvocation)
    (h : list Dispatch.event) :
  exists s,
    let h1 := (h ++ map Dispatch.Core s)%list in
    snd (Monolith.createSalesforceConnection (Dispatch.platform w) config
           (Dispatch.coreCalls h))
    = (Dispatch.coreCalls h ++ s)%list
    /\ snd (Dispatch.acquire w config h) = h1
    /\ (exists t, snd (Dispatch.handleToolCall w config call h) = (h1 ++ t)%list)
    /\ (forall e,
          fst (Dispatch.acquire w config h) = Throw e ->
          Dispatch.handleToolCall w config call h
          = (mkResponse [mkText "text" ("Error: " ++ messageOf e)] (Some true), h1))
    /\ (forall conn,
          fst (Dispatch.acquire w config h) = Ok conn ->
          Dispatch.handleToolCall w config call h
          = match Dispatch.dispatch w config conn call h1 with
            | (Ok r, h2) => (r, h2)
            | (Throw e, h2) =>
                (mkResponse [mkText "text" ("Error: " ++ messageOf e)] (Some true), h2)
            end)
    /\ (forall conn name,
          fst (Dispatch.acquire w config h) = Ok conn ->
          call = Dispatch.other name ->
          Dispatch.handleToolCall w config call h
          = (mkResponse [mkText "text" ("Error: Unknown tool: " ++ name)] (Some true),
             h1)).
Proof.
  destruct (emits_any_createSalesforceConnection (Dispatch.platform w) config
              (Dispatch.coreCalls h)) as [s [Hs _]].
  exists s. cbv zeta.
  assert (Dispatch.acquire w config h
          = (fst (Monolith.createSalesforceConnection (Dispatch.platform w) config
                    (Dispatch.coreCalls h)),
             (h ++ map Dispatch.Core s)%list)) as Hacquire
    by (unfold Dispatch.acquire; now apply liftCore_run).
  split; [exact Hs|]. split; [now rewrite Hacquire|].
  unfold Dispatch.handleToolCall, Dispatch.bind. rewrite Hacquire. simpl fst.
  destruct (fst (Monolith.createSalesforceConnection (Dispatch.platform w) config
                   (Dispatch.coreCalls h))) as [conn|e].
  - repeat split; try discriminate.
    + destruct (dispatch_appends w config conn call (h ++ map Dispatch.Core s)%list)
        as [t Ht].
      exists t.
      destruct (Dispatch.dispatch w config conn call (h ++ map Dispatch.Core s)%list)
        as [[r|e] h2]; exact Ht.
    + intros conn' E. injection E as <-. reflexivity.
    + intros conn' name E ->. reflexivity.
  - repeat split; try discriminate.
    + exists []. now rewrite app_nil_r.
    + intros e' E. injection E as <-. reflexivity.
Qed.

Lemma tool_call_starts_with_the_session_witness :
  Dispatch.handleToolCall wholeOrg Stub.passwordConfig
    (Dispatch.other "salesforce_describe") []
  = (mkResponse [mkText "text" "Error: Unknown tool: salesforce_describe"] (Some true),
     [Dispatch.Core (ELogin Stub.session "dev@example.com" "hunter2")]).
Proof.
  destruct (tool_call_starts_with_the_session wholeOrg Stub.passwordConfig
              (Dispatch.other "salesforce_describe") [])
    as [s [_ [Hacquire [_ [_ [_ Hunknown]]]]]].
  cbv zeta in Hacquire, Hunknown.
  rewrite (Hunknown Stub.session "salesforce_describe" eq_refl eq_refl).
  rewrite <- Hacquire. reflexivity.
Defined.

(** On the tools of [Monolith.ToolInvocation] and a history of calls of
    [Net.M], the whole server is [Monolith.handleToolCall]. *)
Lemma handleToolCall_whole (w : Dispatch.World) (config : Monolith.ExtensionConfig)
    (call : Monolith.ToolInvocation) (h : list event) :
  Dispatch.handleToolCall w config (whole call) (map Dispatch.Core h)
  = (fst (Monolith.handleToolCall (Dispatch.platform w) config call h),
     map Dispatch.Core (snd (Monolith.handleToolCall (Dispatch.platform w) config
                               call h))).
Proof.
  unfold Dispatch.handleToolCall, Monolith.handleToolCall, Dispatch.bind, bind,
    Dispatch.acquire.
  destruct (emits_any_createSalesforceConnection (Dispatch.platform w) config h)
    as [s [Hs _]].
  rewrite (liftCore_run _ _ s) by (now rewrite coreCalls_Core).
  rewrite coreCalls_Core.
  destruct (Monolith.createSalesforceConnection (Dispatch.platform w) config h)
    as [[conn|e] h1]; simpl in Hs; subst h1; simpl;
    [|now rewrite map_app].
  destruct (emits_any_dispatch (Dispatch.platform w) conn call (h ++ s)%list)
    as [t [Ht _]].
  assert (Dispatch.dispatch w config conn (whole call)
            (map Dispatch.Core h ++ map Dispatch.Core s)%list
          = (fst (Monolith.dispatch (Dispatch.platform w) conn call (h ++ s)%list),
             map Dispatch.Core (h ++ s ++ t)%list)) as Hd.
  { rewrite <- map_app.
    assert (forall m : Net.M response,
              snd (m (h ++ s)%list) = ((h ++ s) ++ t)%list ->
              Dispatch.liftCore m (map Dispatch.Core (h ++ s))
              = (fst (m (h ++ s)%list), map Dispatch.Core (h ++ s ++ t)%list)) as Hrun.
    { intros m Hm. rewrite (liftCore_run m _ t) by (now rewrite coreCalls_Core).
      rewrite coreCalls_Core, <- map_app, <- app_assoc. reflexivity. }
    destruct call; simpl in *; unfold Dispatch.executeWithTimeout;
      unfold Monolith.executeWithTimeout in Ht; now apply Hrun. }
  rewrite Hd.
  destruct (Monolith.dispatch (Dispatch.platform w) conn call (h ++ s)%list)
    as [[r|e] h2]; simpl in *; subst h2; now rewrite <- app_assoc.
Qed.
